(** * Telangana Dental Council registration backend: controllers

    A shallow embedding of [src/controllers/userController.js] (registration,
    login, password reset) and of the NOC controller (apply, list), together
    with the properties of the handlers that the specification states.

    Conventions of the embedding.
    - A JavaScript string is a [string]; each [ascii] stands for one UTF-16
      code unit below 256.  A value that may be [undefined] is an [option].
    - A JavaScript object used as a dictionary ([req.cleanedFormData], a
      Mongoose document's paths) is a [gmap string _]; an object that is
      iterated with [Object.entries] is an association list in iteration
      order.
    - The record store, the local disk, the object storage and the mail
      transport form the [World] that every handler threads through; the
      collaborators whose code is not part of the controllers (mailer,
      uploader, hashing, token signing, schema validation) are the fields of
      an [Env]. *)

From Stdlib Require Import ZArith NArith Ascii String List Lia Permutation.
From stdpp Require Import base option gmap strings list fin_maps sorting pretty.

Local Open Scope string_scope.

(** ** JavaScript strings *)

Module JS.

Definition code (c : ascii) : N := N_of_ascii c.

Definition in_range (lo hi c : ascii) : bool :=
  ((code lo <=? code c) && (code c <=? code hi))%N.

(** [\d] *)
Definition is_digit (c : ascii) : bool := in_range "0" "9" c.

(** [[a-zA-Z0-9_]] *)
Definition is_word (c : ascii) : bool :=
  in_range "a" "z" c || in_range "A" "Z" c || in_range "0" "9" c
  || Ascii.eqb c "_".

(** [[ ]] *)
Definition is_blank (c : ascii) : bool := Ascii.eqb c " ".

(** [\s] on code units below 256: TAB, LF, VT, FF, CR, SP and NBSP. *)
Definition is_space (c : ascii) : bool :=
  let n := code c in
  ((9 <=? n) && (n <=? 13) || (n =? 32) || (n =? 160))%N.

(** Truthiness of a value that is a string or [undefined]. *)
Definition truthy (v : option string) : bool :=
  match v with
  | Some s => negb (String.eqb s "")
  | None => false
  end.

(** Interpolation [`${v}`] of a string or [undefined]. *)
Definition interp (v : option string) : string := default "undefined" v.

(** [xs.filter(Boolean)] on an array of strings and [undefined]s. *)
Fixpoint filter_Boolean (xs : list (option string)) : list string :=
  match xs with
  | [] => []
  | Some s :: xs' =>
      if String.eqb s "" then filter_Boolean xs' else s :: filter_Boolean xs'
  | None :: xs' => filter_Boolean xs'
  end.

(** [xs.join(sep)] *)
Fixpoint join (sep : string) (xs : list string) : string :=
  match xs with
  | [] => ""
  | [x] => x
  | x :: xs' => x ++ sep ++ join sep xs'
  end.

(** [s.replace(/[C]/g, rep)] for a single-character class [C]. *)
Fixpoint replace_each (C : ascii -> bool) (rep : string) (s : string) : string :=
  match s with
  | "" => ""
  | String c s' =>
      if C c then rep ++ replace_each C rep s'
      else String c (replace_each C rep s')
  end.

(** [s.replace(/[C]+/g, rep)]: every maximal run of [C] becomes one [rep].
    [in_run] says that the previous code unit belonged to a run. *)
Fixpoint replace_runs_from (in_run : bool) (C : ascii -> bool) (rep : string)
    (s : string) : string :=
  match s with
  | "" => ""
  | String c s' =>
      if C c then
        if in_run then replace_runs_from true C rep s'
        else rep ++ replace_runs_from true C rep s'
      else String c (replace_runs_from false C rep s')
  end.

Definition replace_runs := replace_runs_from false.

(** [s.toLowerCase()] on code units below 256. *)
Definition lower_char (c : ascii) : ascii :=
  let n := code c in
  if ((65 <=? n) && (n <=? 90))%N then ascii_of_N (n + 32)
  else if ((192 <=? n) && (n <=? 222) && negb (n =? 215))%N
       then ascii_of_N (n + 32)
  else c.

Fixpoint toLowerCase (s : string) : string :=
  match s with
  | "" => ""
  | String c s' => String (lower_char c) (toLowerCase s')
  end.

(** [s.trim()] on code units below 256. *)
Fixpoint trimStart (s : string) : string :=
  match s with
  | "" => ""
  | String c s' => if is_space c then trimStart s' else s
  end.

Definition trim (s : string) : string :=
  String.rev (trimStart (String.rev (trimStart s))).

(** *** Regular expressions

    The fragment used by the controllers' anchored pattern, matched with
    Brzozowski derivatives. *)

Inductive regex : Type :=
  | Void
  | Eps
  | Chr (c : ascii)
  | Range (lo hi : ascii)
  | Digit
  | Seq (r1 r2 : regex)
  | Alt (r1 r2 : regex).

(** [r{n}] *)
Fixpoint Rep (n : nat) (r : regex) : regex :=
  match n with
  | O => Eps
  | S n' => Seq r (Rep n' r)
  end.

Fixpoint nullable (r : regex) : bool :=
  match r with
  | Void | Chr _ | Range _ _ | Digit => false
  | Eps => true
  | Seq r1 r2 => nullable r1 && nullable r2
  | Alt r1 r2 => nullable r1 || nullable r2
  end.

Definition seq' (r1 r2 : regex) : regex :=
  match r1, r2 with
  | Void, _ => Void
  | _, Void => Void
  | Eps, _ => r2
  | _, _ => Seq r1 r2
  end.

Definition alt' (r1 r2 : regex) : regex :=
  match r1, r2 with
  | Void, _ => r2
  | _, Void => r1
  | _, _ => Alt r1 r2
  end.

Fixpoint deriv (c : ascii) (r : regex) : regex :=
  match r with
  | Void | Eps => Void
  | Chr c' => if Ascii.eqb c c' then Eps else Void
  | Range lo hi => if in_range lo hi c then Eps else Void
  | Digit => if is_digit c then Eps else Void
  | Seq r1 r2 =>
      if nullable r1 then alt' (seq' (deriv c r1) r2) (deriv c r2)
      else seq' (deriv c r1) r2
  | Alt r1 r2 => alt' (deriv c r1) (deriv c r2)
  end.

Fixpoint matches (r : regex) (s : string) : bool :=
  match s with
  | "" => nullable r
  | String c s' => matches (deriv c r) s'
  end.

(** [/^r$/.test(s)]: without the [m] flag the anchors are the two ends of
    the subject. *)
Definition test_anchored (r : regex) (s : string) : bool := matches r s.

End JS.

(** ** The [path] module of the runtime (POSIX flavour) *)

Module Path.

(** The loop variables of [path.extname]. *)
Record scan : Type := mkScan {
  startDot : Z;
  startPart : Z;
  end_ : Z;
  matchedSlash : bool;
  preDotState : Z
}.

Definition scan0 : scan := mkScan (-1) 0 (-1) true 0.

(** One pass of [for (let i = path.length - 1; i >= 0; --i)]; [rev_path]
    holds the code units at the indices [i, i-1, ..., 0]. *)
Fixpoint extname_loop (rev_path : list ascii) (i : Z) (st : scan) : scan :=
  match rev_path with
  | [] => st
  | c :: rest =>
      if Ascii.eqb c "/" then
        if negb (matchedSlash st) then
          mkScan (startDot st) (i + 1) (end_ st) (matchedSlash st)
                 (preDotState st)
        else extname_loop rest (i - 1) st
      else
        let st1 :=
          if (end_ st =? -1)%Z then
            mkScan (startDot st) (startPart st) (i + 1) false (preDotState st)
          else st in
        let st2 :=
          if Ascii.eqb c "." then
            if (startDot st1 =? -1)%Z then
              mkScan i (startPart st1) (end_ st1) (matchedSlash st1)
                     (preDotState st1)
            else if negb (preDotState st1 =? 1)%Z then
              mkScan (startDot st1) (startPart st1) (end_ st1)
                     (matchedSlash st1) 1
            else st1
          else if negb (startDot st1 =? -1)%Z then
            mkScan (startDot st1) (startPart st1) (end_ st1)
                   (matchedSlash st1) (-1)
          else st1 in
        extname_loop rest (i - 1) st2
  end.

(** [s.slice(from, to)] for [0 <= from <= to]. *)
Definition slice (s : string) (from to : Z) : string :=
  String.substring (Z.to_nat from) (Z.to_nat (to - from)) s.

Definition extname (p : string) : string :=
  let st :=
    extname_loop (rev (list_ascii_of_string p))
                 (Z.of_nat (String.length p) - 1) scan0 in
  if (startDot st =? -1)%Z || (end_ st =? -1)%Z || (preDotState st =? 0)%Z
     || ((preDotState st =? 1)%Z && (startDot st =? end_ st - 1)%Z
         && (startDot st =? startPart st + 1)%Z)
  then ""
  else slice p (startDot st) (end_ st).

(** [path.join(base, segment)] for a [segment] made of word characters:
    an empty segment is dropped. *)
Definition join (base segment : string) : string :=
  if String.eqb segment "" then base else base ++ "/" ++ segment.

End Path.

(** ** Data model *)

#[local] Set Warnings "-register-all".

(** JSON values of response bodies.  A document identifier is kept apart
    from ordinary strings. *)
Inductive json : Type :=
  | JNull
  | JBool (b : bool)
  | JNum (z : Z)
  | JStr (s : string)
  | JId (n : nat)
  | JArr (xs : list json)
  | JObj (fields : list (string * json)).

(** The member [k: v] of an object literal that is sent with [res.json]:
    a member whose value is [undefined] is left out of the JSON text. *)
Definition member (k : string) (v : option string) : list (string * json) :=
  match v with
  | Some s => [(k, JStr s)]
  | None => []
  end.

(** A user document.  [profile] holds the schema paths that are filled from
    the form ([f_name], [email], [password], the uploaded-document URLs, ...). *)
Record User : Type := mkUser {
  _id : nat;
  profile : gmap string string;
  resetPasswordToken : option string;
  resetPasswordExpire : option Z
}.

Definition path_of (u : User) (k : string) : option string := profile u !! k.

Definition with_reset (u : User) (tok : option string) (exp : option Z) : User :=
  mkUser (_id u) (profile u) tok exp.

(** [user.password = v] *)
Definition with_password (u : User) (v : option string) : User :=
  mkUser (_id u)
         (match v with
          | Some s => <["password" := s]> (profile u)
          | None => delete "password" (profile u)
          end)
         (resetPasswordToken u) (resetPasswordExpire u).

(** Values of the paths of an NOC document. *)
Inductive val : Type :=
  | VStr (s : string)
  | VId (n : nat).

#[global] Instance val_eq_dec : EqDecision val.
Proof. solve_decision. Defined.

Record NOC : Type := mkNOC {
  noc_id : nat;
  noc_paths : gmap string val;
  createdAt : Z
}.

(** An uploaded file as the multipart middleware hands it over. *)
Record File : Type := mkFile {
  originalname : string;
  buffer : string
}.

Record Mail : Type := mkMail {
  mail_to : option string;
  subject : string;
  message : string
}.

Record Cookie : Type := mkCookie {
  cookie_name : string;
  cookie_value : string;
  httpOnly : bool;
  secure : bool;
  sameSite : string;
  maxAge : Z
}.

Record Response : Type := mkResponse {
  status : nat;
  body : json;
  cookies : list Cookie
}.

(** Everything a handler can read or change besides its request. *)
Record World : Type := mkWorld {
  users : list User;
  nocs : list NOC;
  regcategories : list string;
  nationalities : list string;
  folders : list string;
  disk : list (string * string * string);
  cloud : list (string * string * string);
  outbox : list Mail
}.

(** The collaborators of the controllers.  None of them is defined in the
    controllers' sources, so each is a parameter of the embedding. *)
Record Env : Type := mkEnv {
  (** [jwt.sign({ id }, process.env.JWT_SECRET, ...)] *)
  jwt_sign : nat -> string;
  (** [crypto.createHash('sha256').update(s).digest('hex')] *)
  sha256_hex : string -> string;
  (** [bcrypt.compare(password, hash)] *)
  bcrypt_compare : string -> string -> bool;
  (** the hashing that the User model applies to a modified password when
      the document is saved *)
  hash_password : string -> string;
  (** [utils/sendEmail.js]: [None] when the promise resolves, [Some msg]
      when it rejects with [Error(msg)] *)
  sendEmail : Mail -> option string;
  (** [utils/uploadToCloudinary.js] applied to buffer, file name and folder:
      the URL, or the message of the rejection *)
  uploadBufferToCloudinary : string -> string -> string -> string + string;
  (** schema validation of [models/User.js] and [models/NOC.js]: the message
      of the validation error, if any *)
  validateUser : User -> option string;
  validateNOC : NOC -> option string;
  (** [process.env.NODE_ENV === 'production'] *)
  production : bool;
  (** [path.join(__dirname, '..', 'uploads')] *)
  uploads_dir : string
}.

(** ** Handlers as state-and-exit computations

    A step of a handler either goes on with a value, or ends the handler by
    sending a response ([return res.status(..).json(..)]), or throws. *)

Inductive step (A : Type) : Type :=
  | Next (a : A)
  | Respond (r : Response)
  | Throw (msg : string).

Arguments Next {A} a.
Arguments Respond {A} r.
Arguments Throw {A} msg.

Definition M (A : Type) : Type := World -> World * step A.

Definition ret {A} (a : A) : M A := fun w => (w, Next a).

Definition bind {A B} (m : M A) (k : A -> M B) : M B :=
  fun w =>
    match m w with
    | (w', Next a) => k a w'
    | (w', Respond r) => (w', Respond r)
    | (w', Throw msg) => (w', Throw msg)
    end.

Notation "'let*' x ':=' m 'in' k" := (bind m (fun x => k))
  (at level 10, x pattern, m at level 100, k at level 200).
Notation "m ;; k" := (bind m (fun _ => k))
  (at level 100, k at level 200, right associativity).

Definition respond {A} (code : nat) (b : json) : M A :=
  fun w => (w, Respond (mkResponse code b [])).

Definition respond_with_cookie {A} (c : Cookie) (code : nat) (b : json) : M A :=
  fun w => (w, Respond (mkResponse code b [c])).

Definition throw {A} (msg : string) : M A := fun w => (w, Throw msg).

Definition get_world : M World := fun w => (w, Next w).

Definition modify (f : World -> World) : M unit := fun w => (f w, Next tt).

(** [if (c) return m;] *)
Definition when_ (c : bool) (m : M unit) : M unit := if c then m else ret tt.

(** [try { m } catch (err) { h err.message }] *)
Definition try_catch {A} (m : M A) (h : string -> M A) : M A :=
  fun w =>
    match m w with
    | (w', Throw msg) => h msg w'
    | other => other
    end.

(** How an [async] handler ends: a response was sent, or the promise it
    returned was rejected and nothing was sent. *)
Inductive finish : Type :=
  | Sent (r : Response)
  | Unhandled (msg : string).

Definition handle (m : M Empty_set) (w : World) : World * finish :=
  match m w with
  | (w', Next a) => match a with end
  | (w', Respond r) => (w', Sent r)
  | (w', Throw msg) => (w', Unhandled msg)
  end.

(** ** The record store, the disk, the uploader and the mailer *)

Definition set_users (w : World) (us : list User) : World :=
  mkWorld us (nocs w) (regcategories w) (nationalities w) (folders w)
          (disk w) (cloud w) (outbox w).

Definition set_nocs (w : World) (ns : list NOC) : World :=
  mkWorld (users w) ns (regcategories w) (nationalities w) (folders w)
          (disk w) (cloud w) (outbox w).

Definition add_folder (d : string) (w : World) : World :=
  mkWorld (users w) (nocs w) (regcategories w) (nationalities w)
          (folders w ++ [d]) (disk w) (cloud w) (outbox w).

Definition add_file (f : string * string * string) (w : World) : World :=
  mkWorld (users w) (nocs w) (regcategories w) (nationalities w) (folders w)
          (disk w ++ [f]) (cloud w) (outbox w).

Definition add_upload (f : string * string * string) (w : World) : World :=
  mkWorld (users w) (nocs w) (regcategories w) (nationalities w) (folders w)
          (disk w) (cloud w ++ [f]) (outbox w).

Definition add_mail (m : Mail) (w : World) : World :=
  mkWorld (users w) (nocs w) (regcategories w) (nationalities w) (folders w)
          (disk w) (cloud w) (outbox w ++ [m]).

(** [Model.findById(id)] on a reference collection, given by the identifiers
    of its documents. *)
Definition findById (coll : list string) (id : option string) : option string :=
  match id with
  | Some i => find (String.eqb i) coll
  | None => None
  end.

(** [User.findOne({ k: v })]: the first document whose path [k] has the
    value [v]; a query for [undefined] selects documents without the path.
    The store is taken to be reachable: a read resolves. *)
Definition find_user_by (k : string) (v : option string) (us : list User)
    : option User :=
  find (fun u => bool_decide (path_of u k = v)) us.

Definition User_findOne (k : string) (v : option string) : M (option User) :=
  fun w => (w, Next (find_user_by k v (users w))).

(** The identifier that [new Model(..)] gives a document: one that no stored
    document has. *)
Definition fresh_id (ids : list nat) : nat := S (foldr Nat.max 0 ids).

(** Writing a document back: it replaces the stored document with the same
    [_id], or is inserted when there is none. *)
Fixpoint upsert (u : User) (us : list User) : list User :=
  match us with
  | [] => [u]
  | v :: us' =>
      if Nat.eqb (_id v) (_id u) then u :: us' else v :: upsert u us'
  end.

(** [fs.mkdirSync(dir, { recursive: true })] *)
Definition mkdirSync (dir : string) : M unit := modify (add_folder dir).

(** [fs.writeFileSync(path.join(dir, name), data)] *)
Definition writeFileSync (dir name data : string) : M unit :=
  modify (add_file (dir, name, data)).

(** The order of [.sort({ createdAt: -1 })]. *)
Definition newer_first (a b : NOC) : Prop := (createdAt b ≤ createdAt a)%Z.

#[global] Instance newer_first_dec a b : Decision (newer_first a b).
Proof. unfold newer_first. apply _. Defined.

(** ** The clock

    A handler that calls [Date.now()] in a loop reads the clock once per
    turn: [now i] is the value of call number [i] of the run, counted from
    0, and [later now] is the clock after one call. *)
Definition Clock : Type := nat -> Z.

Definition later (now : Clock) : Clock := fun i => now (S i).

Section Controllers.

Variable E : Env.

(** [generateToken]; the secret and the lifetime of the environment are
    taken to be well formed, so that [jwt.sign] returns a token. *)
Definition generateToken (id : nat) : string := jwt_sign E id.

(** Modelled from the spec: [models/User.js] is not among the sources; the
    user record keeps a hashed password, so the model's save hook hashes a
    password that was assigned since the document was loaded.
    [await user.save({ validateBeforeSave })]: validation, when it is not
    switched off, runs first and rejects the save; the store is taken to be
    reachable, so that a write that is not rejected by validation resolves. *)
Definition User_save (validateBeforeSave passwordModified : bool) (u : User)
    : M unit :=
  match (if validateBeforeSave then validateUser E u else None) with
  | Some msg => throw msg
  | None =>
      let stored :=
        if passwordModified
        then mkUser (_id u) (alter (hash_password E) "password" (profile u))
                    (resetPasswordToken u) (resetPasswordExpire u)
        else u in
      modify (fun w => set_users w (upsert stored (users w)))
  end.

(** Modelled from the spec: [models/NOC.js] is not among the sources; an
    application carries its creation timestamp, set when it is built, which
    is after the last turn of the upload loop.
    [await noc.save()]: validation runs first and rejects the save. *)
Definition NOC_save (n : NOC) : M unit :=
  match validateNOC E n with
  | Some msg => throw msg
  | None => modify (fun w => set_nocs w (nocs w ++ [n]))
  end.

(** [await sendEmail({ email, subject, message })] *)
Definition send (m : Mail) : M unit :=
  match sendEmail E m with
  | Some msg => throw msg
  | None => modify (add_mail m)
  end.

(** [await uploadBufferToCloudinary(buffer, filename, folder)] *)
Definition upload (buf filename folder : string) : M string :=
  match uploadBufferToCloudinary E buf filename folder with
  | inl url => fun w => (add_upload (buf, filename, folder) w, Next url)
  | inr msg => throw msg
  end.

(** [v.length] for a string or [undefined]; the message of the [TypeError]
    is the one of current V8. *)
Definition length_of (v : option string) : M nat :=
  match v with
  | Some s => ret (String.length s)
  | None => throw "Cannot read properties of undefined (reading 'length')"
  end.

(** The incoming request, as the upstream middleware leaves it. *)
Record Request : Type := mkRequest {
  cleanedFormData : gmap string string;
  fileBufferMap : list (string * File);
  req_body : gmap string string;
  param_token : string;
  req_user : option User;
  protocol : string;
  host : string
}.

(** *** registerUser *)

(** [/^(0[1-9]|1[0-2])\/\d{4}$/] without its anchors. *)
Definition mmYYYYRegex : JS.regex :=
  JS.Seq (JS.Alt (JS.Seq (JS.Chr "0") (JS.Range "1" "9"))
                 (JS.Seq (JS.Chr "1") (JS.Range "0" "2")))
         (JS.Seq (JS.Chr "/") (JS.Rep 4 JS.Digit)).

(** [v && !mmYYYYRegex.test(v)] *)
Definition bad_year (v : option string) : bool :=
  match v with
  | Some s => JS.truthy v && negb (JS.test_anchored mmYYYYRegex s)
  | None => false
  end.

(** The folder name of a registration:
    [fullName.replace(/[^a-zA-Z0-9_]/g, '').replace(/[ ]+/g, '_')]. *)
Definition register_safeName (f_name m_name l_name : option string) : string :=
  let fullName := JS.join "_" (JS.filter_Boolean [f_name; m_name; l_name]) in
  JS.replace_runs JS.is_blank "_"
    (JS.replace_each (fun c => negb (JS.is_word c)) "" fullName).

(** The [for (const [fieldName, file] of Object.entries(req.fileBufferMap))]
    loop of [registerUser]; [data] is [req.cleanedFormData]. *)
Fixpoint register_files (safeName localFolderPath : string) (now : Clock)
    (entries : list (string * File)) (data : gmap string string)
    : M (gmap string string) :=
  match entries with
  | [] => ret data
  | (fieldName, file) :: rest =>
      let extension := JS.toLowerCase (Path.extname (originalname file)) in
      if negb (String.eqb extension ".pdf") then
        respond 400
          (JObj [("error",
                  JStr ("Only PDF files allowed. '" ++ originalname file
                        ++ "' is not a PDF."))])
      else
        let timestamp := now 0 in
        let filename := pretty timestamp ++ "-" ++ fieldName ++ ".pdf" in
        writeFileSync localFolderPath filename (buffer file) ;;
        let* cloudinaryUrl := upload (buffer file) filename safeName in
        register_files safeName localFolderPath (later now) rest
                       (<[fieldName := cloudinaryUrl]> data)
  end.

Definition welcome_mail (user : User) : Mail :=
  mkMail (path_of user "email") "Welcome to Telangana Dental Council"
    ("
        <h3>Hello " ++ JS.interp (path_of user "f_name") ++ ",</h3>
        <p>Thank you for registering with the Telangana Dental Council Portal.</p>
      ").

(** The condition of the first [if] of [registerUser]: one of the required
    personal-information fields is falsy. *)
Definition missing_personal_info (data : gmap string string) : bool :=
  negb (JS.truthy (data !! "f_name")) || negb (JS.truthy (data !! "l_name"))
  || negb (JS.truthy (data !! "father_name"))
  || negb (JS.truthy (data !! "mother_name"))
  || negb (JS.truthy (data !! "place")) || negb (JS.truthy (data !! "dob"))
  || negb (JS.truthy (data !! "category"))
  || negb (JS.truthy (data !! "address"))
  || negb (JS.truthy (data !! "pan_number"))
  || negb (JS.truthy (data !! "aadhaar_number"))
  || negb (JS.truthy (data !! "regtype")).

(** The [try] block of [registerUser] from its first line to
    [await user.save()]; it yields the saved document [user].  The form is
    taken to carry neither [resetPasswordToken] nor [resetPasswordExpire],
    so that [new User(req.cleanedFormData)] leaves both unset. *)
Definition registerUser_persist (req : Request) (now : Clock) : M User :=
  let data := cleanedFormData req in
  let nationality_id := data !! "nationality_id" in
  let regcategory_id := data !! "regcategory_id" in
  let email := data !! "email" in
  let mobile_number := data !! "mobile_number" in
  let password := data !! "password" in
  let f_name := data !! "f_name" in
  let m_name := data !! "m_name" in
  let l_name := data !! "l_name" in
  when_ (missing_personal_info data)
    (respond 400
       (JObj [("error", JStr "Missing required personal information fields.")])) ;;
  when_ (bad_year (data !! "bds_qualification_year"))
    (respond 400
       (JObj [("error", JStr "bds_qualification_year must be in MM/YYYY format")])) ;;
  when_ (bad_year (data !! "mds_qualification_year"))
    (respond 400
       (JObj [("error", JStr "mds_qualification_year must be in MM/YYYY format")])) ;;
  let* w := get_world in
  let regCategory := findById (regcategories w) regcategory_id in
  when_ (negb (bool_decide (is_Some regCategory)))
    (respond 400 (JObj [("error", JStr "Invalid regcategory_id")])) ;;
  let nationality := findById (nationalities w) nationality_id in
  when_ (negb (bool_decide (is_Some nationality)))
    (respond 400 (JObj [("error", JStr "Invalid nationality_id")])) ;;
  let* existingEmail := User_findOne "email" email in
  when_ (bool_decide (is_Some existingEmail))
    (respond 409 (JObj [("error", JStr "Email already exists")])) ;;
  let* existingMobile := User_findOne "mobile_number" mobile_number in
  when_ (bool_decide (is_Some existingMobile))
    (respond 409 (JObj [("error", JStr "Mobile number already exists")])) ;;
  let* len := length_of password in
  when_ (len <? 8)%nat
    (respond 400
       (JObj [("error", JStr "Password must be at least 8 characters long.")])) ;;
  let safeName := register_safeName f_name m_name l_name in
  let localFolderPath := Path.join (uploads_dir E) safeName in
  mkdirSync localFolderPath ;;
  let* data' :=
    register_files safeName localFolderPath now (fileBufferMap req) data in
  let* w' := get_world in
  let user := mkUser (fresh_id (map _id (users w'))) data' None None in
  User_save true true user ;;
  ret user.

(** The rest of the [try] block: the welcome mail, the token and the
    response. *)
Definition registerUser_welcome (user : User) : M Empty_set :=
  send (welcome_mail user) ;;
  let token := generateToken (_id user) in
  respond 201
    (JObj [("success", JBool true);
           ("message", JStr "User registered successfully.");
           ("token", JStr token);
           ("data",
            JObj (("id", JId (_id user))
                  :: member "f_name" (path_of user "f_name")
                  ++ member "m_name" (path_of user "m_name")
                  ++ member "l_name" (path_of user "l_name")
                  ++ member "email" (path_of user "email")
                  ++ member "mobile_number" (path_of user "mobile_number")))]).

Definition registerUser_try (req : Request) (now : Clock) : M Empty_set :=
  let* user := registerUser_persist req now in
  registerUser_welcome user.

Definition registerUser (req : Request) (now : Clock)
    : World -> World * finish :=
  handle
    (try_catch (registerUser_try req now)
       (fun msg =>
          respond 500 (JObj [("success", JBool false); ("error", JStr msg)]))).

(** *** loginUser *)

Definition auth_cookie (token : string) : Cookie :=
  mkCookie "token" token true (production E) "Strict"
           (7 * 24 * 60 * 60 * 1000).

(** [await bcrypt.compare(password, user.password)] *)
Definition compare_password (password : string) (stored : option string)
    : M bool :=
  match stored with
  | Some h => ret (bcrypt_compare E password h)
  | None => throw "Illegal arguments: string, undefined"
  end.

(** [`${user.f_name} ${user.m_name || ''} ${user.l_name}`.trim()] *)
Definition fullname (user : User) : string :=
  JS.trim (JS.interp (path_of user "f_name") ++ " "
           ++ (if JS.truthy (path_of user "m_name")
               then JS.interp (path_of user "m_name") else "")
           ++ " " ++ JS.interp (path_of user "l_name")).

Definition loginUser_body (req : Request) : M Empty_set :=
  let email := req_body req !! "email" in
  let password := req_body req !! "password" in
  when_ (negb (JS.truthy email) || negb (JS.truthy password))
    (respond 400 (JObj [("message", JStr "Email and password are required.")])) ;;
  let* found := User_findOne "email" email in
  match found with
  | None =>
      respond 400 (JObj [("message", JStr "Invalid email or password.")])
  | Some user =>
      let* isMatch := compare_password (default "" password)
                                       (path_of user "password") in
      when_ (negb isMatch)
        (respond 400 (JObj [("message", JStr "Invalid email or password.")])) ;;
      let token := generateToken (_id user) in
      respond_with_cookie (auth_cookie token) 200
        (JObj [("success", JBool true);
               ("message", JStr "Login successful");
               ("user",
                JObj ([("id", JId (_id user));
                       ("fullname", JStr (fullname user))]
                      ++ member "email" (path_of user "email")))])
  end.

Definition loginUser (req : Request) : World -> World * finish :=
  handle (loginUser_body req).

(** *** forgotPassword *)

Definition dquote : string := String (ascii_of_nat 34) "".

Definition reset_mail (user : User) (resetUrl : string) : Mail :=
  mkMail (path_of user "email") "TSDC Password Reset Request"
    ("
    <h3>Hello " ++ JS.interp (path_of user "f_name") ++ ",</h3>
    <p>You requested to reset your password.</p>
    <p><a href=" ++ dquote ++ resetUrl ++ dquote
     ++ ">Click here to reset your password</a></p>
    <p>This link expires in 15 minutes.</p>
  ").

(** [resetToken] is the value of [crypto.randomBytes(20).toString('hex')]
    and [now] the value of [Date.now()] for this request. *)
Definition forgotPassword_body (req : Request) (resetToken : string) (now : Z)
    : M Empty_set :=
  let email := req_body req !! "email" in
  let* found := User_findOne "email" email in
  match found with
  | None => respond 404 (JObj [("message", JStr "User not found.")])
  | Some user0 =>
      let user :=
        with_reset user0 (Some (sha256_hex E resetToken))
                   (Some (now + 15 * 60 * 1000)%Z) in
      User_save false false user ;;
      let resetUrl :=
        protocol req ++ "://" ++ host req ++ "/api/users/reset-password/"
        ++ resetToken in
      try_catch
        (send (reset_mail user resetUrl) ;;
         respond 200
           (JObj [("success", JBool true);
                  ("message", JStr "Reset password email sent.");
                  ("resetUrl", JStr resetUrl)]))
        (fun _ =>
           let user := with_reset user None None in
           User_save false false user ;;
           respond 500
             (JObj [("success", JBool false);
                    ("message", JStr "Failed to send reset email.")]))
  end.

Definition forgotPassword (req : Request) (resetToken : string) (now : Z)
    : World -> World * finish :=
  handle (forgotPassword_body req resetToken now).

(** *** resetPassword *)

(** The filter [{ resetPasswordToken: hashedToken,
                  resetPasswordExpire: { $gt: now } }]. *)
Definition reset_query (hashedToken : string) (now : Z) (u : User) : bool :=
  bool_decide (resetPasswordToken u = Some hashedToken)
  && match resetPasswordExpire u with
     | Some t => (now <? t)%Z
     | None => false
     end.

Definition resetPassword_body (req : Request) (now : Z) : M Empty_set :=
  let hashedToken := sha256_hex E (param_token req) in
  let* w := get_world in
  match find (reset_query hashedToken now) (users w) with
  | None => respond 400 (JObj [("message", JStr "Invalid or expired token.")])
  | Some user0 =>
      let user :=
        with_reset (with_password user0 (req_body req !! "password"))
                   None None in
      User_save true true user ;;
      let token := generateToken (_id user) in
      respond 200
        (JObj [("success", JBool true);
               ("token", JStr token);
               ("message", JStr "Password updated successfully.")])
  end.

Definition resetPassword (req : Request) (now : Z) : World -> World * finish :=
  handle (resetPassword_body req now).

(** *** applyNOC and getNOC *)

(** [req.user] of an authenticated request; reading a property of
    [undefined] throws. *)
Definition current_user (req : Request) (prop : string) : M User :=
  match req_user req with
  | Some u => ret u
  | None =>
      throw ("Cannot read properties of undefined (reading '" ++ prop ++ "')")
  end.

(** [map[field]] on the object behind [Object.entries]. *)
Fixpoint file_of (field : string) (entries : list (string * File))
    : option File :=
  match entries with
  | [] => None
  | (k, f) :: rest => if String.eqb k field then Some f else file_of field rest
  end.

(** The [for (const field of requiredFiles)] loop. *)
Fixpoint require_files (requiredFiles : list string)
    (entries : list (string * File)) : M unit :=
  match requiredFiles with
  | [] => ret tt
  | field :: rest =>
      match file_of field entries with
      | None =>
          respond 400
            (JObj [("error", JStr ("Missing required file: " ++ field))])
      | Some _ => require_files rest entries
      end
  end.

(** The folder name of an NOC application:
    [fullName.replace(/\s+/g, '_')] and then the removal of what is not a
    word character. *)
Definition noc_safeName (f_name m_name l_name : option string) : string :=
  let fullName :=
    JS.replace_runs JS.is_space "_"
      (JS.join "_" (JS.filter_Boolean [f_name; m_name; l_name])) in
  JS.replace_each (fun c => negb (JS.is_word c)) "" fullName.

(** The [for (const [fieldName, file] of Object.entries(req.fileBufferMap))]
    loop of [applyNOC]. *)
Fixpoint noc_files (safeName : string) (now : Clock)
    (entries : list (string * File)) (savedFiles : gmap string string)
    : M (gmap string string) :=
  match entries with
  | [] => ret savedFiles
  | (fieldName, file) :: rest =>
      let timestamp := now 0 in
      let filename := pretty timestamp ++ "-" ++ fieldName ++ ".pdf" in
      let* cloudinaryUrl := upload (buffer file) filename safeName in
      let savedFiles' := <[fieldName := cloudinaryUrl]> savedFiles in
      let folderPath := Path.join (uploads_dir E) safeName in
      mkdirSync folderPath ;;
      writeFileSync folderPath filename (buffer file) ;;
      noc_files safeName (later now) rest savedFiles'
  end.

Definition json_of_val (v : val) : json :=
  match v with
  | VStr s => JStr s
  | VId n => JId n
  end.

Definition json_of_NOC (n : NOC) : json :=
  JObj (("_id", JId (noc_id n))
        :: map (fun kv => (fst kv, json_of_val (snd kv)))
               (map_to_list (noc_paths n))
        ++ [("createdAt", JNum (createdAt n))]).

Definition applyNOC_try (req : Request) (now : Clock) : M Empty_set :=
  let dental_council_name := cleanedFormData req !! "dental_council_name" in
  let postal_address := cleanedFormData req !! "postal_address" in
  let* user := current_user req "_id" in
  let userId := _id user in
  let requiredFiles := ["tdc_reg_certificate_upload"; "aadhaar_upload"] in
  require_files requiredFiles (fileBufferMap req) ;;
  when_ (negb (JS.truthy dental_council_name)
         || negb (JS.truthy postal_address))
    (respond 400 (JObj [("error", JStr "All fields are required")])) ;;
  let safeName :=
    noc_safeName (path_of user "f_name") (path_of user "m_name")
                 (path_of user "l_name") in
  let* savedFiles := noc_files safeName now (fileBufferMap req) ∅ in
  let* w := get_world in
  let noc :=
    mkNOC (fresh_id (map noc_id (nocs w)))
          ((VStr <$> savedFiles)
           ∪ <["user_id" := VId userId]>
               (<["dental_council_name" := VStr (JS.interp dental_council_name)]>
                  (<["postal_address" := VStr (JS.interp postal_address)]> ∅)))
          (now (length (fileBufferMap req))) in
  NOC_save noc ;;
  respond 201
    (JObj [("success", JBool true);
           ("message", JStr "NOC submitted successfully");
           ("data", json_of_NOC noc)]).

Definition applyNOC (req : Request) (now : Clock) : World -> World * finish :=
  handle
    (try_catch (applyNOC_try req now)
       (fun msg =>
          respond 500 (JObj [("success", JBool false); ("error", JStr msg)]))).

(** [NOC.find({ user_id: userId }).sort({ createdAt: -1 })] *)
Definition NOC_find_sorted (userId : nat) (ns : list NOC) : list NOC :=
  merge_sort newer_first
    (filter (fun n => noc_paths n !! "user_id" = Some (VId userId)) ns).

Definition getNOC_try (req : Request) : M Empty_set :=
  let* user := current_user req "_id" in
  let userId := _id user in
  let* w := get_world in
  let applications := NOC_find_sorted userId (nocs w) in
  respond 200
    (JObj [("success", JBool true);
           ("data", JArr (map json_of_NOC applications))]).

Definition getNOC (req : Request) : World -> World * finish :=
  handle
    (try_catch (getNOC_try req)
       (fun msg =>
          respond 500 (JObj [("success", JBool false); ("error", JStr msg)]))).

End Controllers.

(** ** A concrete environment and store, used to run the handlers *)

Module Sample.

(** Collaborators that always succeed; hashing is marked by a prefix. *)
Definition env_ok : Env :=
  mkEnv (fun id => "jwt-" ++ pretty id)
        (fun s => "sha256:" ++ s)
        (fun pw h => String.eqb h ("bcrypt:" ++ pw))
        (fun pw => "bcrypt:" ++ pw)
        (fun _ => None)
        (fun _ filename folder =>
           inl ("https://cdn.example/" ++ folder ++ "/" ++ filename))
        (fun _ => None)
        (fun _ => None)
        false
        "src/uploads".

(** The same collaborators with a mail transport that is down. *)
Definition env_mail_down : Env :=
  mkEnv (jwt_sign env_ok) (sha256_hex env_ok) (bcrypt_compare env_ok)
        (hash_password env_ok)
        (fun _ => Some "connect ECONNREFUSED 127.0.0.1:587")
        (uploadBufferToCloudinary env_ok) (validateUser env_ok)
        (validateNOC env_ok) (production env_ok) (uploads_dir env_ok).

(** The same collaborators with a user schema that wants a password of at
    least 8 characters. *)
Definition too_short : string :=
  "User validation failed: password is shorter than the minimum length (8).".

Definition env_strict : Env :=
  mkEnv (jwt_sign env_ok) (sha256_hex env_ok) (bcrypt_compare env_ok)
        (hash_password env_ok) (sendEmail env_ok)
        (uploadBufferToCloudinary env_ok)
        (fun u =>
           match path_of u "password" with
           | Some p =>
               if (String.length p <? 8)%nat
               then Some too_short
               else None
           | None => Some "User validation failed: password is required."
           end)
        (validateNOC env_ok) (production env_ok) (uploads_dir env_ok).

Definition form (kvs : list (string * string)) : gmap string string :=
  list_to_map kvs.

(** A clock that shows [t] at the first call and one millisecond more at
    each further call, and the clock of the sample requests. *)
Definition ticking (t : Z) : Clock := fun i => (t + Z.of_nat i)%Z.

Definition noon : Clock := ticking 1700000000000.

Definition asha : User :=
  mkUser 1
    (form [("f_name", "Asha"); ("l_name", "Rao");
           ("email", "asha@example.org"); ("mobile_number", "9000000001");
           ("password", "bcrypt:correct horse")])
    None None.

Definition world0 : World :=
  mkWorld [asha] [] ["cat1"] ["nat1"] [] [] [] [].

Definition with_form (kvs : list (string * string))
    (files : list (string * File)) : Request :=
  mkRequest (form kvs) files ∅ "" None "https" "tdc.example".

Definition with_body (kvs : list (string * string)) (token : string) : Request :=
  mkRequest ∅ [] (form kvs) token None "https" "tdc.example".

Definition as_user (u : User) (kvs : list (string * string))
    (files : list (string * File)) : Request :=
  mkRequest (form kvs) files ∅ "" (Some u) "https" "tdc.example".

(** A registration form that passes every check of [registerUser]. *)
Definition ravi_form : list (string * string) :=
  [("nationality_id", "nat1"); ("regcategory_id", "cat1");
   ("email", "ravi@example.org"); ("mobile_number", "9000000002");
   ("password", "s3cret-pass"); ("f_name", "Ravi Teja"); ("l_name", "K");
   ("father_name", "F"); ("mother_name", "M"); ("place", "Hyderabad");
   ("dob", "1990-01-01"); ("category", "General"); ("address", "Road 1");
   ("pan_number", "ABCDE1234F"); ("aadhaar_number", "123412341234");
   ("regtype", "new"); ("bds_qualification_year", "04/2020")].

(** A registration with a PDF attached. *)
Definition ravi_request : Request :=
  with_form ravi_form [("degree_certificate", mkFile "degree.pdf" "%PDF-1.4")].

(** The same registration without a password, and with a short one. *)
Definition ravi_without_password : Request :=
  mkRequest (delete "password" (form ravi_form)) [] ∅ "" None
            "https" "tdc.example".


(** The same registration with a thirteenth month. *)
Definition ravi_bad_year : Request :=
  mkRequest (<["bds_qualification_year" := "13/2020"]> (form ravi_form)) []
            ∅ "" None "https" "tdc.example".

(** A store in which Asha has asked for a reset at time 1000 with the token
    [tok]. *)
Definition asha_pending : User :=
  with_reset asha (Some "sha256:tok") (Some 901000%Z).

Definition world_pending : World :=
  mkWorld [asha_pending] [] ["cat1"] ["nat1"] [] [] [] [].

(** A second user and a store with applications of both. *)
Definition bala : User :=
  mkUser 2
    (form [("f_name", "Bala"); ("l_name", "N");
           ("email", "bala@example.org"); ("mobile_number", "9000000003");
           ("password", "bcrypt:another pass")])
    None None.

Definition noc_of (id owner_id : nat) (at_ : Z) : NOC :=
  mkNOC id
    (<["user_id" := VId owner_id]>
       (<["dental_council_name" := VStr "Karnataka"]>
          (<["postal_address" := VStr "Road 1"]> ∅)))
    at_.

Definition world_nocs : World :=
  mkWorld [asha; bala]
          [noc_of 1 1 100; noc_of 2 2 200; noc_of 3 1 300; noc_of 4 1 250]
          ["cat1"] ["nat1"] [] [] [] [].

(** An NOC submission whose two attachments are not PDF files. *)
Definition noc_request : Request :=
  as_user asha
    [("dental_council_name", "Karnataka"); ("postal_address", "Road 1")]
    [("tdc_reg_certificate_upload", mkFile "certificate.png" "PNG");
     ("aadhaar_upload", mkFile "aadhaar.exe" "MZ")].

(** A registration with the same kind of attachment. *)
Definition ravi_png_request : Request :=
  with_form ravi_form [("degree_certificate", mkFile "degree.png" "PNG")].

End Sample.

(** ** Vocabulary of the specification *)

(** *** Responses *)

Definition error_response (code : nat) (msg : string) : Response :=
  mkResponse code (JObj [("error", JStr msg)]) [].

Definition message_response (code : nat) (msg : string) : Response :=
  mkResponse code (JObj [("message", JStr msg)]) [].

(** The response of the [catch] clauses. *)
Definition failure_response (msg : string) : Response :=
  mkResponse 500 (JObj [("success", JBool false); ("error", JStr msg)]) [].

Definition invalid_credentials : Response :=
  message_response 400 "Invalid email or password.".

Definition invalid_or_expired : Response :=
  message_response 400 "Invalid or expired token.".

(** The response to a completed registration. *)
Definition created_response (E : Env) (user : User) : Response :=
  mkResponse 201
    (JObj [("success", JBool true);
           ("message", JStr "User registered successfully.");
           ("token", JStr (generateToken E (_id user)));
           ("data",
            JObj (("id", JId (_id user))
                  :: member "f_name" (path_of user "f_name")
                  ++ member "m_name" (path_of user "m_name")
                  ++ member "l_name" (path_of user "l_name")
                  ++ member "email" (path_of user "email")
                  ++ member "mobile_number" (path_of user "mobile_number")))])
    [].

(** The response to a completed password reset. *)
Definition reset_response (E : Env) (u : User) : Response :=
  mkResponse 200
    (JObj [("success", JBool true);
           ("token", JStr (generateToken E (_id u)));
           ("message", JStr "Password updated successfully.")])
    [].

(** The link that [forgotPassword] mails, and its two responses. *)
Definition reset_url (req : Request) (resetToken : string) : string :=
  protocol req ++ "://" ++ host req ++ "/api/users/reset-password/"
  ++ resetToken.

Definition reset_mail_failed : Response :=
  mkResponse 500
    (JObj [("success", JBool false);
           ("message", JStr "Failed to send reset email.")])
    [].

Definition reset_mail_sent (req : Request) (resetToken : string) : Response :=
  mkResponse 200
    (JObj [("success", JBool true);
           ("message", JStr "Reset password email sent.");
           ("resetUrl", JStr (reset_url req resetToken))])
    [].

(** The response of the listing. *)
Definition listing_response (apps : list NOC) : Response :=
  mkResponse 200
    (JObj [("success", JBool true); ("data", JArr (map json_of_NOC apps))])
    [].

(** *** Registration *)

(** The qualification-year format in the words of the specification: a
    month from 01 to 12, a slash and a four-digit year. *)
Definition digit_char (d : N) : ascii := ascii_of_N (48 + d).

Definition digit_value (c : ascii) : N := (JS.code c - 48)%N.

Definition two_digits (n : N) : string :=
  String (digit_char (n / 10)) (String (digit_char (n mod 10)) "").

Definition four_digits (n : N) : string :=
  String (digit_char (n / 1000))
    (String (digit_char (n / 100 mod 10))
       (String (digit_char (n / 10 mod 10))
          (String (digit_char (n mod 10)) ""))).

Definition is_MM_YYYY (s : string) : Prop :=
  ∃ month year : N,
    (1 ≤ month ≤ 12)%N ∧ (year ≤ 9999)%N ∧
    s = two_digits month ++ "/" ++ four_digits year.

(** The pattern of [mmYYYYRegex] read off letter by letter. *)
Definition mmYYYY_direct (s : string) : bool :=
  match s with
  | String a (String b (String c (String d1 (String d2 (String d3
      (String d4 "")))))) =>
      ((Ascii.eqb a "0" && JS.in_range "1" "9" b)
       || (Ascii.eqb a "1" && JS.in_range "0" "2" b))
      && Ascii.eqb c "/"
      && JS.is_digit d1 && JS.is_digit d2 && JS.is_digit d3 && JS.is_digit d4
  | _ => false
  end.

(** An optional qualification year is well formed when it is absent, empty
    or in the MM/YYYY format. *)
Definition year_ok (v : option string) : Prop :=
  ∀ s, v = Some s → s ≠ "" → is_MM_YYYY s.

(** The personal-information fields that step 1 of the registration
    requires. *)
Definition required_fields : list string :=
  ["f_name"; "l_name"; "father_name"; "mother_name"; "place"; "dob";
   "category"; "address"; "pan_number"; "aadhaar_number"; "regtype"].

(** A field is provided when the form has a non-empty value for it. *)
Definition provided (data : gmap string string) (k : string) : Prop :=
  ∃ s, data !! k = Some s ∧ s ≠ "".

(** Steps 1 to 6 of the validation order of the registration workflow. *)
Record passes_steps_1_6 (req : Request) (w : World) : Prop := {
  step1 : ∀ k, k ∈ required_fields → provided (cleanedFormData req) k;
  step2_bds : year_ok (cleanedFormData req !! "bds_qualification_year");
  step2_mds : year_ok (cleanedFormData req !! "mds_qualification_year");
  step3 : is_Some (findById (regcategories w)
                            (cleanedFormData req !! "regcategory_id"));
  step4 : is_Some (findById (nationalities w)
                            (cleanedFormData req !! "nationality_id"));
  step5 : find_user_by "email" (cleanedFormData req !! "email") (users w)
          = None;
  step6 : find_user_by "mobile_number"
            (cleanedFormData req !! "mobile_number") (users w) = None
}.

(** Steps 1 to 6 as a check that can be run. *)
Definition passes_steps_1_6_b (req : Request) (w : World) : bool :=
  let data := cleanedFormData req in
  negb (missing_personal_info data)
  && negb (bad_year (data !! "bds_qualification_year"))
  && negb (bad_year (data !! "mds_qualification_year"))
  && bool_decide (is_Some (findById (regcategories w)
                                    (data !! "regcategory_id")))
  && bool_decide (is_Some (findById (nationalities w)
                                    (data !! "nationality_id")))
  && bool_decide (find_user_by "email" (data !! "email") (users w) = None)
  && bool_decide (find_user_by "mobile_number" (data !! "mobile_number")
                    (users w) = None).

(** The extension test of the registration's upload loop. *)
Definition is_pdf_name (name : string) : Prop :=
  JS.toLowerCase (Path.extname name) = ".pdf".

(** A string of slashes. *)
Definition only_slashes (s : string) : Prop :=
  Forall (fun c => c = "/"%char) (list_ascii_of_string s).

(** A file name ends in [.pdf], whatever the case of the letters and up to
    trailing slashes. *)
Definition ends_in_pdf (name : string) : Prop :=
  ∃ stem ext slashes,
    name = stem ++ ext ++ slashes ∧ JS.toLowerCase ext = ".pdf"
    ∧ only_slashes slashes.

(** What the scan of [path.extname] knows after it has looked at the code
    units from index [n] on. *)
Definition scanned (l : list ascii) (n : nat) (st : Path.scan) : Prop :=
  (Path.end_ st = (-1)%Z ∧ Path.startDot st = (-1)%Z
   ∧ Path.matchedSlash st = true
   ∧ Forall (fun c => c = "/"%char) (drop n l))
  ∨ (Path.matchedSlash st = false
     ∧ (Z.of_nat n < Path.end_ st ≤ Z.of_nat (length l))%Z
     ∧ Forall (fun c => c = "/"%char) (drop (Z.to_nat (Path.end_ st)) l)
     ∧ (Path.startDot st = (-1)%Z
        ∨ (Z.of_nat n ≤ Path.startDot st < Path.end_ st)%Z)).

(** What the scan has found when it ends. *)
Definition scan_result (l : list ascii) (st : Path.scan) : Prop :=
  Path.startDot st ≠ (-1)%Z → Path.end_ st ≠ (-1)%Z →
  (0 ≤ Path.startDot st < Path.end_ st)%Z
  ∧ (Path.end_ st ≤ Z.of_nat (length l))%Z
  ∧ Forall (fun c => c = "/"%char) (drop (Z.to_nat (Path.end_ st)) l).

(** The rejections that the registration sends before anything is stored,
    each with the condition under which the handler sends it. *)
Inductive rejection (req : Request) (w : World) : Response → Prop :=
  | rej_missing :
      missing_personal_info (cleanedFormData req) = true →
      rejection req w
        (error_response 400 "Missing required personal information fields.")
  | rej_bds :
      bad_year (cleanedFormData req !! "bds_qualification_year") = true →
      rejection req w
        (error_response 400 "bds_qualification_year must be in MM/YYYY format")
  | rej_mds :
      bad_year (cleanedFormData req !! "mds_qualification_year") = true →
      rejection req w
        (error_response 400 "mds_qualification_year must be in MM/YYYY format")
  | rej_category :
      findById (regcategories w) (cleanedFormData req !! "regcategory_id")
      = None →
      rejection req w (error_response 400 "Invalid regcategory_id")
  | rej_nationality :
      findById (nationalities w) (cleanedFormData req !! "nationality_id")
      = None →
      rejection req w (error_response 400 "Invalid nationality_id")
  | rej_email u :
      find_user_by "email" (cleanedFormData req !! "email") (users w)
      = Some u →
      rejection req w (error_response 409 "Email already exists")
  | rej_mobile u :
      find_user_by "mobile_number" (cleanedFormData req !! "mobile_number")
        (users w) = Some u →
      rejection req w (error_response 409 "Mobile number already exists")
  | rej_password p :
      cleanedFormData req !! "password" = Some p →
      String.length p < 8 →
      rejection req w
        (error_response 400 "Password must be at least 8 characters long.")
  | rej_file k f :
      (k, f) ∈ fileBufferMap req →
      ¬ is_pdf_name (originalname f) →
      rejection req w
        (error_response 400
           ("Only PDF files allowed. '" ++ originalname f
            ++ "' is not a PDF.")).

(** The folder-name clean-up shared by both controllers:
    [.replace(/[^a-zA-Z0-9_]/g, '')]. *)
Definition strip (s : string) : string :=
  JS.replace_each (fun c => negb (JS.is_word c)) "" s.

(** The document that a save with a modified password leaves in the
    store. *)
Definition stored (E : Env) (u : User) : User :=
  mkUser (_id u) (alter (hash_password E) "password" (profile u))
         (resetPasswordToken u) (resetPasswordExpire u).

(** *** Password reset *)

(** A user holds a live reset token with hash [h] at time [now]. *)
Definition live_token (h : string) (now : Z) (u : User) : Prop :=
  resetPasswordToken u = Some h ∧
  ∃ t, resetPasswordExpire u = Some t ∧ (now < t)%Z.

(** The lifetime of a reset token, in milliseconds. *)
Definition fifteen_minutes : Z := 15 * 60 * 1000.

(** The document that [resetPassword] writes for the user it found. *)
Definition updated (req : Request) (u : User) : User :=
  with_reset (with_password u (req_body req !! "password")) None None.

(** *** NOC applications *)

(** The owner reference of an application. *)
Definition owner (n : NOC) : option val := noc_paths n !! "user_id".

(** The same request with other files attached. *)
Definition with_files (req : Request) (files : list (string * File)) : Request :=
  mkRequest (cleanedFormData req) files (req_body req) (param_token req)
            (req_user req) (protocol req) (host req).

(** The attached files under other names. *)
Definition rename_files (g : string → string → string)
    (files : list (string * File)) : list (string * File) :=
  map (fun kf => (fst kf, mkFile (g (fst kf) (originalname (snd kf)))
                                 (buffer (snd kf))))
      files.

(** ** The handlers without a store: logoutUser and getProfile *)

(** [res.clearCookie(name, options)]: the cookie [name] is sent again with
    an empty value and an expiry in the past, under the given options. *)
Record ClearedCookie : Type := mkClearedCookie {
  cleared_name : string;
  cleared_httpOnly : bool;
  cleared_secure : bool;
  cleared_sameSite : string
}.

(** Modelled from the spec: [models/User.js] is not among the sources; the
    profile is the full user document, sent with its identifier, its paths
    and the reset fields that are set. *)
Definition json_of_User (u : User) : json :=
  JObj (("_id", JId (_id u))
        :: map (fun kv => (fst kv, JStr (snd kv))) (map_to_list (profile u))
        ++ member "resetPasswordToken" (resetPasswordToken u)
        ++ match resetPasswordExpire u with
           | Some t => [("resetPasswordExpire", JNum t)]
           | None => []
           end).

Section SessionHandlers.

Variable E : Env.

(** [logoutUser]: the cookies it clears, and its response. *)
Definition logoutUser (req : Request) (w : World)
    : World * (list ClearedCookie * finish) :=
  let cleared := mkClearedCookie "token" true (production E) "Strict" in
  let '(w', out) :=
    handle
      (respond 200
         (JObj [("success", JBool true);
                ("message", JStr "Logged out successfully")])) w in
  (w', ([cleared], out)).

(** [getProfile]; a member [data: undefined] is left out of the body. *)
Definition getProfile (req : Request) : World -> World * finish :=
  handle
    (respond 200
       (JObj (("success", JBool true)
              :: match req_user req with
                 | Some u => [("data", json_of_User u)]
                 | None => []
                 end))).

End SessionHandlers.

(** ** Vocabulary of the further properties *)

(** *** Uploads of a registration *)

(** The field names of the attached files, in the order of
    [Object.entries]. *)
Definition file_keys (files : list (string * File)) : list string :=
  map fst files.

(** The name [`${timestamp}-${fieldName}.pdf`] under which both upload loops
    store a file. *)
Definition stored_name (timestamp : Z) (fieldName : string) : string :=
  pretty timestamp ++ "-" ++ fieldName ++ ".pdf".

(** The folder name and the local folder of a registration. *)
Definition folder_name_of (req : Request) : string :=
  register_safeName (cleanedFormData req !! "f_name")
                    (cleanedFormData req !! "m_name")
                    (cleanedFormData req !! "l_name").

Definition local_folder_of (E : Env) (req : Request) : string :=
  Path.join (uploads_dir E) (folder_name_of req).

(** What one turn of an upload loop leaves on the disk and in the object
    storage, with the clock reading [timestamp] of that turn. *)
Definition local_copy (dir : string) (timestamp : Z) (kf : string * File)
    : string * string * string :=
  (dir, stored_name timestamp (fst kf), buffer (snd kf)).

Definition remote_copy (folder : string) (timestamp : Z) (kf : string * File)
    : string * string * string :=
  (buffer (snd kf), stored_name timestamp (fst kf), folder).

(** The clock after [n] calls. *)
Definition after (n : nat) (now : Clock) : Clock := fun i => now (n + i).

(** What the turns for [entries] leave, turn [i] with the reading [now i]. *)
Definition local_copies (dir : string) (now : Clock)
    (entries : list (string * File)) : list (string * string * string) :=
  imap (fun i kf => local_copy dir (now i) kf) entries.

Definition remote_copies (folder : string) (now : Clock)
    (entries : list (string * File)) : list (string * string * string) :=
  imap (fun i kf => remote_copy folder (now i) kf) entries.

(** The uploader accepts the file under the name of that turn and returns
    [url]. *)
Definition uploads_to (E : Env) (folder : string) (timestamp : Z)
    (kf : string * File) (url : string) : Prop :=
  uploadBufferToCloudinary E (buffer (snd kf))
    (stored_name timestamp (fst kf)) folder
  = inl url.

Definition upload_ok (E : Env) (folder : string) (timestamp : Z)
    (kf : string * File) : Prop :=
  ∃ url, uploads_to E folder timestamp kf url.

(** The uploader accepts every file of [entries], each in its turn. *)
Definition all_accepted (E : Env) (folder : string) (now : Clock)
    (entries : list (string * File)) : Prop :=
  ∀ i kf, entries !! i = Some kf → upload_ok E folder (now i) kf.

(** The field name of turn [i] is not used again in a later turn. *)
Definition last_of_its_name (entries : list (string * File)) (i : nat)
    (k : string) : Prop :=
  k ∉ file_keys (drop (S i) entries).

(** *** Uniqueness in the record store *)

(** No two users have the same value (or both none) at the path [k]. *)
Definition distinct_on (k : string) (us : list User) : Prop :=
  NoDup (map (fun u => path_of u k) us).

Record store_unique (w : World) : Prop := {
  unique_ids : NoDup (map _id (users w));
  unique_emails : distinct_on "email" (users w);
  unique_mobiles : distinct_on "mobile_number" (users w)
}.

(** *** Login *)

(** The response to a completed login of [user]. *)
Definition login_response (E : Env) (user : User) : Response :=
  mkResponse 200
    (JObj [("success", JBool true);
           ("message", JStr "Login successful");
           ("user",
            JObj ([("id", JId (_id user));
                   ("fullname", JStr (fullname user))]
                  ++ member "email" (path_of user "email")))])
    [auth_cookie E (generateToken E (_id user))].

Definition missing_credentials : Response :=
  message_response 400 "Email and password are required.".

(** *** Password reset requests *)

(** The record of [user0] after a reset request at time [t0] with token
    [resetToken]. *)
Definition pending (E : Env) (user0 : User) (resetToken : string) (t0 : Z)
    : User :=
  with_reset user0 (Some (sha256_hex E resetToken))
             (Some (t0 + fifteen_minutes)%Z).

(** *** Submitting an NOC application *)

Definition noc_folder_of (user : User) : string :=
  noc_safeName (path_of user "f_name") (path_of user "m_name")
               (path_of user "l_name").

(** The application that [applyNOC] builds for [user] from the form of
    [req] and the URLs [urls] of the uploads. *)
Definition submitted (req : Request) (user : User) (urls : gmap string string)
    (id : nat) (timestamp : Z) : NOC :=
  mkNOC id
    ((VStr <$> urls)
     ∪ <["user_id" := VId (_id user)]>
         (<["dental_council_name" :=
              VStr (JS.interp (cleanedFormData req !! "dental_council_name"))]>
            (<["postal_address" :=
                 VStr (JS.interp (cleanedFormData req !! "postal_address"))]>
               ∅)))
    timestamp.

Definition noc_created (noc : NOC) : Response :=
  mkResponse 201
    (JObj [("success", JBool true);
           ("message", JStr "NOC submitted successfully");
           ("data", json_of_NOC noc)])
    [].

Definition missing_file (field : string) : Response :=
  error_response 400 ("Missing required file: " ++ field).

Definition fields_required : Response :=
  error_response 400 "All fields are required".

(** The rejections of [applyNOC], each with the condition under which it is
    sent. *)
Inductive noc_rejection (req : Request) : Response → Prop :=
  | noc_rej_certificate :
      file_of "tdc_reg_certificate_upload" (fileBufferMap req) = None →
      noc_rejection req (missing_file "tdc_reg_certificate_upload")
  | noc_rej_aadhaar :
      is_Some (file_of "tdc_reg_certificate_upload" (fileBufferMap req)) →
      file_of "aadhaar_upload" (fileBufferMap req) = None →
      noc_rejection req (missing_file "aadhaar_upload")
  | noc_rej_fields :
      is_Some (file_of "tdc_reg_certificate_upload" (fileBufferMap req)) →
      is_Some (file_of "aadhaar_upload" (fileBufferMap req)) →
      ¬ (provided (cleanedFormData req) "dental_council_name"
         ∧ provided (cleanedFormData req) "postal_address") →
      noc_rejection req fields_required.

(** *** Folder names *)

(** [fullName] before the clean-up. *)
Definition fullName_of (f_name m_name l_name : option string) : string :=
  JS.join "_" (JS.filter_Boolean [f_name; m_name; l_name]).

(** A string of letters, digits and underscores. *)
Definition word_only (s : string) : Prop :=
  Forall (fun c => JS.is_word c = true) (list_ascii_of_string s).

(** A string without a white-space character. *)
Definition no_white_space (s : string) : Prop :=
  Forall (fun c => JS.is_space c = false) (list_ascii_of_string s).

(** *** Sessions *)

(** The cleared cookie is the one that was set: same name, same options. *)
Definition clears (k : ClearedCookie) (c : Cookie) : Prop :=
  cleared_name k = cookie_name c ∧ cleared_httpOnly k = httpOnly c ∧
  cleared_secure k = secure c ∧ cleared_sameSite k = sameSite c.

Definition logged_out : Response :=
  mkResponse 200
    (JObj [("success", JBool true); ("message", JStr "Logged out successfully")])
    [].

(** The [TypeError] of [req.user._id] on a request without a user. *)
Definition no_user_error : string :=
  "Cannot read properties of undefined (reading '_id')".

(** *** Runs *)

(** The response of a handler that has answered. *)
Definition answer (run : World * finish) : Response :=
  match snd run with
  | Sent r => r
  | Unhandled _ => mkResponse 0 JNull []
  end.

(** ** The seeder of the nationalities ([seeders/seedNationalities.js]) *)

Module Seeder.

Definition nationalities : list string :=
  ["Natural born Indian Citizen"; "Natural born British Subject";
   "British Subject if Indian Domicile"; "Naturalized Indian Citizen";
   "Subject of a Foreign Government"].

(** Modelled from the spec: [models/Nationality.js] is not among the
    sources; a nationality is a lookup document with a name. *)
Record Doc : Type := mkDoc {
  doc_id : nat;
  name : string
}.

(** What the script prints and when it closes the connection.  The lines
    are kept by their kind: [Connected] is the line about the connection,
    [Cleared] the one about the cleared collection, [Seeded] the one about
    the completed seeding, and [Failed msg] the line of [console.error]
    with [err.message]. *)
Inductive event : Type :=
  | Connected
  | Cleared
  | Seeded
  | Failed (msg : string)
  | Disconnect.

#[global] Instance event_eq_dec : EqDecision event.
Proof. solve_decision. Defined.

Record Db : Type := mkDb {
  connected : bool;
  collection : list Doc;
  trace : list event
}.

(** The driver.  Each call resolves or rejects with a message; the two
    calls on the collection say what they leave in it either way. *)
Record Driver : Type := mkDriver {
  (** [mongoose.connect(process.env.MONGO_URI)] *)
  connect : option string;
  (** [Nationality.deleteMany()] *)
  deleteMany : list Doc -> list Doc * option string;
  (** [Nationality.insertMany(docs)] on documents given by their names *)
  insertMany : list string -> list Doc -> list Doc * option string
}.

(** Steps of the script: a new state and a value, or the message of the
    error that was thrown. *)
Definition S (A : Type) : Type := Db -> Db * (A + string).

Definition and_then {A B} (m : S A) (k : A -> S B) : S B :=
  fun db =>
    match m db with
    | (db', inl a) => k a db'
    | (db', inr msg) => (db', inr msg)
    end.

Notation "m >> k" := (and_then m (fun _ => k))
  (at level 100, k at level 200, right associativity).

(** [try { m } catch (err) { h err.message } finally { f }] where neither
    [h] nor [f] throws. *)
Definition try_catch_finally (m : S unit) (h : string -> Db -> Db)
    (f : Db -> Db) : Db -> Db :=
  fun db =>
    match m db with
    | (db', inl _) => f db'
    | (db', inr msg) => f (h msg db')
    end.

Definition log (e : event) : S unit :=
  fun db => (mkDb (connected db) (collection db) (trace db ++ [e]), inl tt).

Definition on_collection (op : list Doc -> list Doc * option string) : S unit :=
  fun db =>
    let '(docs, err) := op (collection db) in
    let db' := mkDb (connected db) docs (trace db) in
    match err with
    | Some msg => (db', inr msg)
    | None => (db', inl tt)
    end.

Definition mongoose_connect (D : Driver) : S unit :=
  fun db =>
    match connect D with
    | Some msg => (db, inr msg)
    | None => (mkDb true (collection db) (trace db), inl tt)
    end.

Definition mongoose_disconnect (db : Db) : Db :=
  mkDb false (collection db) (trace db ++ [Disconnect]).

Definition seedNationalities (D : Driver) : Db -> Db :=
  try_catch_finally
    (mongoose_connect D >>
     log Connected >>
     on_collection (deleteMany D) >>
     log Cleared >>
     let formatted := map (fun name => name) nationalities in
     on_collection (insertMany D formatted) >>
     log Seeded)
    (fun msg db =>
       mkDb (connected db) (collection db) (trace db ++ [Failed msg]))
    mongoose_disconnect.

(** A driver call that resolves does what the driver's documentation says:
    [deleteMany()] without a filter removes every document, and
    [insertMany] adds one document per name, in order. *)
Record well_behaved (D : Driver) : Prop := {
  delete_all : ∀ docs docs',
    deleteMany D docs = (docs', None) → docs' = [];
  insert_all : ∀ names docs docs',
    insertMany D names docs = (docs', None) →
    ∃ new, docs' = (docs ++ new)%list ∧ map name new = names
}.

(** A driver that works, with identifiers counted up from the size of the
    collection. *)
Definition driver_ok : Driver :=
  mkDriver None (fun _ => ([], None))
    (fun names docs =>
       ((docs ++ imap (fun i n => mkDoc (length docs + i) n) names)%list, None)).

End Seeder.

(** ** Further requests and collaborators, used to run the handlers *)

Module Scenario.

Import Sample.

(** The registration of Ravi without a date of birth, with the email of
    Asha, and with a third attachment that is not a PDF. *)
Definition ravi_without_dob : Request :=
  mkRequest (delete "dob" (form ravi_form)) [] ∅ "" None "https" "tdc.example".

Definition ravi_as_asha : Request :=
  mkRequest (<["email" := "asha@example.org"]> (form ravi_form)) [] ∅ "" None
            "https" "tdc.example".

Definition ravi_with_photo : Request :=
  with_form ravi_form
    [("degree_certificate", mkFile "degree.pdf" "%PDF-1.4");
     ("aadhaar_card", mkFile "aadhaar.PDF" "%PDF-1.5");
     ("photo", mkFile "photo.png" "PNG")].

(** Logins. *)
Definition asha_login : Request :=
  with_body [("email", "asha@example.org"); ("password", "correct horse")] "".

Definition ravi_login : Request :=
  with_body [("email", "ravi@example.org"); ("password", "s3cret-pass")] "".

(** A reset request of Asha, the reset with the mailed token, and the login
    with the new password. *)
Definition asha_forgot : Request :=
  with_body [("email", "asha@example.org")] "".

Definition asha_reset : Request :=
  with_body [("password", "new password")] "tok".

Definition asha_new_login : Request :=
  with_body [("email", "asha@example.org"); ("password", "new password")] "".

(** An NOC submission of Asha with its two attachments. *)
Definition asha_noc : Request :=
  as_user asha
    [("dental_council_name", "Karnataka"); ("postal_address", "Road 1")]
    [("tdc_reg_certificate_upload", mkFile "certificate.pdf" "%PDF-1.4");
     ("aadhaar_upload", mkFile "aadhaar.pdf" "%PDF-1.7")].

(** The collaborators of [env_ok] with an uploader that rejects the second
    of these attachments. *)
Definition env_upload_fails : Env :=
  mkEnv (jwt_sign env_ok) (sha256_hex env_ok) (bcrypt_compare env_ok)
        (hash_password env_ok) (sendEmail env_ok)
        (fun buf filename folder =>
           if String.eqb buf "%PDF-1.7" then inr "File size too large"
           else uploadBufferToCloudinary env_ok buf filename folder)
        (validateUser env_ok) (validateNOC env_ok) (production env_ok)
        (uploads_dir env_ok).

(** A registration whose second attachment the uploader rejects. *)
Definition ravi_large_file : Request :=
  with_form ravi_form
    [("degree_certificate", mkFile "degree.pdf" "%PDF-1.4");
     ("aadhaar_card", mkFile "aadhaar.pdf" "%PDF-1.7")].

(** A store with two users, one of whom has asked for a reset. *)
Definition world_two : World :=
  mkWorld [asha_pending; bala] [] ["cat1"] ["nat1"] [] [] [] [].

(** A record without a password next to the record of Asha with its pending
    token, and a login for it. *)
Definition chitra : User :=
  mkUser 3
    (form [("f_name", "Chitra"); ("l_name", "K");
           ("email", "chitra@example.org"); ("mobile_number", "9000000004")])
    None None.

Definition world_imported : World :=
  mkWorld [asha_pending; chitra] [] ["cat1"] ["nat1"] [] [] [] [].

Definition chitra_login : Request :=
  with_body [("email", "chitra@example.org"); ("password", "anything")] "".

(** A request without a user. *)
Definition anonymous : Request := with_form [] [].

(** A database that holds two documents of an earlier seeding. *)
Definition db0 : Seeder.Db :=
  Seeder.mkDb false
    [Seeder.mkDoc 0 "Indian"; Seeder.mkDoc 1 "Other"] [].

End Scenario.

(** * Properties *)

#[local] Set Warnings "-clear-no-such-hyp".

Example extname_pdf : Path.extname "degree.pdf" = ".pdf".
Proof. reflexivity. Qed.

Example extname_upper : Path.extname "Degree.PDF" = ".PDF".
Proof. reflexivity. Qed.

Example extname_dotfile : Path.extname ".pdf" = "".
Proof. reflexivity. Qed.

Example extname_dotdot : Path.extname "a/.." = "".
Proof. reflexivity. Qed.

Example extname_two_dots : Path.extname "scan.pdf.exe" = ".exe".
Proof. reflexivity. Qed.

Example extname_none : Path.extname "photo" = "".
Proof. reflexivity. Qed.

Example extname_trailing_slash : Path.extname "degree.pdf/" = ".pdf".
Proof. reflexivity. Qed.

Example test_thirteenth_month : JS.test_anchored mmYYYYRegex "13/2020" = false.
Proof. reflexivity. Qed.

Example test_fourth_month : JS.test_anchored mmYYYYRegex "04/2020" = true.
Proof. reflexivity. Qed.

Example trim_fullname : JS.trim "  Asha  Rao " = "Asha  Rao".
Proof. reflexivity. Qed.

Example lower_extension : JS.toLowerCase ".PdF" = ".pdf".
Proof. reflexivity. Qed.

(** ** The extension of a file name *)

Section ExtnameFacts.

Lemma list_of_substring m n s :
  list_ascii_of_string (String.substring m n s)
  = take n (drop m (list_ascii_of_string s)).
Proof.
  revert m n. induction s as [|c s IH]; intros [|m] [|n]; cbn; try done;
    by rewrite IH.
Qed.

Lemma string_of_list_app (l1 l2 : list ascii) :
  string_of_list_ascii (l1 ++ l2)
  = string_of_list_ascii l1 ++ string_of_list_ascii l2.
Proof. induction l1 as [|c l1 IH]; [done|]. cbn. by rewrite IH. Qed.

Lemma string_length_list s :
  String.length s = length (list_ascii_of_string s).
Proof. induction s as [|c s IH]; [done|]. cbn. by rewrite IH. Qed.

Lemma scanned_result l n st : scanned l n st → scan_result l st.
Proof.
  intros [(He & Hs & _) | (_ & He & Hsl & Hs)] Hs' He'; [done|].
  destruct Hs as [Hs | Hs]; [done|]. repeat split; try done; lia.
Qed.

Lemma extname_loop_scanned l n st :
  (n ≤ length l)%nat → scanned l n st →
  scan_result l (Path.extname_loop (rev (take n l)) (Z.of_nat n - 1) st).
Proof.
  revert st. induction n as [|n IH]; intros st Hn Hst.
  { cbn. by eapply scanned_result. }
  destruct (lookup_lt_is_Some_2 l n) as [c Hc]; [lia|].
  rewrite (take_S_r l n c Hc), rev_unit. cbn [Path.extname_loop].
  replace (Z.of_nat (S n) - 1)%Z with (Z.of_nat n) by lia.
  pose proof (drop_S l c n Hc) as Hdrop.
  destruct st as [sd sp en ms pd]. unfold scanned in Hst. cbn in Hst.
  destruct (Ascii.eqb_spec c "/") as [-> | Hslash].
  - destruct Hst as [(-> & -> & -> & Hall) | (-> & He & Hall & Hs)];
      cbn [Path.matchedSlash negb].
    + apply IH; [lia|]. left. repeat split; try done.
      rewrite Hdrop. by constructor.
    + intros Hs' He'. cbn in *.
      destruct Hs as [Hs | Hs]; [done|]. repeat split; try done; lia.
  - apply IH; [lia|]. right.
    destruct Hst as [(-> & -> & -> & Hall) | (-> & He & Hall & Hs)]; cbn.
    + replace (Z.to_nat (Z.of_nat n + 1)) with (S n) by lia.
      destruct (Ascii.eqb c "."); cbn;
        replace (Z.to_nat (Z.of_nat n + 1)) with (S n) by lia;
        (repeat split; [lia | lia | done | ]); [right; lia | by left].
    + destruct (Z.eqb_spec en (-1)) as [Heq | _]; [lia|]. cbn.
      destruct (Ascii.eqb c "."); cbn.
      * destruct (Z.eqb_spec sd (-1)) as [Heq | Hne]; cbn.
        -- repeat split; try done; lia.
        -- destruct (negb _); cbn; repeat split; try done; lia.
      * destruct (negb _); cbn; repeat split; try done; lia.
Qed.

(** The extension is a part of the name that is followed by slashes only. *)
Lemma extname_is_suffix p :
  ∃ stem slashes,
    p = stem ++ Path.extname p ++ slashes ∧ only_slashes slashes.
Proof.
  unfold Path.extname.
  set (l := list_ascii_of_string p).
  set (st := Path.extname_loop _ _ _).
  assert (scan_result l st) as Hres.
  { subst st. rewrite string_length_list. fold l.
    assert (scanned l (length l) Path.scan0) as H0.
    { left. repeat split; try done. rewrite drop_all. constructor. }
    pose proof (extname_loop_scanned l (length l) Path.scan0 (le_n _) H0)
      as H.
    by rewrite firstn_all in H. }
  destruct (_ || _) eqn:Hcond.
  { exists p, "". split; [|constructor].
    rewrite <- (string_of_list_ascii_of_string p) at 1.
    rewrite <- (app_nil_r (list_ascii_of_string p)) at 1.
    by rewrite string_of_list_app, string_of_list_ascii_of_string. }
  rewrite !orb_false_iff in Hcond. destruct Hcond as [[[Hs He] _] _].
  apply Z.eqb_neq in Hs, He.
  destruct (Hres Hs He) as (Hse & Hel & Hall).
  set (a := Z.to_nat (Path.startDot st)).
  set (b := Z.to_nat (Path.end_ st)).
  exists (string_of_list_ascii (take a l)), (string_of_list_ascii (drop b l)).
  split.
  - unfold Path.slice.
    rewrite <- (string_of_list_ascii_of_string (String.substring _ _ p)).
    rewrite list_of_substring. fold l a.
    replace (Z.to_nat (Path.end_ st - Path.startDot st)) with (b - a) by lia.
    rewrite <- !string_of_list_app.
    rewrite <- (string_of_list_ascii_of_string p) at 1. fold l. f_equal.
    rewrite <- (take_drop a l) at 1. f_equal.
    rewrite <- (take_drop (b - a) (drop a l)) at 1. f_equal.
    rewrite drop_drop. f_equal. lia.
  - unfold only_slashes. by rewrite list_ascii_of_string_of_list_ascii.
Qed.

(** A name that passes the test of the registration ends, up to the case of
    the letters and to trailing slashes, in [.pdf]. *)
Lemma is_pdf_name_ends_in_pdf name :
  is_pdf_name name → ends_in_pdf name.
Proof.
  intros Hpdf. destruct (extname_is_suffix name) as (stem & slashes & Hn & Hs).
  by exists stem, (Path.extname name), slashes.
Qed.

End ExtnameFacts.

(** ** The qualification-year pattern *)

Section RegexFacts.

#[local] Arguments JS.in_range : simpl never.
#[local] Arguments JS.is_digit : simpl never.

Lemma matches_Void s : JS.matches JS.Void s = false.
Proof. induction s; simpl; auto. Qed.

Ltac regex_step :=
  match goal with
  | |- context [JS.matches JS.Void _] => rewrite matches_Void
  | |- context [if ?b then _ else _] => destruct b
  end; simpl.

Lemma mmYYYY_matches_direct s :
  JS.test_anchored mmYYYYRegex s = mmYYYY_direct s.
Proof.
  unfold JS.test_anchored.
  do 8 (destruct s as [|? s]; simpl; repeat regex_step; try reflexivity).
Qed.

End RegexFacts.

Section DigitFacts.

Lemma is_digit_value c :
  JS.is_digit c = true →
  (digit_value c < 10)%N ∧ digit_char (digit_value c) = c.
Proof.
  destruct c as [[] [] [] [] [] [] [] []]; intros H; try discriminate H;
    split; reflexivity.
Qed.

Lemma is_digit_char d : (d < 10)%N → JS.is_digit (digit_char d) = true.
Proof.
  intros H.
  assert (d = 0 ∨ d = 1 ∨ d = 2 ∨ d = 3 ∨ d = 4 ∨ d = 5 ∨ d = 6 ∨ d = 7
          ∨ d = 8 ∨ d = 9)%N as Hd by lia.
  repeat destruct Hd as [-> | Hd]; try subst d; reflexivity.
Qed.

Lemma four_digits_build a b c d :
  (a < 10 → b < 10 → c < 10 → d < 10 →
   four_digits (1000 * a + 100 * b + 10 * c + d)
   = String (digit_char a) (String (digit_char b)
       (String (digit_char c) (String (digit_char d) ""))))%N.
Proof.
  intros Ha Hb Hc Hd. unfold four_digits.
  set (n := (1000 * a + 100 * b + 10 * c + d)%N).
  assert (n / 1000 = a)%N as ->
    by (symmetry; apply N.div_unique with (100 * b + 10 * c + d)%N; lia).
  assert (n / 100 = 10 * a + b)%N as ->
    by (symmetry; apply N.div_unique with (10 * c + d)%N; lia).
  assert (n / 10 = 100 * a + 10 * b + c)%N as ->
    by (symmetry; apply N.div_unique with d; lia).
  assert ((10 * a + b) mod 10 = b)%N as ->
    by (symmetry; apply N.mod_unique with a; lia).
  assert ((100 * a + 10 * b + c) mod 10 = c)%N as ->
    by (symmetry; apply N.mod_unique with (10 * a + b)%N; lia).
  assert (n mod 10 = d)%N as ->
    by (symmetry; apply N.mod_unique with (100 * a + 10 * b + c)%N; lia).
  reflexivity.
Qed.

Lemma month_cases a b :
  (Ascii.eqb a "0" && JS.in_range "1" "9" b)
  || (Ascii.eqb a "1" && JS.in_range "0" "2" b) = true →
  ∃ month : N, (1 ≤ month ≤ 12)%N ∧
    two_digits month = String a (String b "").
Proof.
  intros H. apply orb_true_iff in H.
  destruct H as [H | H]; apply andb_true_iff in H; destruct H as [Ha Hb];
    apply Ascii.eqb_eq in Ha; subst a;
    destruct b as [[] [] [] [] [] [] [] []]; try discriminate Hb.
  all: first
    [ by exists 1%N | by exists 2%N | by exists 3%N | by exists 4%N
    | by exists 5%N | by exists 6%N | by exists 7%N | by exists 8%N
    | by exists 9%N | by exists 10%N | by exists 11%N | by exists 12%N ].
Qed.

Lemma month_two_digits month :
  (1 ≤ month ≤ 12)%N →
  ∃ a b, two_digits month = String a (String b "") ∧
    (Ascii.eqb a "0" && JS.in_range "1" "9" b)
    || (Ascii.eqb a "1" && JS.in_range "0" "2" b) = true.
Proof.
  intros H.
  assert (month = 1 ∨ month = 2 ∨ month = 3 ∨ month = 4 ∨ month = 5
          ∨ month = 6 ∨ month = 7 ∨ month = 8 ∨ month = 9 ∨ month = 10
          ∨ month = 11 ∨ month = 12)%N as Hm by lia.
  repeat destruct Hm as [-> | Hm]; try subst month;
    eexists _, _; split; reflexivity.
Qed.

Lemma mmYYYY_direct_spec s : mmYYYY_direct s = true ↔ is_MM_YYYY s.
Proof.
  split.
  - destruct s as [|a [|b [|c [|d1 [|d2 [|d3 [|d4 [|? ?]]]]]]]];
      try discriminate.
    cbn [mmYYYY_direct]. rewrite !andb_true_iff.
    intros [[[[[Hm Hs] H1] H2] H3] H4].
    apply Ascii.eqb_eq in Hs; subst.
    destruct (month_cases _ _ Hm) as (month & Hmonth & Htwo).
    destruct (is_digit_value _ H1) as [L1 E1].
    destruct (is_digit_value _ H2) as [L2 E2].
    destruct (is_digit_value _ H3) as [L3 E3].
    destruct (is_digit_value _ H4) as [L4 E4].
    exists month,
      (1000 * digit_value d1 + 100 * digit_value d2 + 10 * digit_value d3
       + digit_value d4)%N.
    split; [done|]. split; [lia|].
    rewrite Htwo, four_digits_build by done.
    by rewrite E1, E2, E3, E4.
  - intros (month & year & Hmonth & Hyear & ->).
    destruct (month_two_digits month Hmonth) as (a & b & -> & Hab).
    unfold four_digits, mmYYYY_direct. cbv [String.append].
    rewrite Hab. change (Ascii.eqb "/" "/") with true. cbn [andb].
    rewrite !is_digit_char; [done|..].
    + apply N.mod_lt. lia.
    + apply N.mod_lt. lia.
    + apply N.mod_lt. lia.
    + apply N.Div0.div_lt_upper_bound. lia.
Qed.

End DigitFacts.

(** ** Folder names *)

Section FolderNames.

Lemma append_empty_l (s : string) : "" ++ s = s.
Proof. reflexivity. Qed.

Lemma is_word_not_blank c : JS.is_word c = true → JS.is_blank c = false.
Proof.
  unfold JS.is_blank. destruct (Ascii.eqb c " ") eqn:Hc; [|done].
  apply Ascii.eqb_eq in Hc. subst c. discriminate.
Qed.

Lemma collapse_after_strip in_run s :
  JS.replace_runs_from in_run JS.is_blank "_" (strip s) = strip s.
Proof.
  revert in_run. induction s as [|c s IH]; intros in_run; [done|].
  unfold strip in *. cbn [JS.replace_each].
  destruct (JS.is_word c) eqn:Hc; cbn [negb].
  - cbn [JS.replace_runs_from]. rewrite (is_word_not_blank c Hc).
    by rewrite IH.
  - rewrite append_empty_l. apply IH.
Qed.

End FolderNames.

(** ** Validation of the form *)

Section FormFacts.

Lemma truthy_provided data k : JS.truthy (data !! k) = true ↔ provided data k.
Proof.
  unfold provided, JS.truthy. destruct (data !! k) as [s|].
  - rewrite negb_true_iff, String.eqb_neq. naive_solver.
  - naive_solver.
Qed.

Lemma missing_personal_info_false data :
  missing_personal_info data = false ↔
  ∀ k, k ∈ required_fields → provided data k.
Proof.
  unfold missing_personal_info, required_fields.
  rewrite !orb_false_iff, !negb_false_iff, !truthy_provided. split.
  - intros H k Hk. repeat (apply elem_of_cons in Hk as [-> | Hk]);
      [naive_solver..|]. by apply not_elem_of_nil in Hk.
  - intros H. repeat split; apply H; set_solver.
Qed.

Lemma bad_year_false v : bad_year v = false ↔ year_ok v.
Proof.
  unfold bad_year, year_ok. destruct v as [s|]; [|naive_solver].
  cbn [JS.truthy]. rewrite mmYYYY_matches_direct.
  destruct (String.eqb_spec s "") as [-> | Hs]; cbn [negb andb].
  - naive_solver.
  - rewrite negb_false_iff, mmYYYY_direct_spec. naive_solver.
Qed.

Lemma bad_year_true s :
  s ≠ "" → ¬ is_MM_YYYY s → bad_year (Some s) = true.
Proof.
  intros Hs Hbad. destruct (bad_year (Some s)) eqn:Hb; [done|].
  apply bad_year_false in Hb. destruct Hbad. by apply Hb.
Qed.

End FormFacts.

(** ** The record store *)

Section StoreFacts.

Lemma find_user_by_Some k v us u :
  find_user_by k v us = Some u → u ∈ us ∧ path_of u k = v.
Proof.
  unfold find_user_by. intros H. apply find_some in H as [Hin Hp].
  split; [by apply list_elem_of_In|]. by apply bool_decide_eq_true in Hp.
Qed.

(** Writing back a document found by a path that the write leaves alone:
    the same query finds the written document. *)
Lemma find_user_by_upsert k v us u u' :
  find_user_by k v us = Some u → _id u' = _id u → path_of u' k = v →
  find_user_by k v (upsert u' us) = Some u'.
Proof.
  unfold find_user_by. intros Hfind Hid Hpath.
  induction us as [|x us IH]; [done|].
  cbn [upsert find] in *.
  destruct (Nat.eqb_spec (_id x) (_id u')) as [Hx | Hx].
  - cbn [find]. by rewrite bool_decide_eq_true_2.
  - cbn [find]. destruct (bool_decide (path_of x k = v)).
    + congruence.
    + by apply IH.
Qed.

Lemma upsert_fresh u us :
  _id u ∉ map _id us → upsert u us = (us ++ [u])%list.
Proof.
  induction us as [|x us IH]; [done|].
  cbn [map upsert]. rewrite not_elem_of_cons. intros [Hx Hus].
  destruct (Nat.eqb_spec (_id x) (_id u)) as [Heq | _]; [congruence|].
  cbn [app]. by rewrite IH.
Qed.

Lemma fresh_id_above ids n : n ∈ ids → n < fresh_id ids.
Proof.
  unfold fresh_id. induction ids as [|m ids IH]; [by intros ?%not_elem_of_nil|].
  rewrite elem_of_cons. cbn [foldr]. intros [-> | Hn]; [lia|].
  specialize (IH Hn). lia.
Qed.

Lemma fresh_id_fresh ids : fresh_id ids ∉ ids.
Proof. intros H%fresh_id_above. lia. Qed.

(** With distinct identifiers a write replaces exactly the document it was
    read from. *)
Lemma elem_of_upsert us u0 u' x :
  NoDup (map _id us) → u0 ∈ us → _id u' = _id u0 →
  x ∈ upsert u' us ↔ x = u' ∨ (x ∈ us ∧ x ≠ u0).
Proof.
  intros Hnd Hin Hid. induction us as [|y us IH];
    [by apply not_elem_of_nil in Hin|].
  cbn [map] in Hnd. apply NoDup_cons in Hnd as [Hy Hnd].
  cbn [upsert]. apply elem_of_cons in Hin as [<- | Hin].
  - rewrite Hid, Nat.eqb_refl. rewrite !elem_of_cons.
    split; [|naive_solver].
    intros [-> | Hx]; [by left|]. right. split; [by right|].
    intros ->. apply Hy. by apply list_elem_of_fmap_2.
  - destruct (Nat.eqb_spec (_id y) (_id u')) as [Heq | Hne].
    + destruct Hy. rewrite Heq, Hid. by apply list_elem_of_fmap_2.
    + rewrite !elem_of_cons, (IH Hnd Hin). split; [|naive_solver].
      intros [-> | [-> | [Hx Hne']]]; [|by left|naive_solver].
      right. split; [by left|]. intros ->. congruence.
Qed.

End StoreFacts.

(** ** registerUser *)

(** Under steps 1 to 6 the handler reaches the password check. *)
Ltac run_steps_1_6 H :=
  let H1 := fresh "Hreq" in
  let H2 := fresh "Hbds" in
  let H3 := fresh "Hmds" in
  let H4 := fresh "Hcat" in
  let H5 := fresh "Hnat" in
  let H6 := fresh "Hemail" in
  let H7 := fresh "Hmobile" in
  destruct H as [H1 H2 H3 H4 H5 H6 H7];
  apply missing_personal_info_false in H1;
  apply bad_year_false in H2; apply bad_year_false in H3;
  apply (bool_decide_eq_true_2 _) in H4;
  apply (bool_decide_eq_true_2 _) in H5;
  unfold registerUser_persist, bind, when_, get_world, User_findOne, ret;
  rewrite H1, H2, H3; cbv beta iota zeta;
  rewrite H4, H5; cbn [negb]; cbv beta iota zeta;
  rewrite H6;
  rewrite (bool_decide_eq_false_2 (is_Some None)) by apply is_Some_None;
  cbv beta iota zeta;
  rewrite H7;
  rewrite (bool_decide_eq_false_2 (is_Some None)) by apply is_Some_None;
  cbv beta iota zeta.

Section RegisterFacts.

Variable E : Env.

Lemma persist_without_password req now w :
  passes_steps_1_6 req w →
  cleanedFormData req !! "password" = None →
  registerUser_persist E req now w
  = (w, Throw "Cannot read properties of undefined (reading 'length')").
Proof.
  intros Hsteps Hpw. run_steps_1_6 Hsteps.
  rewrite Hpw. reflexivity.
Qed.


End RegisterFacts.

Section RegisterRuns.

Variable E : Env.

(** The upload loop leaves the record store alone, and the only response it
    sends is the rejection of a file that is not a PDF. *)
Lemma register_files_inv safeName dir now entries data w w' s :
  register_files E safeName dir now entries data w = (w', s) →
  users w' = users w ∧ nocs w' = nocs w ∧
  (∀ r, s = Respond r →
     ∃ k f, (k, f) ∈ entries ∧ ¬ is_pdf_name (originalname f) ∧
       r = error_response 400
             ("Only PDF files allowed. '" ++ originalname f
              ++ "' is not a PDF.")) ∧
  (∀ d, s = Next d →
     ∀ k f, (k, f) ∈ entries → is_pdf_name (originalname f)).
Proof.
  revert now data w.
  induction entries as [|[k f] rest IH]; intros now data w H.
  - cbn in H. injection H as <- <-. repeat split; try done.
    by intros ? _ ? ? ?%not_elem_of_nil.
  - cbn [register_files] in H.
    destruct (String.eqb_spec
                (JS.toLowerCase (Path.extname (originalname f))) ".pdf")
      as [Hext | Hext]; cbn [negb] in H.
    + unfold bind, writeFileSync, modify, upload in H.
      cbv beta iota zeta in H.
      destruct (uploadBufferToCloudinary E _ _ _) as [url | msg].
      * cbv beta iota zeta in H. apply IH in H as (Hu & Hn & Hr & Hd).
        split; [done|]. split; [done|]. split.
        -- intros r Hs. destruct (Hr r Hs) as (k' & f' & Hin & Hne & ->).
           exists k', f'. split; [by right|done].
        -- intros d Hs k' f' [[= -> ->] | Hin]%elem_of_cons; [done|].
           by eapply Hd.
      * injection H as <- <-. by repeat split.
    + injection H as <- <-. split; [done|]. split; [done|]. split; [|done].
      intros r [= <-]. exists k, f. split; [by left|done].
Qed.

End RegisterRuns.

Section RegisterOutcomes.

Variable E : Env.

Ltac split_guard H :=
  match type of H with
  | context [if ?b then _ else _] =>
      let Hb := fresh "Hguard" in
      destruct b eqn:Hb; cbv beta iota zeta in H
  end.

(** Every way in which the part of [registerUser] up to the save can end. *)
Lemma persist_inv req now w w' s :
  registerUser_persist E req now w = (w', s) →
  match s with
  | Respond r => users w' = users w ∧ nocs w' = nocs w ∧ rejection req w r
  | Throw msg => users w' = users w ∧ nocs w' = nocs w
  | Next user =>
      users w' = (users w ++ [stored E user])%list ∧ nocs w' = nocs w ∧
      (_id user ∉ map _id (users w)) ∧ validateUser E user = None ∧
      missing_personal_info (cleanedFormData req) = false ∧
      (∀ k f, (k, f) ∈ fileBufferMap req → is_pdf_name (originalname f)) ∧
      ∃ p, cleanedFormData req !! "password" = Some p ∧
           (8 ≤ String.length p)%nat
  end.
Proof.
  intros H.
  unfold registerUser_persist, bind, when_, get_world, User_findOne, ret,
    respond in H.
  cbv beta iota zeta in H.
  split_guard H; [injection H as <- <-; repeat split; by constructor|].
  split_guard H; [injection H as <- <-; repeat split; by constructor|].
  split_guard H; [injection H as <- <-; repeat split; by constructor|].
  split_guard H.
  { injection H as <- <-. repeat split. apply rej_category.
    apply negb_true_iff, bool_decide_eq_false in Hguard2.
    by apply eq_None_not_Some. }
  split_guard H.
  { injection H as <- <-. repeat split. apply rej_nationality.
    apply negb_true_iff, bool_decide_eq_false in Hguard3.
    by apply eq_None_not_Some. }
  split_guard H.
  { injection H as <- <-. repeat split.
    apply bool_decide_eq_true in Hguard4 as [u Hu]. by eapply rej_email. }
  split_guard H.
  { injection H as <- <-. repeat split.
    apply bool_decide_eq_true in Hguard5 as [u Hu]. by eapply rej_mobile. }
  destruct (cleanedFormData req !! "password") as [p|] eqn:Hpw; cycle 1.
  { cbn in H. injection H as <- <-. by split. }
  cbn [length_of] in H. unfold ret in H. cbv beta iota zeta in H.
  split_guard H.
  { injection H as <- <-. repeat split.
    eapply rej_password; [done|]. by apply Nat.ltb_lt. }
  apply Nat.ltb_ge in Hguard6.
  unfold mkdirSync, modify in H. cbv beta iota zeta in H.
  destruct (register_files E _ _ _ _ _ _) as [w4 s4] eqn:Hfiles.
  apply register_files_inv in Hfiles as (Hu4 & Hn4 & Hr4 & Hd4).
  cbn [users nocs add_folder] in Hu4, Hn4.
  destruct s4 as [data' | r | msg]; cbv beta iota zeta in H.
  - unfold User_save, throw, modify in H.
    destruct (validateUser E _) as [msg|] eqn:Hval; cbv beta iota zeta in H.
    + injection H as <- <-. by split.
    + injection H as <- <-. cbn [users nocs set_users _id].
      rewrite Hu4, Hn4.
      assert (fresh_id (map _id (users w)) ∉ map _id (users w)) as Hfresh
        by apply fresh_id_fresh.
      rewrite Hu4 in Hval.
      split; [by rewrite upsert_fresh|]. repeat split; try done; eauto.
  - injection H as <- <-. split; [done|]. split; [done|].
    destruct (Hr4 r eq_refl) as (k & f & Hin & Hext & ->).
    by eapply rej_file.
  - injection H as <- <-. by split.
Qed.

End RegisterOutcomes.

Section RegisterResponses.

Variable E : Env.

Lemma passes_steps_1_6_reflect req w :
  passes_steps_1_6_b req w = true → passes_steps_1_6 req w.
Proof.
  unfold passes_steps_1_6_b. cbv zeta.
  rewrite !andb_true_iff, !negb_true_iff, !bool_decide_eq_true.
  intros [[[[[[H1 H2] H3] H4] H5] H6] H7].
  split; try done.
  - by apply missing_personal_info_false.
  - by apply bad_year_false.
  - by apply bad_year_false.
Qed.

(** The handler in terms of its two parts and of the [catch] clause. *)
Lemma registerUser_unfold req now w :
  registerUser E req now w
  = match registerUser_persist E req now w with
    | (w1, Respond r) => (w1, Sent r)
    | (w1, Throw msg) => (w1, Sent (failure_response msg))
    | (w1, Next user) =>
        match sendEmail E (welcome_mail user) with
        | Some msg => (w1, Sent (failure_response msg))
        | None =>
            (add_mail (welcome_mail user) w1, Sent (created_response E user))
        end
    end.
Proof.
  unfold registerUser, handle, try_catch, registerUser_try, bind.
  destruct (registerUser_persist E req now w) as [w1 [user | r | msg]];
    try reflexivity.
  unfold registerUser_welcome, bind, send.
  destruct (sendEmail E (welcome_mail user)); reflexivity.
Qed.

(** A registration ends with a response: 201, 400, 409 or 500. *)
Lemma registerUser_responds req now w :
  ∃ w' r, registerUser E req now w = (w', Sent r) ∧
    (status r = 201 ∨ status r = 400 ∨ status r = 409 ∨ status r = 500).
Proof.
  rewrite registerUser_unfold.
  destruct (registerUser_persist E req now w) as [w1 [user | r | msg]] eqn:H.
  - destruct (sendEmail E _); eexists _, _; (split; [done|]); cbn; auto.
  - apply persist_inv in H as (_ & _ & Hr). exists w1, r. split; [done|].
    destruct Hr; cbn; auto.
  - eexists _, _; (split; [done|]); cbn; auto.
Qed.

(** A file that is not a PDF keeps the registration from being stored. *)
Lemma register_non_pdf_not_persisted req now w k f :
  (k, f) ∈ fileBufferMap req →
  ¬ is_pdf_name (originalname f) →
  ∃ w' r, registerUser E req now w = (w', Sent r) ∧
    users w' = users w ∧ nocs w' = nocs w ∧
    (status r = 400 ∨ status r = 409 ∨ status r = 500).
Proof.
  intros Hin Hext. rewrite registerUser_unfold.
  destruct (registerUser_persist E req now w) as [w1 [user | r | msg]] eqn:H;
    apply persist_inv in H.
  - destruct H as (_ & _ & _ & _ & _ & Hpdf & _). destruct Hext. eauto.
  - destruct H as (Hu & Hn & Hr). exists w1, r. repeat split; try done.
    destruct Hr; cbn; auto.
  - destruct H as (Hu & Hn). eexists _, _. repeat split; try done. cbn; auto.
Qed.

(** In the words of the specification: a file whose name does not end in
    [.pdf] keeps the registration from being stored. *)
Lemma register_other_extension_not_persisted req now w k f :
  (k, f) ∈ fileBufferMap req →
  ¬ ends_in_pdf (originalname f) →
  ∃ w' r, registerUser E req now w = (w', Sent r) ∧
    users w' = users w ∧ nocs w' = nocs w ∧
    (status r = 400 ∨ status r = 409 ∨ status r = 500).
Proof.
  intros Hin Hno. apply (register_non_pdf_not_persisted req now w k f Hin).
  intros Hpdf. by apply Hno, is_pdf_name_ends_in_pdf.
Qed.

(** C1 (as amended).  When the registration has passed all validation and
    the user record is saved, a failing welcome mail makes the handler
    answer 500 with the failure's message, and the saved record stays in the
    store; the 201 response with the token is sent when the mail goes out. *)
Theorem welcome_mail_failure_answers_500 req now w w1 user :
  registerUser_persist E req now w = (w1, Next user) →
  stored E user ∈ users w1 ∧ (stored E user ∉ users w) ∧
  match sendEmail E (welcome_mail user) with
  | Some msg =>
      registerUser E req now w = (w1, Sent (failure_response msg))
  | None =>
      registerUser E req now w
      = (add_mail (welcome_mail user) w1, Sent (created_response E user))
  end.
Proof.
  intros H. rewrite registerUser_unfold, H.
  apply persist_inv in H as (Hu & _ & Hfresh & _).
  split; [rewrite Hu; set_solver|]. split.
  - intros Hin. apply Hfresh.
    by apply (list_elem_of_fmap_2 _id) in Hin.
  - by destruct (sendEmail E (welcome_mail user)).
Qed.

(** C9.  The presence check of the registration does not look at [email],
    [mobile_number] or [password]; a submission that passes steps 1 to 6 and
    has no password ends in the [catch] clause, with status 500 and the
    message of the exception raised by reading the length of [undefined],
    and nothing is stored. *)
Theorem register_without_password_answers_500 req now w :
  passes_steps_1_6 req w →
  cleanedFormData req !! "password" = None →
  (∀ k data, k ∈ ["email"; "mobile_number"; "password"] →
     missing_personal_info (delete k data) = missing_personal_info data) ∧
  registerUser E req now w
  = (w, Sent (failure_response
                "Cannot read properties of undefined (reading 'length')")).
Proof.
  intros Hsteps Hpw. split.
  - intros k data Hk. unfold missing_personal_info.
    repeat (apply elem_of_cons in Hk as [-> | Hk]);
      [by rewrite !lookup_delete_ne by done..|].
    by apply not_elem_of_nil in Hk.
  - by rewrite registerUser_unfold, persist_without_password.
Qed.


End RegisterResponses.

Section YearFormat.

Variable E : Env.

(** The two format rejections are sent for a malformed year only. *)
Lemma format_rejection_inv req w fld :
  fld = "bds_qualification_year" ∨ fld = "mds_qualification_year" →
  rejection req w (error_response 400 (fld ++ " must be in MM/YYYY format")) →
  bad_year (cleanedFormData req !! fld) = true.
Proof.
  intros Hfld Hrej.
  inversion Hrej as [? Heq | ? Heq | ? Heq | ? Heq | ? Heq | ? ? Heq
                    | ? ? Heq | ? ? ? Heq | ? ? ? ? Heq];
    destruct Hfld as [-> | ->]; cbv [String.append] in Heq;
    try discriminate Heq; done.
Qed.

(** C7.  A qualification year that is present in a registration is accepted
    exactly when it has the form MM/YYYY with a month from 01 to 12 and four
    digits of year: the pattern of the handler holds for it exactly then,
    and the handler answers 400 with the format error of the field exactly
    when it does not.  13/2020 is malformed and 04/2020 is well formed. *)
Theorem qualification_year_accepted_iff_MM_YYYY req now w fld s :
  (∀ k, k ∈ required_fields → provided (cleanedFormData req) k) →
  fld = "bds_qualification_year"
  ∨ (fld = "mds_qualification_year"
     ∧ year_ok (cleanedFormData req !! "bds_qualification_year")) →
  cleanedFormData req !! fld = Some s →
  s ≠ "" →
  (JS.test_anchored mmYYYYRegex s = true ↔ is_MM_YYYY s) ∧
  (registerUser E req now w
   = (w, Sent (error_response 400 (fld ++ " must be in MM/YYYY format")))
   ↔ ¬ is_MM_YYYY s) ∧
  ¬ is_MM_YYYY "13/2020" ∧ is_MM_YYYY "04/2020".
Proof.
  intros Hreq Hfld Hs Hne.
  assert (∀ t, JS.test_anchored mmYYYYRegex t = true ↔ is_MM_YYYY t) as Hpat
    by (intros t; by rewrite mmYYYY_matches_direct, mmYYYY_direct_spec).
  split; [apply Hpat|]. split; [|split].
  - split.
    + intros Hrun Hgood. rewrite registerUser_unfold in Hrun.
      assert (bad_year (cleanedFormData req !! fld) = true) as Hbad.
      { destruct (registerUser_persist E req now w) as [w1 [u | r | msg]]
          eqn:Hp.
        - destruct (sendEmail E _); discriminate Hrun.
        - injection Hrun as -> ->. apply persist_inv in Hp as (_ & _ & Hrej).
          apply (format_rejection_inv req w); [tauto|done].
        - discriminate Hrun. }
      assert (year_ok (cleanedFormData req !! fld)) as Hok.
      { intros t Ht _. by simplify_eq. }
      apply bad_year_false in Hok. congruence.
    + intros Hbad. rewrite registerUser_unfold.
      apply missing_personal_info_false in Hreq.
      pose proof (bad_year_true s Hne Hbad) as Hb.
      unfold registerUser_persist, bind, when_, respond, ret.
      rewrite Hreq. cbv beta iota zeta.
      destruct Hfld as [-> | [-> Hbds]].
      * by rewrite Hs, Hb.
      * apply bad_year_false in Hbds. rewrite Hbds. cbv beta iota zeta.
        by rewrite Hs, Hb.
  - rewrite <- Hpat. by intros [=].
  - by apply Hpat.
Qed.

End YearFormat.

(** ** Login and password reset *)

Section AuthFacts.

Variable E : Env.

(** C6.  A login with an email that matches no user and a login with a known
    email and a wrong password get the same response, status 400 with the
    message "Invalid email or password.", and neither changes the store. *)
Theorem failed_logins_get_the_same_response req1 req2 w user hash p2 :
  provided (req_body req1) "email" →
  provided (req_body req1) "password" →
  provided (req_body req2) "email" →
  req_body req2 !! "password" = Some p2 → p2 ≠ "" →
  find_user_by "email" (req_body req1 !! "email") (users w) = None →
  find_user_by "email" (req_body req2 !! "email") (users w) = Some user →
  path_of user "password" = Some hash →
  bcrypt_compare E p2 hash = false →
  loginUser E req1 w = (w, Sent invalid_credentials) ∧
  loginUser E req2 w = (w, Sent invalid_credentials) ∧
  status invalid_credentials = 400.
Proof.
  intros He1 Hp1 He2 Hp2 Hne Hnone Hsome Hhash Hcmp.
  apply truthy_provided in He1, Hp1, He2.
  assert (JS.truthy (req_body req2 !! "password") = true) as Hp2'.
  { apply truthy_provided. by exists p2. }
  unfold loginUser, handle, loginUser_body, bind, when_, User_findOne, ret.
  rewrite He1, Hp1, He2, Hp2'. cbn [negb orb]. cbv beta iota zeta.
  rewrite Hnone, Hsome. cbv beta iota zeta.
  split; [done|]. split; [|done].
  rewrite Hhash, Hp2. unfold compare_password, ret.
  cbv beta iota zeta delta [default id]. by rewrite Hcmp.
Qed.

(** An attempt without an email or without a password is answered before the
    store is looked at, whoever the email belongs to. *)
Lemma login_missing_credentials req w :
  ¬ provided (req_body req) "email" ∨ ¬ provided (req_body req) "password" →
  loginUser E req w
  = (w, Sent (message_response 400 "Email and password are required.")).
Proof.
  intros H.
  assert (negb (JS.truthy (req_body req !! "email"))
          || negb (JS.truthy (req_body req !! "password")) = true) as Hguard.
  { apply orb_true_iff. rewrite !negb_true_iff.
    destruct H as [H | H]; [left | right];
      (destruct (JS.truthy _) eqn:Ht; [|done]);
      by apply truthy_provided in Ht. }
  unfold loginUser, handle, loginUser_body, bind, when_.
  by rewrite Hguard.
Qed.

(** *** forgotPassword *)

Lemma upsert_ids u' us :
  _id u' ∈ map _id us → map _id (upsert u' us) = map _id us.
Proof.
  induction us as [|x us IH]; [by intros ?%not_elem_of_nil|].
  cbn [map upsert]. intros Hin.
  destruct (Nat.eqb_spec (_id x) (_id u')) as [Heq | Hne].
  - cbn [map]. by rewrite Heq.
  - cbn [map]. apply elem_of_cons in Hin as [? | Hin]; [congruence|].
    by rewrite IH.
Qed.

Lemma same_id_same_user us (x y : User) :
  NoDup (map _id us) → x ∈ us → y ∈ us → _id x = _id y → x = y.
Proof.
  induction us as [|z us IH]; [by intros _ ?%not_elem_of_nil|].
  cbn [map]. rewrite NoDup_cons, !elem_of_cons.
  intros [Hz Hnd] [-> | Hx] [-> | Hy] Hid; try done.
  - destruct Hz. rewrite Hid. by apply list_elem_of_fmap_2.
  - destruct Hz. rewrite <- Hid. by apply list_elem_of_fmap_2.
  - by apply IH.
Qed.

(** After a write with distinct identifiers, the written document is the
    only one with its identifier. *)
Lemma upsert_only_one us u0 u' x :
  NoDup (map _id us) → u0 ∈ us → _id u' = _id u0 →
  x ∈ upsert u' us → _id x = _id u0 → x = u'.
Proof.
  intros Hnd Hin Hid Hx Hxid.
  apply (elem_of_upsert us u0 u' x Hnd Hin Hid) in Hx as [-> | [Hx Hne]];
    [done|].
  destruct Hne. by apply (same_id_same_user us).
Qed.

(** C4.  When the reset mail of an existing user cannot be sent, the handler
    answers 500 after it has written the user back with the reset token and
    its expiry cleared: looking the user up again gives a record without a
    pending token, and no mail was sent. *)
Theorem forgot_password_mail_failure_clears_token req resetToken now w user0 msg :
  find_user_by "email" (req_body req !! "email") (users w) = Some user0 →
  sendEmail E (reset_mail user0 (reset_url req resetToken)) = Some msg →
  ∃ w',
    forgotPassword E req resetToken now w = (w', Sent reset_mail_failed) ∧
    status reset_mail_failed = 500 ∧
    find_user_by "email" (req_body req !! "email") (users w')
    = Some (with_reset user0 None None) ∧
    (NoDup (map _id (users w)) →
     ∀ u, u ∈ users w' → _id u = _id user0 →
       resetPasswordToken u = None ∧ resetPasswordExpire u = None) ∧
    outbox w' = outbox w.
Proof.
  intros Hfind Hmail.
  unfold forgotPassword, handle, forgotPassword_body, bind, User_findOne,
    try_catch, send, User_save, modify, throw.
  rewrite Hfind. cbv beta iota zeta.
  change (reset_mail (with_reset user0 _ _) _)
    with (reset_mail user0 (reset_url req resetToken)).
  rewrite Hmail. cbv beta iota zeta.
  eexists. split; [reflexivity|]. split; [done|].
  cbn [users set_users outbox].
  set (pending := with_reset user0 _ _).
  set (cleared := with_reset pending None None).
  destruct (find_user_by_Some _ _ _ _ Hfind) as [Hin Hpath].
  split; [|split; [|done]].
  - apply (find_user_by_upsert _ _ _ pending); [|done..].
    by apply (find_user_by_upsert _ _ _ user0).
  - intros Hnd u Hu Hid.
    assert (u = cleared) as ->; [|done].
    apply (upsert_only_one (upsert pending (users w)) pending cleared u);
      try done.
    + rewrite upsert_ids; [done|].
      by apply (list_elem_of_fmap_2 _id) in Hin.
    + apply (elem_of_upsert (users w) user0 pending); auto.
Qed.

(** A reset request whose mail goes out leaves the hash of the mailed token
    on the user, with an expiry fifteen minutes after the request. *)
Lemma forgot_password_sets_expiry req resetToken t0 w user0 :
  find_user_by "email" (req_body req !! "email") (users w) = Some user0 →
  sendEmail E (reset_mail user0 (reset_url req resetToken)) = None →
  ∃ w',
    forgotPassword E req resetToken t0 w
    = (w', Sent (reset_mail_sent req resetToken)) ∧
    find_user_by "email" (req_body req !! "email") (users w')
    = Some (with_reset user0 (Some (sha256_hex E resetToken))
                       (Some (t0 + fifteen_minutes)%Z)).
Proof.
  intros Hfind Hmail.
  unfold forgotPassword, handle, forgotPassword_body, bind, User_findOne,
    try_catch, send, User_save, modify, throw.
  rewrite Hfind. cbv beta iota zeta.
  change (reset_mail (with_reset user0 _ _) _)
    with (reset_mail user0 (reset_url req resetToken)).
  rewrite Hmail. cbv beta iota zeta.
  eexists. split; [reflexivity|].
  cbn [users set_users add_mail].
  destruct (find_user_by_Some _ _ _ _ Hfind) as [_ Hpath].
  change (15 * 60 * 1000)%Z with fifteen_minutes.
  by apply (find_user_by_upsert _ _ _ user0).
Qed.

End AuthFacts.

Section ResetFacts.

Variable E : Env.

Lemma reset_query_live h now u :
  reset_query h now u = true ↔ live_token h now u.
Proof.
  unfold reset_query, live_token.
  rewrite andb_true_iff, bool_decide_eq_true.
  destruct (resetPasswordExpire u) as [t|].
  - rewrite Z.ltb_lt. naive_solver.
  - naive_solver.
Qed.

Lemma find_reset_Some h now us u :
  find (reset_query h now) us = Some u → u ∈ us ∧ live_token h now u.
Proof.
  intros [Hin Hq]%find_some.
  split; [by apply list_elem_of_In | by apply reset_query_live].
Qed.

Lemma find_reset_None h now us :
  find (reset_query h now) us = None ↔ ¬ ∃ u, u ∈ us ∧ live_token h now u.
Proof.
  split.
  - intros Hnone (u & Hin & Hlive).
    apply list_elem_of_In in Hin. apply reset_query_live in Hlive.
    pose proof (find_none _ _ Hnone u Hin). congruence.
  - intros Hno. destruct (find _ us) as [u|] eqn:Hfind; [|done].
    destruct Hno. exists u. by apply find_reset_Some.
Qed.

(** The two ways in which [resetPassword] ends when the store accepts the
    write. *)
Lemma resetPassword_unfold req now w :
  resetPassword E req now w
  = match find (reset_query (sha256_hex E (param_token req)) now) (users w) with
    | None => (w, Sent invalid_or_expired)
    | Some u0 =>
        match validateUser E (updated req u0) with
        | Some msg => (w, Unhandled msg)
        | None =>
            (set_users w (upsert (stored E (updated req u0)) (users w)),
             Sent (reset_response E u0))
        end
    end.
Proof.
  unfold resetPassword, handle, resetPassword_body, bind, get_world.
  destruct (find _ (users w)) as [u0|]; [|done].
  unfold User_save, throw, modify. fold (updated req u0).
  by destruct (validateUser E (updated req u0)).
Qed.

(** C3.  A reset token works at most once and only before its expiry.
    With distinct user identifiers and a store that accepts the updated
    record, [resetPassword] answers 200 exactly when some user's stored hash
    is the hash of the presented token and that user's expiry is in the
    future; otherwise it answers 400 "Invalid or expired token." and changes
    nothing.  A success clears the token and the expiry of the user, so that
    a second use of the token, when no other user holds its hash, answers
    400; and once every stored expiry has passed, every token answers 400.
    [forgotPassword] sets the expiry fifteen minutes after the request,
    and such an expiry has passed from [t0 + fifteen_minutes] on. *)
Theorem reset_token_works_once_before_expiry req now w :
  NoDup (map _id (users w)) →
  (∀ u, u ∈ users w → validateUser E (updated req u) = None) →
  let h := sha256_hex E (param_token req) in
  ((∃ w' r, resetPassword E req now w = (w', Sent r) ∧ status r = 200)
   ↔ ∃ u, u ∈ users w ∧ live_token h now u) ∧
  ((¬ ∃ u, u ∈ users w ∧ live_token h now u) →
   resetPassword E req now w = (w, Sent invalid_or_expired)) ∧
  (∀ w' r,
     resetPassword E req now w = (w', Sent r) → status r = 200 →
     ∃ u0, u0 ∈ users w ∧ live_token h now u0 ∧
       (∃ u, u ∈ users w' ∧ _id u = _id u0) ∧
       (∀ u, u ∈ users w' → _id u = _id u0 →
          resetPasswordToken u = None ∧ resetPasswordExpire u = None) ∧
       ((∀ u, u ∈ users w → resetPasswordToken u = Some h → u = u0) →
        ∀ req' now', param_token req' = param_token req →
          resetPassword E req' now' w' = (w', Sent invalid_or_expired))) ∧
  ((∀ u t, u ∈ users w → resetPasswordExpire u = Some t → (t ≤ now)%Z) →
   resetPassword E req now w = (w, Sent invalid_or_expired)) ∧
  (∀ u t0,
     resetPasswordExpire u = Some (t0 + fifteen_minutes)%Z →
     (live_token h now u → (now < t0 + fifteen_minutes)%Z) ∧
     ((t0 + fifteen_minutes ≤ now)%Z → ¬ live_token h now u)) ∧
  (∀ req0 resetToken t0 w0 user0,
     find_user_by "email" (req_body req0 !! "email") (users w0) = Some user0 →
     sendEmail E (reset_mail user0 (reset_url req0 resetToken)) = None →
     ∃ w1,
       forgotPassword E req0 resetToken t0 w0
       = (w1, Sent (reset_mail_sent req0 resetToken)) ∧
       find_user_by "email" (req_body req0 !! "email") (users w1)
       = Some (with_reset user0 (Some (sha256_hex E resetToken))
                          (Some (t0 + fifteen_minutes)%Z))) ∧
  status invalid_or_expired = 400.
Proof.
  intros Hnd Hvalid h.
  assert (∀ w' r, resetPassword E req now w = (w', Sent r) → status r = 200 →
          ∃ u0, find (reset_query h now) (users w) = Some u0 ∧
                w' = set_users w (upsert (stored E (updated req u0)) (users w)))
    as Hsuccess.
  { intros w' r Hrun Hst. rewrite resetPassword_unfold in Hrun. fold h in Hrun.
    destruct (find _ (users w)) as [u0|] eqn:Hfind.
    - destruct (find_reset_Some _ _ _ _ Hfind) as [Hin _].
      rewrite (Hvalid u0 Hin) in Hrun. injection Hrun as <- <-. eauto.
    - injection Hrun as <- <-. discriminate Hst. }
  split; [|split; [|split; [|split; [|split; [|split]]]]].
  - split.
    + intros (w' & r & Hrun & Hst).
      destruct (Hsuccess w' r Hrun Hst) as (u0 & Hfind & _).
      exists u0. by apply find_reset_Some.
    + intros Hlive. rewrite resetPassword_unfold. fold h.
      destruct (find _ (users w)) as [u0|] eqn:Hfind.
      * destruct (find_reset_Some _ _ _ _ Hfind) as [Hin _].
        rewrite (Hvalid u0 Hin). by eexists _, _.
      * by apply find_reset_None in Hfind.
  - intros Hno. rewrite resetPassword_unfold. fold h.
    apply find_reset_None in Hno. by rewrite Hno.
  - intros w' r Hrun Hst.
    destruct (Hsuccess w' r Hrun Hst) as (u0 & Hfind & ->).
    destruct (find_reset_Some _ _ _ _ Hfind) as [Hin Hlive].
    exists u0. split; [done|]. split; [done|].
    cbn [users set_users].
    set (u1 := stored E (updated req u0)).
    assert (∀ u, u ∈ upsert u1 (users w) ↔ u = u1 ∨ (u ∈ users w ∧ u ≠ u0))
      as Hmem by (intros u; by apply elem_of_upsert).
    split; [|split].
    + exists u1. split; [|done]. apply Hmem. by left.
    + intros u Hu Hid.
      assert (u = u1) as ->; [|done].
      by apply (upsert_only_one (users w) u0 u1 u).
    + intros Hunique req' now' Htok.
      rewrite resetPassword_unfold. cbn [users set_users].
      rewrite Htok. fold h.
      assert (find (reset_query h now') (upsert u1 (users w)) = None) as ->;
        [|done].
      apply find_reset_None. intros (u & Hu & Htoken & _).
      apply Hmem in Hu as [-> | [Hu Hne]]; [done|].
      destruct Hne. by apply Hunique.
  - intros Hexpired. rewrite resetPassword_unfold. fold h.
    assert (find (reset_query h now) (users w) = None) as ->; [|done].
    apply find_reset_None. intros (u & Hu & _ & t & Ht & Hlt).
    specialize (Hexpired u t Hu Ht). lia.
  - intros u t0 Hexp. split.
    + intros (_ & t & Ht & Hlt). congruence.
    + intros Hle (_ & t & Ht & Hlt). simplify_eq. lia.
  - apply forgot_password_sets_expiry.
  - done.
Qed.


End ResetFacts.

(** ** NOC applications *)

Section NOCFacts.

Variable E : Env.

#[local] Instance newer_first_total : Total newer_first.
Proof. intros a b. unfold newer_first. lia. Qed.

#[local] Instance newer_first_trans : Transitive newer_first.
Proof. intros a b c. unfold newer_first. lia. Qed.

(** C8.  For an authenticated user the listing answers 200 with exactly the
    applications whose owner reference is the user's identifier, each as
    often as it is stored, ordered from the newest to the oldest; an
    application with another owner is never in it. *)
Theorem noc_listing_is_the_users_own_newest_first req w user :
  req_user req = Some user →
  let apps := NOC_find_sorted (_id user) (nocs w) in
  getNOC req w = (w, Sent (listing_response apps)) ∧
  (∀ n, n ∈ apps ↔ n ∈ nocs w ∧ owner n = Some (VId (_id user))) ∧
  apps ≡ₚ filter (fun n => owner n = Some (VId (_id user))) (nocs w) ∧
  StronglySorted newer_first apps ∧
  (∀ n other, n ∈ apps → owner n = Some (VId other) → other = _id user).
Proof.
  intros Huser apps.
  assert (apps ≡ₚ filter (fun n => owner n = Some (VId (_id user))) (nocs w))
    as Hperm by apply merge_sort_Permutation.
  assert (∀ n, n ∈ apps ↔ n ∈ nocs w ∧ owner n = Some (VId (_id user)))
    as Hmem.
  { intros n. rewrite Hperm, list_elem_of_filter. tauto. }
  split; [|split; [done|split; [done|split]]].
  - unfold getNOC, handle, try_catch, getNOC_try, bind, current_user,
      get_world.
    by rewrite Huser.
  - by apply StronglySorted_merge_sort; apply _.
  - intros n other [_ Hown]%Hmem Hother. congruence.
Qed.

(** [applyNOC] never reads the name of an attached file. *)
Lemma file_of_rename g field files :
  file_of field (rename_files g files)
  = (fun f => mkFile (g field (originalname f)) (buffer f))
      <$> file_of field files.
Proof.
  induction files as [|[k f] rest IH]; [done|].
  cbn [rename_files map fst snd file_of] in *.
  destruct (String.eqb_spec k field) as [-> | _]; [done|]. apply IH.
Qed.

Lemma require_files_rename g required files :
  require_files required (rename_files g files) = require_files required files.
Proof.
  induction required as [|field rest IH]; [done|].
  cbn [require_files]. rewrite file_of_rename, IH.
  by destruct (file_of field files).
Qed.

Lemma noc_files_rename g safeName now files saved w :
  noc_files E safeName now (rename_files g files) saved w
  = noc_files E safeName now files saved w.
Proof.
  revert now saved w.
  induction files as [|[k f] rest IH]; intros now saved w; [done|].
  cbn [rename_files map fst snd noc_files buffer]. unfold bind.
  destruct (upload E _ _ _ w) as [w1 [url | r | msg]]; [|done..].
  destruct (mkdirSync _ w1) as [w2 [[] | r | msg]]; [|done..].
  destruct (writeFileSync _ _ _ w2) as [w3 [[] | r | msg]]; [|done..].
  apply IH.
Qed.

Lemma applyNOC_ignores_file_names g req now w :
  applyNOC E (with_files req (rename_files g (fileBufferMap req))) now w
  = applyNOC E req now w.
Proof.
  unfold applyNOC, handle, try_catch, applyNOC_try, bind.
  cbn [with_files cleanedFormData fileBufferMap req_user current_user].
  destruct (current_user req "_id" w) as [w0 [user | r | msg]] eqn:Hu.
  - assert (current_user (with_files req (rename_files g (fileBufferMap req)))
              "_id" w = (w0, Next user)) as -> by exact Hu.
    rewrite require_files_rename.
    destruct (require_files _ _ w0) as [w1 [[] | r | msg]]; [|done..].
    destruct (when_ _ _ w1) as [w2 [[] | r | msg]]; [|done..].
    rewrite noc_files_rename. unfold rename_files. by rewrite length_map.
  - by assert (current_user (with_files req (rename_files g (fileBufferMap req)))
              "_id" w = (w0, Respond r)) as -> by exact Hu.
  - by assert (current_user (with_files req (rename_files g (fileBufferMap req)))
              "_id" w = (w0, Throw msg)) as -> by exact Hu.
Qed.

End NOCFacts.

(** ** Distinct identifiers are an invariant of the handlers *)

Section DistinctIds.

Variable E : Env.

Lemma upsert_distinct u us :
  NoDup (map _id us) → NoDup (map _id (upsert u us)).
Proof.
  intros Hnd. destruct (decide (_id u ∈ map _id us)) as [Hin | Hout].
  - by rewrite upsert_ids.
  - rewrite upsert_fresh, map_app by done. cbn [map].
    apply NoDup_app. split; [done|]. split; [|apply NoDup_singleton].
    intros x Hx ->%list_elem_of_singleton. done.
Qed.

Lemma registerUser_distinct req now w w' out :
  registerUser E req now w = (w', out) →
  NoDup (map _id (users w)) → NoDup (map _id (users w')).
Proof.
  rewrite registerUser_unfold. intros Hrun Hnd.
  destruct (registerUser_persist E req now w) as [w1 [user | r | msg]] eqn:Hp;
    apply persist_inv in Hp.
  - destruct Hp as (Hu & _ & Hfresh & _).
    assert (NoDup (map _id (users w1))) as Hnd1.
    { rewrite Hu, map_app. cbn [map].
      apply NoDup_app. split; [done|]. split; [|apply NoDup_singleton].
      intros x Hx ->%list_elem_of_singleton. done. }
    by destruct (sendEmail E _); injection Hrun as <- _.
  - destruct Hp as (Hu & _). injection Hrun as <- _. by rewrite Hu.
  - destruct Hp as (Hu & _). injection Hrun as <- _. by rewrite Hu.
Qed.

Lemma forgotPassword_distinct req resetToken now w w' out :
  forgotPassword E req resetToken now w = (w', out) →
  NoDup (map _id (users w)) → NoDup (map _id (users w')).
Proof.
  unfold forgotPassword, handle, forgotPassword_body, bind, User_findOne,
    try_catch, send, User_save, modify, throw.
  intros Hrun Hnd.
  destruct (find_user_by _ _ _) as [user0|]; cbv beta iota zeta in Hrun.
  - destruct (sendEmail E _); cbv beta iota zeta in Hrun;
      injection Hrun as <- _; cbn [users set_users add_mail];
      by repeat apply upsert_distinct.
  - by injection Hrun as <- _.
Qed.

Lemma resetPassword_distinct req now w w' out :
  resetPassword E req now w = (w', out) →
  NoDup (map _id (users w)) → NoDup (map _id (users w')).
Proof.
  rewrite resetPassword_unfold. intros Hrun Hnd.
  destruct (find _ _) as [user0|]; [|by injection Hrun as <- _].
  destruct (validateUser E _); injection Hrun as <- _; [done|].
  by apply upsert_distinct.
Qed.

End DistinctIds.

(** ** A registration that goes through *)

Section HappyPath.

Variable E : Env.

Hypothesis uploads_succeed :
  ∀ buf filename folder,
    ∃ url, uploadBufferToCloudinary E buf filename folder = inl url.

Lemma register_files_succeed safeName dir now entries data w :
  (∀ k f, (k, f) ∈ entries → is_pdf_name (originalname f)) →
  ∃ w' data',
    register_files E safeName dir now entries data w = (w', Next data').
Proof.
  revert now data w.
  induction entries as [|[k f] rest IH]; intros now data w Hpdf.
  - by eexists _, _.
  - cbn [register_files].
    assert (is_pdf_name (originalname f)) as Hf by (eapply Hpdf; by left).
    unfold is_pdf_name in Hf. rewrite Hf. cbn [String.eqb negb].
    change (String.eqb ".pdf" ".pdf") with true. cbn [negb].
    unfold bind, writeFileSync, modify, upload. cbv beta iota zeta.
    destruct (uploads_succeed (buffer f)
                (pretty (now 0) ++ "-" ++ k ++ ".pdf") safeName) as [url ->].
    cbv beta iota zeta. apply IH. intros k' f' Hin. eapply Hpdf. by right.
Qed.

(** When steps 1 to 6 pass, the password is long enough, every attachment
    is a PDF, the uploads succeed and the store accepts the record, the
    registration is answered 201 when the welcome mail goes out. *)
Lemma registerUser_succeeds req now w p :
  passes_steps_1_6 req w →
  cleanedFormData req !! "password" = Some p →
  (8 ≤ String.length p)%nat →
  (∀ k f, (k, f) ∈ fileBufferMap req → is_pdf_name (originalname f)) →
  (∀ u, validateUser E u = None) →
  (∀ m, sendEmail E m = None) →
  ∃ w' user,
    registerUser E req now w = (w', Sent (created_response E user)) ∧
    stored E user ∈ users w' ∧ _id user ∉ map _id (users w).
Proof.
  intros Hsteps Hpw Hlen Hpdf Hvalid Hmail.
  assert (∃ w1 user, registerUser_persist E req now w = (w1, Next user))
    as (w1 & user & Hp).
  { run_steps_1_6 Hsteps.
    rewrite Hpw. unfold length_of, ret. cbv beta iota zeta.
    apply Nat.ltb_ge in Hlen. rewrite Hlen. cbv beta iota zeta.
    unfold mkdirSync, modify. cbv beta iota zeta.
    match goal with
    | |- context [register_files E ?s ?d ?n ?es ?dt ?w0] =>
        destruct (register_files_succeed s d n es dt w0 Hpdf)
          as (w4 & data' & ->)
    end.
    cbv beta iota zeta. unfold User_save. rewrite Hvalid.
    unfold modify. cbv beta iota zeta. by eexists _, _. }
  exists (add_mail (welcome_mail user) w1), user.
  rewrite registerUser_unfold, Hp, Hmail. split; [done|].
  apply persist_inv in Hp as (Hu & _ & Hfresh & _).
  cbn [users add_mail]. rewrite Hu. split; [set_solver|done].
Qed.

End HappyPath.

(** ** The handlers on concrete requests *)

Section Runs.

Import Sample.

(** C5.  The folder name of a registration is the joined name parts without
    every character that is not a letter, a digit or an underscore; the
    replacement of spaces by underscores comes after that removal and never
    finds a space.  A first name with a space loses the space, while the
    NOC controller, which replaces white space first, turns it into an
    underscore. *)
Theorem register_folder_name_drops_spaces :
  register_safeName (Some "Mary Ann") None (Some "Smith") = "MaryAnn_Smith" ∧
  noc_safeName (Some "Mary Ann") None (Some "Smith") = "Mary_Ann_Smith" ∧
  ∀ f_name m_name l_name,
    register_safeName f_name m_name l_name
    = strip (JS.join "_" (JS.filter_Boolean [f_name; m_name; l_name])).
Proof.
  split; [reflexivity|]. split; [reflexivity|].
  intros f_name m_name l_name. apply collapse_after_strip.
Qed.

(** C2.  [applyNOC] has no check of the extension: a submission whose two
    attachments are named [certificate.png] and [aadhaar.exe] is answered
    201 and its application is stored, whereas [registerUser] answers 400 to
    an attachment named [degree.png] and stores no user.  The names of the
    attached files have no influence on [applyNOC] at all. *)
Theorem noc_accepts_files_that_are_not_pdf :
  (∀ k f, (k, f) ∈ fileBufferMap noc_request →
          ¬ is_pdf_name (originalname f)) ∧
  (∃ w' r, applyNOC env_ok noc_request noon world0 = (w', Sent r) ∧
           status r = 201 ∧ nocs world0 = [] ∧ length (nocs w') = 1) ∧
  (∃ w' r, registerUser env_ok ravi_png_request noon world0
           = (w', Sent r) ∧
           status r = 400 ∧ users w' = users world0) ∧
  (∀ E g req now w,
     applyNOC E (with_files req (rename_files g (fileBufferMap req))) now w
     = applyNOC E req now w).
Proof.
  split; [|split; [|split]]; [| | |apply applyNOC_ignores_file_names].
  - intros k f Hin.
    repeat (apply elem_of_cons in Hin as [[= -> ->] | Hin]);
      [by vm_compute..|].
    by apply not_elem_of_nil in Hin.
  - eexists _, _. split; [vm_compute; reflexivity|]. by vm_compute.
  - eexists _, _. split; [vm_compute; reflexivity|]. by vm_compute.
Qed.

(** C1 (as stated) fails.  The registration [ravi_request] passes all
    validation and its user is saved; the welcome mail fails; and the answer
    is not 201. *)
Lemma welcome_mail_failure_is_fatal :
  ∃ w1 user msg,
    registerUser_persist env_mail_down ravi_request noon world0
    = (w1, Next user) ∧
    sendEmail env_mail_down (welcome_mail user) = Some msg ∧
    ¬ ∃ w' r,
        registerUser env_mail_down ravi_request noon world0
        = (w', Sent r) ∧ status r = 201.
Proof.
  destruct (registerUser_persist env_mail_down ravi_request noon world0)
    as [w1 [user | r | msg]] eqn:Hrun;
    [|by vm_compute in Hrun..].
  exists w1, user, "connect ECONNREFUSED 127.0.0.1:587".
  split; [done|]. split; [done|].
  intros (w' & r & Hresp & Hst).
  rewrite registerUser_unfold, Hrun in Hresp. cbn in Hresp.
  injection Hresp as _ <-. discriminate Hst.
Qed.


End Runs.

(** ** The theorems at concrete inputs *)

Section Witnesses.

Import Sample.

Lemma welcome_mail_failure_answers_500_witness :
  ∃ w1 user,
    registerUser_persist env_mail_down ravi_request noon world0
    = (w1, Next user) ∧
    stored env_mail_down user ∈ users w1 ∧
    (stored env_mail_down user ∉ users world0) ∧
    match sendEmail env_mail_down (welcome_mail user) with
    | Some msg =>
        registerUser env_mail_down ravi_request noon world0
        = (w1, Sent (failure_response msg))
    | None =>
        registerUser env_mail_down ravi_request noon world0
        = (add_mail (welcome_mail user) w1,
           Sent (created_response env_mail_down user))
    end.
Proof.
  eexists _, _. split; [vm_compute; reflexivity|].
  apply (welcome_mail_failure_answers_500 env_mail_down ravi_request
           noon world0).
  vm_compute. reflexivity.
Defined.

Lemma register_without_password_answers_500_witness :
  registerUser env_ok ravi_without_password noon world0
  = (world0,
     Sent (failure_response
             "Cannot read properties of undefined (reading 'length')")).
Proof.
  apply (register_without_password_answers_500 env_ok ravi_without_password
           noon world0).
  - apply passes_steps_1_6_reflect. vm_compute. reflexivity.
  - vm_compute. reflexivity.
Defined.

Lemma qualification_year_accepted_iff_MM_YYYY_witness :
  registerUser env_ok ravi_bad_year noon world0
  = (world0,
     Sent (error_response 400
             ("bds_qualification_year" ++ " must be in MM/YYYY format")))
  ↔ ¬ is_MM_YYYY "13/2020".
Proof.
  apply (qualification_year_accepted_iff_MM_YYYY env_ok ravi_bad_year
           noon world0 "bds_qualification_year" "13/2020").
  - apply missing_personal_info_false. vm_compute. reflexivity.
  - left. reflexivity.
  - vm_compute. reflexivity.
  - discriminate.
Defined.

Lemma failed_logins_get_the_same_response_witness :
  loginUser env_ok
    (with_body [("email", "nobody@example.org"); ("password", "guess")] "")
    world0
  = (world0, Sent invalid_credentials) ∧
  loginUser env_ok
    (with_body [("email", "asha@example.org"); ("password", "guess")] "")
    world0
  = (world0, Sent invalid_credentials) ∧
  status invalid_credentials = 400.
Proof.
  apply (failed_logins_get_the_same_response env_ok _ _ world0 asha
           "bcrypt:correct horse" "guess").
  - apply truthy_provided. vm_compute. reflexivity.
  - apply truthy_provided. vm_compute. reflexivity.
  - apply truthy_provided. vm_compute. reflexivity.
  - vm_compute. reflexivity.
  - discriminate.
  - vm_compute. reflexivity.
  - vm_compute. reflexivity.
  - vm_compute. reflexivity.
  - vm_compute. reflexivity.
Defined.

Lemma forgot_password_mail_failure_clears_token_witness :
  ∃ w',
    forgotPassword env_mail_down
      (with_body [("email", "asha@example.org")] "") "tok" 1000 world0
    = (w', Sent reset_mail_failed) ∧
    status reset_mail_failed = 500 ∧
    find_user_by "email" (Some "asha@example.org") (users w')
    = Some (with_reset asha None None) ∧
    (NoDup (map _id (users world0)) →
     ∀ u, u ∈ users w' → _id u = _id asha →
       resetPasswordToken u = None ∧ resetPasswordExpire u = None) ∧
    outbox w' = outbox world0.
Proof.
  apply (forgot_password_mail_failure_clears_token env_mail_down
           (with_body [("email", "asha@example.org")] "") "tok" 1000 world0
           asha "connect ECONNREFUSED 127.0.0.1:587").
  - vm_compute. reflexivity.
  - vm_compute. reflexivity.
Defined.

Lemma reset_token_works_once_before_expiry_witness :
  (∃ w' r,
     resetPassword env_ok (with_body [("password", "new password")] "tok")
       5000 world_pending = (w', Sent r) ∧ status r = 200)
  ↔ ∃ u, u ∈ users world_pending ∧ live_token "sha256:tok" 5000 u.
Proof.
  apply (reset_token_works_once_before_expiry env_ok
           (with_body [("password", "new password")] "tok") 5000
           world_pending).
  - vm_compute. apply NoDup_singleton.
  - intros u _. reflexivity.
Defined.


Lemma noc_listing_is_the_users_own_newest_first_witness :
  getNOC (as_user asha [] []) world_nocs
  = (world_nocs,
     Sent (listing_response
             [noc_of 3 1 300; noc_of 4 1 250; noc_of 1 1 100])).
Proof.
  apply (noc_listing_is_the_users_own_newest_first (as_user asha [] [])
           world_nocs asha).
  reflexivity.
Defined.

End Witnesses.

(** * Further properties of the handlers *)

(** ** The upload loop of the registration *)

Section RegisterUploads.

Variable E : Env.

Lemma all_accepted_cons folder now kf rest :
  all_accepted E folder now (kf :: rest)
  ↔ upload_ok E folder (now 0) kf ∧ all_accepted E folder (later now) rest.
Proof.
  unfold all_accepted. split.
  - intros H. split; [by apply (H 0 kf) | intros i x Hi; by apply (H (S i) x)].
  - intros [H0 H] [|i] x Hi; [by injection Hi as <- | by apply H].
Qed.

Lemma local_copies_cons dir now kf rest :
  local_copies dir now (kf :: rest)
  = local_copy dir (now 0) kf :: local_copies dir (later now) rest.
Proof. reflexivity. Qed.

Lemma remote_copies_cons folder now kf rest :
  remote_copies folder now (kf :: rest)
  = remote_copy folder (now 0) kf :: remote_copies folder (later now) rest.
Proof. reflexivity. Qed.

(** A completed loop has written and uploaded every file, each under the
    clock reading of its turn, and has left the form fields that no file is
    named after as they were. *)
Lemma register_files_Next_inv safeName dir now entries data w w' d :
  register_files E safeName dir now entries data w = (w', Next d) →
  all_accepted E safeName now entries ∧
  (disk w' = disk w ++ local_copies dir now entries)%list ∧
  (cloud w' = cloud w ++ remote_copies safeName now entries)%list ∧
  folders w' = folders w ∧ outbox w' = outbox w ∧
  (∀ k, k ∉ file_keys entries → d !! k = data !! k).
Proof.
  revert now data w.
  induction entries as [|[k f] rest IH]; intros now data w H.
  - cbn in H. injection H as <- <-. rewrite !app_nil_r.
    repeat split; done.
  - cbn [register_files] in H.
    destruct (negb _); [discriminate H|].
    unfold bind, writeFileSync, modify, upload in H.
    cbv beta iota zeta in H.
    destruct (uploadBufferToCloudinary E _ _ _) as [url | msg] eqn:Hup;
      [|discriminate H].
    cbv beta iota zeta in H.
    apply IH in H as (Hok & Hdisk & Hcloud & Hfold & Hout & Hother).
    cbn [disk cloud folders outbox add_file add_upload] in *.
    rewrite local_copies_cons, remote_copies_cons.
    split; [apply all_accepted_cons; split; [by exists url | done]|].
    split; [by rewrite Hdisk, <- app_assoc|].
    split; [by rewrite Hcloud, <- app_assoc|].
    split; [done|]. split; [done|].
    intros k' Hk'. cbn [file_keys map fst] in Hk'.
    apply not_elem_of_cons in Hk' as [Hne Hk'].
    by rewrite (Hother k' Hk'), lookup_insert_ne.
Qed.

(** The loop on files that are PDFs and that the uploader accepts goes on
    with the rest of the files, on the clock after their turns. *)
Lemma register_files_prefix safeName dir now pre rest data w :
  Forall (fun kf => is_pdf_name (originalname (snd kf))) pre →
  all_accepted E safeName now pre →
  ∃ w1 data1,
    register_files E safeName dir now (pre ++ rest) data w
    = register_files E safeName dir (after (length pre) now) rest data1 w1 ∧
    users w1 = users w ∧ nocs w1 = nocs w ∧ folders w1 = folders w ∧
    outbox w1 = outbox w ∧
    (disk w1 = disk w ++ local_copies dir now pre)%list ∧
    (cloud w1 = cloud w ++ remote_copies safeName now pre)%list.
Proof.
  revert now data w.
  induction pre as [|[k f] pre IH]; intros now data w Hpdf Hup.
  - exists w, data. rewrite !app_nil_r. by repeat split.
  - apply Forall_cons in Hpdf as [Hf Hpdf].
    apply all_accepted_cons in Hup as [Hu Hup].
    cbn [app register_files]. cbn [snd] in Hf. unfold is_pdf_name in Hf.
    rewrite Hf. change (String.eqb ".pdf" ".pdf") with true. cbn [negb].
    destruct Hu as [url Hurl]. unfold uploads_to, stored_name in Hurl.
    cbn [fst snd] in Hurl.
    unfold bind, writeFileSync, modify, upload. cbv beta iota zeta.
    rewrite Hurl. cbv beta iota zeta.
    match goal with
    | |- context [register_files E safeName dir (later now) (pre ++ rest)
                    ?dt ?w0] =>
        destruct (IH (later now) dt w0 Hpdf Hup)
          as (w1 & data1 & Hrun & Husers & Hnocs & Hfold & Hout & Hdisk
              & Hcloud)
    end.
    exists w1, data1. cbn [users nocs folders outbox disk cloud add_file
                           add_upload] in *.
    rewrite local_copies_cons, remote_copies_cons.
    repeat split; try done.
    + by rewrite Hdisk, <- app_assoc.
    + by rewrite Hcloud, <- app_assoc.
Qed.

Lemma local_copies_snoc dir now pre kf :
  local_copies dir now (pre ++ [kf])
  = (local_copies dir now pre ++ [local_copy dir (now (length pre)) kf])%list.
Proof.
  unfold local_copies. rewrite imap_app. cbn [imap].
  by rewrite Nat.add_0_r.
Qed.

End RegisterUploads.

(** ** What a registration stores *)

Section RegisterStores.

Variable E : Env.

Ltac next_guard H :=
  match type of H with
  | context [if ?b then _ else _] =>
      let Hb := fresh "Hguard" in
      destruct b eqn:Hb; cbv beta iota zeta in H; [discriminate H|]
  end.

(** A registration that reaches the save has passed every check, and the
    saved document is the form as the upload loop left it. *)
Lemma persist_Next_inv req now w w1 user :
  registerUser_persist E req now w = (w1, Next user) →
  passes_steps_1_6 req w ∧
  (∃ p, cleanedFormData req !! "password" = Some p
        ∧ (8 ≤ String.length p)%nat) ∧
  ∃ w4 data',
    register_files E (folder_name_of req) (local_folder_of E req) now
      (fileBufferMap req) (cleanedFormData req)
      (add_folder (local_folder_of E req) w) = (w4, Next data') ∧
    user = mkUser (fresh_id (map _id (users w))) data' None None ∧
    validateUser E user = None ∧
    w1 = set_users w4 (users w ++ [stored E user]).
Proof.
  intros H.
  unfold registerUser_persist, bind, when_, get_world, User_findOne, ret,
    respond in H.
  cbv beta iota zeta in H.
  do 7 next_guard H.
  destruct (cleanedFormData req !! "password") as [p|] eqn:Hpw;
    [|discriminate H].
  cbn [length_of] in H. unfold ret in H. cbv beta iota zeta in H.
  next_guard H.
  unfold mkdirSync, modify in H. cbv beta iota zeta in H.
  fold (folder_name_of req) in H. fold (local_folder_of E req) in H.
  destruct (register_files E _ _ _ _ _ _) as [w4 s4] eqn:Hfiles.
  destruct s4 as [data' | r | msg]; cbv beta iota zeta in H;
    [|discriminate H..].
  pose proof (register_files_inv E _ _ _ _ _ _ _ _ Hfiles) as (Hu4 & _).
  cbn [users add_folder] in Hu4.
  unfold User_save, throw, modify in H.
  destruct (validateUser E _) as [msg|] eqn:Hval; cbv beta iota zeta in H;
    [discriminate H|].
  injection H as <- <-. rewrite Hu4 in *.
  split; [|split].
  - split.
    + by apply missing_personal_info_false.
    + by apply bad_year_false.
    + by apply bad_year_false.
    + apply negb_false_iff in Hguard2. by apply bool_decide_eq_true in Hguard2.
    + apply negb_false_iff in Hguard3. by apply bool_decide_eq_true in Hguard3.
    + apply bool_decide_eq_false in Hguard4. by apply eq_None_not_Some.
    + apply bool_decide_eq_false in Hguard5. by apply eq_None_not_Some.
  - exists p. split; [done|]. by apply Nat.ltb_ge.
  - exists w4, data'. repeat split; try done.
    rewrite upsert_fresh; [done|]. apply fresh_id_fresh.
Qed.

(** The part of the registration up to the save sends no mail. *)
Lemma register_files_outbox safeName dir now entries data w w' s :
  register_files E safeName dir now entries data w = (w', s) →
  outbox w' = outbox w.
Proof.
  revert now data w.
  induction entries as [|[k f] rest IH]; intros now data w H.
  - cbn in H. by injection H as <- <-.
  - cbn [register_files] in H. destruct (negb _).
    + by injection H as <- <-.
    + unfold bind, writeFileSync, modify, upload in H.
      cbv beta iota zeta in H.
      destruct (uploadBufferToCloudinary E _ _ _) as [url | msg].
      * cbv beta iota zeta in H. by apply IH in H.
      * by injection H as <- <-.
Qed.

Ltac exit_guard H :=
  match type of H with
  | context [if ?b then _ else _] =>
      destruct b; cbv beta iota zeta in H; [by injection H as <- <-|]
  end.

Lemma persist_outbox req now w w' s :
  registerUser_persist E req now w = (w', s) → outbox w' = outbox w.
Proof.
  intros H.
  unfold registerUser_persist, bind, when_, get_world, User_findOne, ret,
    respond in H.
  cbv beta iota zeta in H.
  do 7 exit_guard H.
  destruct (cleanedFormData req !! "password") as [p|];
    [|by injection H as <- <-].
  cbn [length_of] in H. unfold ret in H. cbv beta iota zeta in H.
  exit_guard H.
  unfold mkdirSync, modify in H. cbv beta iota zeta in H.
  destruct (register_files E _ _ _ _ _ _) as [w4 s4] eqn:Hfiles.
  apply register_files_outbox in Hfiles. cbn [outbox add_folder] in Hfiles.
  destruct s4 as [data' | r | msg]; cbv beta iota zeta in H;
    [|by injection H as <- <-..].
  unfold User_save, throw, modify in H.
  destruct (validateUser E _); cbv beta iota zeta in H;
    by injection H as <- <-.
Qed.

(** X1.  A registration is always answered, and never touches the NOC
    applications.  A 201 comes with one user added at the end of the store
    and with the welcome mail in the out-box; a 400 or a 409 is one of the
    rejections of the handler and leaves the users and the out-box as they
    were; everything else is a 500 with the message of the failure, after
    which the store holds the users it held, or these and the new one. *)
Theorem registration_always_answers req now w :
  ∃ w' r,
    registerUser E req now w = (w', Sent r) ∧ nocs w' = nocs w ∧
    ((status r = 201 ∧
      ∃ user, r = created_response E user
        ∧ users w' = (users w ++ [stored E user])%list
        ∧ outbox w' = (outbox w ++ [welcome_mail user])%list)
     ∨ ((status r = 400 ∨ status r = 409) ∧ rejection req w r
        ∧ users w' = users w ∧ outbox w' = outbox w)
     ∨ (status r = 500 ∧ (∃ msg, r = failure_response msg)
        ∧ (users w' = users w
           ∨ ∃ user, users w' = (users w ++ [stored E user])%list))).
Proof.
  rewrite registerUser_unfold.
  destruct (registerUser_persist E req now w) as [w1 [user | r | msg]] eqn:Hp;
    pose proof (persist_outbox _ _ _ _ _ Hp) as Hout;
    apply persist_inv in Hp.
  - destruct Hp as (Hu & Hn & _).
    destruct (sendEmail E (welcome_mail user)) as [msg|].
    + eexists _, _. split; [done|]. split; [done|]. right. right.
      split; [done|]. split; [by exists msg|]. right. by exists user.
    + eexists _, _. split; [done|]. split; [done|]. left.
      split; [done|]. exists user. cbn [users outbox add_mail].
      by rewrite Hu, Hout.
  - destruct Hp as (Hu & Hn & Hrej). exists w1, r.
    split; [done|]. split; [done|]. right. left.
    split; [destruct Hrej; cbn; auto | done].
  - destruct Hp as (Hu & Hn). eexists _, _. split; [done|]. split; [done|].
    right. right. split; [done|]. split; [by exists msg | by left].
Qed.

(** X2.  A registration that lacks one of the required personal-information
    fields is answered 400 at once: nothing is looked up, written or sent. *)
Theorem registration_needs_personal_information req now w k :
  k ∈ required_fields →
  ¬ provided (cleanedFormData req) k →
  registerUser E req now w
  = (w, Sent (error_response 400
                "Missing required personal information fields.")).
Proof.
  intros Hk Hno.
  assert (missing_personal_info (cleanedFormData req) = true) as Hmiss.
  { destruct (missing_personal_info _) eqn:Hm; [done|].
    destruct Hno. by apply (proj1 (missing_personal_info_false _) Hm). }
  rewrite registerUser_unfold.
  unfold registerUser_persist, bind, when_, respond.
  by rewrite Hmiss.
Qed.

(** X3.  When the personal information, the qualification years, the
    category and the nationality are in order, an email that a user already
    has is answered 409 "Email already exists"; a free email with a mobile
    number that a user already has is answered 409 "Mobile number already
    exists".  Neither changes anything. *)
Theorem registration_rejects_duplicates req now w :
  (∀ k, k ∈ required_fields → provided (cleanedFormData req) k) →
  year_ok (cleanedFormData req !! "bds_qualification_year") →
  year_ok (cleanedFormData req !! "mds_qualification_year") →
  is_Some (findById (regcategories w)
                    (cleanedFormData req !! "regcategory_id")) →
  is_Some (findById (nationalities w)
                    (cleanedFormData req !! "nationality_id")) →
  (is_Some (find_user_by "email" (cleanedFormData req !! "email") (users w)) →
   registerUser E req now w
   = (w, Sent (error_response 409 "Email already exists"))) ∧
  (find_user_by "email" (cleanedFormData req !! "email") (users w) = None →
   is_Some (find_user_by "mobile_number"
              (cleanedFormData req !! "mobile_number") (users w)) →
   registerUser E req now w
   = (w, Sent (error_response 409 "Mobile number already exists"))).
Proof.
  intros H1 H2 H3 H4 H5.
  apply missing_personal_info_false in H1.
  apply bad_year_false in H2. apply bad_year_false in H3.
  apply (bool_decide_eq_true_2 _) in H4.
  apply (bool_decide_eq_true_2 _) in H5.
  split.
  - intros He. apply (bool_decide_eq_true_2 _) in He.
    rewrite registerUser_unfold.
    unfold registerUser_persist, bind, when_, get_world, User_findOne, ret,
      respond.
    rewrite H1, H2, H3. cbv beta iota zeta.
    rewrite H4, H5. cbn [negb]. cbv beta iota zeta.
    by rewrite He.
  - intros He Hm. apply (bool_decide_eq_true_2 _) in Hm.
    rewrite registerUser_unfold.
    unfold registerUser_persist, bind, when_, get_world, User_findOne, ret,
      respond.
    rewrite H1, H2, H3. cbv beta iota zeta.
    rewrite H4, H5. cbn [negb]. cbv beta iota zeta.
    rewrite He.
    rewrite (bool_decide_eq_false_2 (is_Some None)) by apply is_Some_None.
    cbv beta iota zeta. by rewrite Hm.
Qed.

(** X4.  The uploads of a registration are not rolled back.  When the
    request passes steps 1 to 7 and a file that is not a PDF comes after
    files that are PDFs and that the uploader accepts, each under the name
    of its turn, the answer is 400 and no user is stored, but the folder
    exists and the earlier files stay on the disk and in the object
    storage, each named after the clock reading of its own turn. *)
Theorem rejected_registration_keeps_earlier_files req now w p pre k f post :
  passes_steps_1_6 req w →
  cleanedFormData req !! "password" = Some p →
  (8 ≤ String.length p)%nat →
  fileBufferMap req = (pre ++ (k, f) :: post)%list →
  Forall (fun kf => is_pdf_name (originalname (snd kf))) pre →
  all_accepted E (folder_name_of req) now pre →
  ¬ is_pdf_name (originalname f) →
  ∃ w',
    registerUser E req now w
    = (w', Sent (error_response 400
                   ("Only PDF files allowed. '" ++ originalname f
                    ++ "' is not a PDF."))) ∧
    users w' = users w ∧ outbox w' = outbox w ∧
    folders w' = (folders w ++ [local_folder_of E req])%list ∧
    disk w' = (disk w ++ local_copies (local_folder_of E req) now pre)%list ∧
    cloud w' = (cloud w ++ remote_copies (folder_name_of req) now pre)%list.
Proof.
  intros Hsteps Hpw Hlen Hfiles Hpdf Hup Hbad.
  rewrite registerUser_unfold.
  run_steps_1_6 Hsteps.
  rewrite Hpw. unfold length_of, ret. cbv beta iota zeta.
  apply Nat.ltb_ge in Hlen. rewrite Hlen. cbv beta iota zeta.
  unfold mkdirSync, modify. cbv beta iota zeta.
  fold (folder_name_of req). fold (local_folder_of E req).
  rewrite Hfiles.
  destruct (register_files_prefix E (folder_name_of req)
              (local_folder_of E req) now pre ((k, f) :: post)
              (cleanedFormData req) (add_folder (local_folder_of E req) w)
              Hpdf Hup)
    as (w1 & data1 & -> & Husers & _ & Hfold & Hout & Hdisk & Hcloud).
  cbn [register_files].
  assert (String.eqb (JS.toLowerCase (Path.extname (originalname f))) ".pdf"
          = false) as -> by by apply String.eqb_neq.
  cbn [negb]. unfold respond. exists w1. by repeat split.
Qed.

(** X5.  The registration writes each file to the disk before it uploads
    it, and takes nothing back.  When the uploader rejects one attachment of
    a registration that has passed every check, the answer is 500 with the
    uploader's message and no user is stored, but the rejected attachment
    and those before it stay on the disk, and those before it stay in the
    remote store, each named after the clock reading of its own turn. *)
Theorem failed_registration_upload_leaves_its_local_copy
    req now w p pre k f post msg :
  passes_steps_1_6 req w →
  cleanedFormData req !! "password" = Some p →
  (8 ≤ String.length p)%nat →
  fileBufferMap req = (pre ++ (k, f) :: post)%list →
  Forall (fun kf => is_pdf_name (originalname (snd kf))) pre →
  all_accepted E (folder_name_of req) now pre →
  is_pdf_name (originalname f) →
  uploadBufferToCloudinary E (buffer f) (stored_name (now (length pre)) k)
    (folder_name_of req) = inr msg →
  ∃ w',
    registerUser E req now w = (w', Sent (failure_response msg)) ∧
    users w' = users w ∧ outbox w' = outbox w ∧
    disk w' = (disk w ++ local_copies (local_folder_of E req) now
                           (pre ++ [(k, f)]))%list ∧
    cloud w' = (cloud w ++ remote_copies (folder_name_of req) now pre)%list.
Proof.
  intros Hsteps Hpw Hlen Hfiles Hpdf Hup Hf Hfail.
  rewrite registerUser_unfold.
  run_steps_1_6 Hsteps.
  rewrite Hpw. unfold length_of, ret. cbv beta iota zeta.
  apply Nat.ltb_ge in Hlen. rewrite Hlen. cbv beta iota zeta.
  unfold mkdirSync, modify. cbv beta iota zeta.
  fold (folder_name_of req). fold (local_folder_of E req).
  rewrite Hfiles.
  destruct (register_files_prefix E (folder_name_of req)
              (local_folder_of E req) now pre ((k, f) :: post)
              (cleanedFormData req) (add_folder (local_folder_of E req) w)
              Hpdf Hup)
    as (w1 & data1 & -> & Husers & _ & Hfold & Hout & Hdisk & Hcloud).
  cbn [register_files]. unfold is_pdf_name in Hf. rewrite Hf.
  change (String.eqb ".pdf" ".pdf") with true. cbn [negb].
  unfold bind, writeFileSync, modify, upload, throw. cbv beta iota zeta.
  unfold after. rewrite Nat.add_0_r.
  unfold stored_name in Hfail. rewrite Hfail. cbv beta iota zeta.
  eexists. split; [reflexivity|].
  cbn [users outbox disk cloud add_file add_folder] in *.
  repeat split; try done.
  rewrite Hdisk, local_copies_snoc, app_assoc. reflexivity.
Qed.

(** X6.  What the upload loop of the registration does to the form.  When
    the loop completes, every attachment has the extension of a PDF, has
    been written to the disk and uploaded under the name of its own turn,
    and the form holds, under each field name of an attachment, the URL
    that the uploader returned in the last turn for that field; the other
    form fields are what they were, and the loop has touched neither the
    users, the applications, the folders nor the out-box. *)
Theorem upload_loop_puts_urls_into_the_form
    safeName dir now entries data w w' d :
  register_files E safeName dir now entries data w = (w', Next d) →
  (∀ k f, (k, f) ∈ entries → is_pdf_name (originalname f)) ∧
  all_accepted E safeName now entries ∧
  (∀ k, k ∉ file_keys entries → d !! k = data !! k) ∧
  (∀ i k f, entries !! i = Some (k, f) → last_of_its_name entries i k →
     ∃ url, uploads_to E safeName (now i) (k, f) url ∧ d !! k = Some url) ∧
  disk w' = (disk w ++ local_copies dir now entries)%list ∧
  cloud w' = (cloud w ++ remote_copies safeName now entries)%list ∧
  users w' = users w ∧ nocs w' = nocs w ∧ folders w' = folders w ∧
  outbox w' = outbox w.
Proof.
  intros Hrun.
  pose proof (register_files_inv E _ _ _ _ _ _ _ _ Hrun)
    as (Husers & Hnocs & _ & Hpdf).
  pose proof (register_files_Next_inv E _ _ _ _ _ _ _ _ Hrun)
    as (Hok & Hdisk & Hcloud & Hfold & Hout & Hother).
  split; [exact (Hpdf d eq_refl)|]. repeat split; try done.
  clear Husers Hnocs Hpdf Hok Hdisk Hcloud Hfold Hout Hother.
  revert now data w Hrun.
  induction entries as [|[k f] rest IH]; intros now data w Hrun i k' f' Hi Hlast;
    [done|].
  cbn [register_files] in Hrun.
  destruct (negb _); [discriminate Hrun|].
  unfold bind, writeFileSync, modify, upload in Hrun.
  cbv beta iota zeta in Hrun.
  destruct (uploadBufferToCloudinary E _ _ _) as [url | msg] eqn:Hup;
    [|discriminate Hrun].
  cbv beta iota zeta in Hrun.
  destruct i as [|i].
  - injection Hi as <- <-. exists url. split; [done|].
    apply register_files_Next_inv in Hrun as (_ & _ & _ & _ & _ & Hother).
    by rewrite (Hother k Hlast), lookup_insert_eq.
  - by apply (IH (later now) _ _ Hrun i k' f').
Qed.

End RegisterStores.

(** ** Uniqueness of identifiers, emails and mobile numbers *)

Section Uniqueness.

Variable E : Env.

Lemma find_user_by_None k v us u :
  find_user_by k v us = None → u ∈ us → path_of u k ≠ v.
Proof.
  unfold find_user_by. intros H Hin.
  apply list_elem_of_In in Hin.
  pose proof (find_none _ _ H u Hin) as Hp. cbn beta in Hp.
  by apply bool_decide_eq_false in Hp.
Qed.

Lemma find_user_by_new k v us u :
  find_user_by k v us = None → path_of u k = v →
  find_user_by k v (us ++ [u]) = Some u.
Proof.
  unfold find_user_by. intros Hnone Hpath.
  induction us as [|x us IH]; cbn [app find] in *.
  - by rewrite bool_decide_eq_true_2.
  - destruct (bool_decide (path_of x k = v)); [done|]. by apply IH.
Qed.

(** A write that keeps the value of a path keeps the values of that path in
    the whole collection. *)
Lemma upsert_paths k us u0 u' :
  NoDup (map _id us) → u0 ∈ us → _id u' = _id u0 →
  path_of u' k = path_of u0 k →
  map (fun u => path_of u k) (upsert u' us) = map (fun u => path_of u k) us.
Proof.
  intros Hnd Hin Hid Hpath. induction us as [|y us IH];
    [by apply not_elem_of_nil in Hin|].
  cbn [upsert map].
  destruct (Nat.eqb_spec (_id y) (_id u')) as [Heq | Hne].
  - assert (y = u0) as ->.
    { apply (same_id_same_user (y :: us)); [done|by left|done|congruence]. }
    cbn [map]. by rewrite Hpath.
  - cbn [map]. f_equal. cbn [map] in Hnd. apply NoDup_cons in Hnd as [_ Hnd].
    apply elem_of_cons in Hin as [-> | Hin]; [congruence|]. by apply IH.
Qed.

Lemma upsert_unique (w : World) u0 u' :
  store_unique w → u0 ∈ users w → _id u' = _id u0 →
  path_of u' "email" = path_of u0 "email" →
  path_of u' "mobile_number" = path_of u0 "mobile_number" →
  store_unique (set_users w (upsert u' (users w))).
Proof.
  intros [Hid He Hm] Hin Hsame Hemail Hmobile.
  split; cbn [users set_users]; unfold distinct_on in *.
  - rewrite upsert_ids; [done|]. rewrite Hsame.
    by apply (list_elem_of_fmap_2 _id) in Hin.
  - by rewrite (upsert_paths "email" _ u0).
  - by rewrite (upsert_paths "mobile_number" _ u0).
Qed.

(** X7.  The handlers that write user records keep the identifiers, the
    emails and the mobile numbers of the users pairwise distinct: a
    registration none of whose uploads is named [email] or [mobile_number],
    a reset request and a password reset. *)
Theorem handlers_keep_users_unique w :
  store_unique w →
  (∀ req now w' out,
     registerUser E req now w = (w', out) →
     "email" ∉ file_keys (fileBufferMap req) →
     "mobile_number" ∉ file_keys (fileBufferMap req) →
     store_unique w') ∧
  (∀ req resetToken now w' out,
     forgotPassword E req resetToken now w = (w', out) → store_unique w') ∧
  (∀ req now w' out,
     resetPassword E req now w = (w', out) → store_unique w').
Proof.
  intros Hw. split; [|split].
  - intros req now w' out Hrun Hke Hkm. rewrite registerUser_unfold in Hrun.
    destruct (registerUser_persist E req now w) as [w1 [user | r | msg]]
      eqn:Hp.
    + assert (store_unique w1) as H1.
      { apply persist_Next_inv in Hp
          as ([_ _ _ _ _ Hfe Hfm] & _ & w4 & data' & Hfiles & -> & _ & ->).
        apply register_files_Next_inv in Hfiles
          as (_ & _ & _ & _ & _ & Hother).
        destruct Hw as [Hid He Hm].
        split; cbn [users set_users]; unfold distinct_on in *;
          rewrite map_app; cbn [map]; apply NoDup_app;
          (split; [done|]); (split; [|apply NoDup_singleton]);
          intros x Hx ->%list_elem_of_singleton.
        - by apply fresh_id_fresh in Hx.
        - apply list_elem_of_fmap in Hx as (u & Hu & Hin).
          apply (find_user_by_None _ _ _ u Hfe Hin).
          rewrite <- Hu. unfold path_of, stored. cbn [profile].
          by rewrite lookup_alter_ne, Hother.
        - apply list_elem_of_fmap in Hx as (u & Hu & Hin).
          apply (find_user_by_None _ _ _ u Hfm Hin).
          rewrite <- Hu. unfold path_of, stored. cbn [profile].
          by rewrite lookup_alter_ne, Hother. }
      destruct (sendEmail E _); injection Hrun as <- _; [done|].
      destruct H1. by split.
    + apply persist_inv in Hp as (Hu & _). injection Hrun as <- _.
      destruct Hw. split; unfold distinct_on in *; by rewrite Hu.
    + apply persist_inv in Hp as (Hu & _). injection Hrun as <- _.
      destruct Hw. split; unfold distinct_on in *; by rewrite Hu.
  - intros req resetToken now w' out Hrun.
    unfold forgotPassword, handle, forgotPassword_body, bind, User_findOne,
      try_catch, send, User_save, modify, throw in Hrun.
    destruct (find_user_by _ _ _) as [user0|] eqn:Hfind;
      cbv beta iota zeta in Hrun; [|by injection Hrun as <- _].
    apply find_user_by_Some in Hfind as [Hin _].
    set (pending := with_reset user0 _ _) in Hrun.
    assert (store_unique (set_users w (upsert pending (users w)))) as H1
      by by apply (upsert_unique w user0).
    destruct (sendEmail E _); cbv beta iota zeta in Hrun;
      injection Hrun as <- _.
    + apply (upsert_unique (set_users w (upsert pending (users w))) pending);
        try done.
      cbn [users set_users].
      apply (elem_of_upsert (users w) user0 pending); [by destruct Hw|done..|].
      by left.
    + destruct H1. by split.
  - intros req now w' out Hrun. rewrite resetPassword_unfold in Hrun.
    destruct (find _ _) as [user0|] eqn:Hfind; [|by injection Hrun as <- _].
    apply find_reset_Some in Hfind as [Hin _].
    destruct (validateUser E _); injection Hrun as <- _; [done|].
    apply (upsert_unique w user0); try done;
      unfold path_of, stored, updated, with_reset, with_password;
      cbn [profile];
      (destruct (req_body req !! "password");
       [by rewrite lookup_alter_ne, lookup_insert_ne
       |by rewrite lookup_alter_ne, lookup_delete_ne]).
Qed.

End Uniqueness.

(** ** Login *)

Section LoginFacts.

Variable E : Env.

(** X8.  A login never changes the store, and it is answered 200 only when
    the email is that of a stored user whose stored hash matches the
    password; the cookie then carries the token of that user. *)
Theorem login_needs_a_matching_hash req w w' r :
  loginUser E req w = (w', Sent r) →
  w' = w ∧
  (r = missing_credentials ∨ r = invalid_credentials
   ∨ ∃ e p user h,
       req_body req !! "email" = Some e ∧ req_body req !! "password" = Some p
       ∧ find_user_by "email" (Some e) (users w) = Some user
       ∧ path_of user "password" = Some h ∧ bcrypt_compare E p h = true
       ∧ r = login_response E user).
Proof.
  unfold loginUser, handle, loginUser_body, bind, when_, User_findOne, ret,
    respond, respond_with_cookie.
  destruct (negb (JS.truthy (req_body req !! "email"))
            || negb (JS.truthy (req_body req !! "password"))) eqn:Hguard;
    cbv beta iota zeta.
  { intros [= <- <-]. split; [done|]. by left. }
  apply orb_false_iff in Hguard as [He Hp].
  apply negb_false_iff, truthy_provided in He as (e & He & _).
  apply negb_false_iff, truthy_provided in Hp as (p & Hp & _).
  rewrite He, Hp.
  destruct (find_user_by "email" (Some e) (users w)) as [user|] eqn:Hfind.
  2: { intros [= <- <-]. split; [done|]. right. by left. }
  unfold compare_password, ret, throw.
  destruct (path_of user "password") as [h|] eqn:Hh;
    cbv beta iota zeta delta [default id]; [|discriminate].
  destruct (bcrypt_compare E p h) eqn:Hcmp; cbn [negb]; cbv beta iota zeta.
  - intros [= <- <-]. split; [done|]. right. right.
    by exists e, p, user, h.
  - intros [= <- <-]. split; [done|]. right. by left.
Qed.

(** X9.  A user who has just registered can log in.  When no upload is
    named [email] or [password], the email is not empty and the hashing of
    the store is the one that the comparison undoes, a login with the email
    and the password of a completed registration is answered 200 with the
    cookie of the new user. *)
Theorem registered_user_can_log_in req now w w' r reqL e p :
  registerUser E req now w = (w', Sent r) →
  status r = 201 →
  "email" ∉ file_keys (fileBufferMap req) →
  "password" ∉ file_keys (fileBufferMap req) →
  cleanedFormData req !! "email" = Some e → e ≠ "" →
  cleanedFormData req !! "password" = Some p →
  bcrypt_compare E p (hash_password E p) = true →
  req_body reqL !! "email" = Some e →
  req_body reqL !! "password" = Some p →
  ∃ user,
    r = created_response E user ∧
    loginUser E reqL w' = (w', Sent (login_response E (stored E user))) ∧
    _id (stored E user) = _id user.
Proof.
  intros Hrun Hst Hke Hkp He Hne Hp Hcmp HLe HLp.
  rewrite registerUser_unfold in Hrun.
  destruct (registerUser_persist E req now w) as [w1 [user | r1 | msg]] eqn:Hq.
  - destruct (sendEmail E (welcome_mail user)) as [msg|];
      injection Hrun as <- <-; [discriminate Hst|].
    apply persist_Next_inv in Hq
      as ([_ _ _ _ _ Hfe _] & (p' & Hpw & Hlen) & w4 & data' & Hfiles & ->
          & _ & ->).
    apply register_files_Next_inv in Hfiles
      as (_ & _ & _ & _ & _ & Hother).
    eexists. split; [reflexivity|]. split; [|done].
    assert (p' = p) as -> by congruence.
    set (user := mkUser _ data' None None).
    assert (path_of (stored E user) "email" = Some e) as Hemail.
    { unfold path_of, stored. cbn [profile].
      by rewrite lookup_alter_ne, Hother, He. }
    assert (path_of (stored E user) "password" = Some (hash_password E p))
      as Hpass.
    { unfold path_of, stored. cbn [profile].
      rewrite lookup_alter, Hother, Hpw by done. by case_decide. }
    assert (p ≠ "") as Hpne by (intros ->; cbn in Hlen; lia).
    unfold loginUser, handle, loginUser_body, bind, when_, User_findOne, ret.
    rewrite HLe, HLp. cbn [JS.truthy].
    apply String.eqb_neq in Hne, Hpne. rewrite Hne, Hpne. cbn [negb orb].
    cbv beta iota zeta. cbn [users add_mail set_users].
    rewrite He in Hfe.
    rewrite (find_user_by_new "email" (Some e) (users w) (stored E user))
      by done.
    cbv beta iota zeta. rewrite Hpass.
    unfold compare_password, ret. cbv beta iota zeta delta [default id].
    by rewrite Hcmp.
  - injection Hrun as <- <-. apply persist_inv in Hq as (_ & _ & Hrej).
    destruct Hrej; discriminate Hst.
  - injection Hrun as <- <-. discriminate Hst.
Qed.

End LoginFacts.

(** ** The password-reset flow, end to end *)

Section ResetFlow.

Variable E : Env.

Lemma forgotPassword_sent req resetToken t0 w user0 :
  find_user_by "email" (req_body req !! "email") (users w) = Some user0 →
  sendEmail E (reset_mail user0 (reset_url req resetToken)) = None →
  forgotPassword E req resetToken t0 w
  = (add_mail (reset_mail user0 (reset_url req resetToken))
       (set_users w (upsert (pending E user0 resetToken t0) (users w))),
     Sent (reset_mail_sent req resetToken)).
Proof.
  intros Hfind Hmail.
  unfold forgotPassword, handle, forgotPassword_body, bind, User_findOne,
    try_catch, send, User_save, modify, throw.
  rewrite Hfind. cbv beta iota zeta.
  change (reset_mail (with_reset user0 _ _) _)
    with (reset_mail user0 (reset_url req resetToken)).
  rewrite Hmail. cbv beta iota zeta. reflexivity.
Qed.

(** The only live holder of a hash is the first one that the query finds. *)
Lemma find_reset_only h now us u :
  u ∈ us → live_token h now u →
  (∀ x, x ∈ us → live_token h now x → x = u) →
  find (reset_query h now) us = Some u.
Proof.
  intros Hin Hlive Honly.
  destruct (find _ us) as [x|] eqn:Hfind.
  - apply find_reset_Some in Hfind as [Hx Hl]. f_equal. by apply Honly.
  - apply find_reset_None in Hfind. destruct Hfind. by exists u.
Qed.

(** X10.  Request, reset, login.  A reset request at [t0] whose mail goes
    out, followed before [t0 + fifteen_minutes] by a reset with the mailed
    token, stores the new password for the user who asked: a login with the
    email and the new password is then answered 200.  The old password
    works no longer when it does not match the new hash. *)
Theorem reset_link_sets_the_login_password
    reqF resetToken t0 reqR t1 reqL w user0 e p :
  NoDup (map _id (users w)) →
  req_body reqF !! "email" = Some e → e ≠ "" →
  find_user_by "email" (Some e) (users w) = Some user0 →
  sendEmail E (reset_mail user0 (reset_url reqF resetToken)) = None →
  (∀ u, u ∈ users w → u ≠ user0 →
     resetPasswordToken u ≠ Some (sha256_hex E resetToken)) →
  param_token reqR = resetToken →
  (t1 < t0 + fifteen_minutes)%Z →
  req_body reqR !! "password" = Some p → p ≠ "" →
  validateUser E (updated reqR (pending E user0 resetToken t0)) = None →
  bcrypt_compare E p (hash_password E p) = true →
  req_body reqL !! "email" = Some e →
  req_body reqL !! "password" = Some p →
  let user2 := stored E (updated reqR (pending E user0 resetToken t0)) in
  ∃ w1 w2,
    forgotPassword E reqF resetToken t0 w
    = (w1, Sent (reset_mail_sent reqF resetToken)) ∧
    resetPassword E reqR t1 w1 = (w2, Sent (reset_response E user0)) ∧
    loginUser E reqL w2 = (w2, Sent (login_response E user2)) ∧
    _id user2 = _id user0 ∧
    (∀ reqO old,
       req_body reqO !! "email" = Some e →
       req_body reqO !! "password" = Some old → old ≠ "" →
       bcrypt_compare E old (hash_password E p) = false →
       loginUser E reqO w2 = (w2, Sent invalid_credentials)).
Proof.
  intros Hnd He Hne Hfind Hmail Hothers Htok Ht Hp Hpne Hvalid Hcmp HLe HLp
    user2.
  rewrite <- He in Hfind.
  rewrite (forgotPassword_sent _ _ t0 _ _ Hfind Hmail).
  destruct (find_user_by_Some _ _ _ _ Hfind) as [Hin Hemail].
  set (user1 := pending E user0 resetToken t0) in *.
  eexists _, _. split; [reflexivity|].
  assert (∀ x, x ∈ upsert user1 (users w)
               ↔ x = user1 ∨ (x ∈ users w ∧ x ≠ user0)) as Hmem.
  { intros x. by apply elem_of_upsert. }
  assert (live_token (sha256_hex E resetToken) t1 user1) as Hlive.
  { split; [done|]. by exists (t0 + fifteen_minutes)%Z. }
  assert (find (reset_query (sha256_hex E (param_token reqR)) t1)
               (upsert user1 (users w)) = Some user1) as Hq.
  { rewrite Htok. apply find_reset_only; [apply Hmem; by left | done |].
    intros x [-> | [Hx Hxne]]%Hmem [Hh _]; [done|].
    by destruct (Hothers x Hx Hxne). }
  rewrite resetPassword_unfold. cbn [users add_mail set_users].
  rewrite Hq, Hvalid. split; [reflexivity|].
  cbn [users set_users].
  assert (find_user_by "email" (Some e) (upsert user2 (upsert user1 (users w)))
          = Some user2) as Hfind2.
  { rewrite <- He.
    apply (find_user_by_upsert _ _ _ user1); [|done|].
    - by apply (find_user_by_upsert _ _ _ user0).
    - unfold path_of in *. subst user2 user1.
      unfold stored, updated, with_reset, with_password, pending.
      cbn [profile]. rewrite Hp.
      by rewrite lookup_alter_ne, lookup_insert_ne. }
  assert (path_of user2 "password" = Some (hash_password E p)) as Hpass.
  { unfold path_of. subst user2 user1.
    unfold stored, updated, with_reset, with_password, pending.
    cbn [profile]. rewrite Hp.
    by rewrite lookup_alter, lookup_insert. }
  assert (∀ reqX q out, req_body reqX !! "email" = Some e →
            req_body reqX !! "password" = Some q → q ≠ "" →
            out = (if bcrypt_compare E q (hash_password E p)
                   then login_response E user2 else invalid_credentials) →
            ∀ wx, users wx = upsert user2 (upsert user1 (users w)) →
            loginUser E reqX wx = (wx, Sent out)) as Hlogin.
  { intros reqX q out HXe HXp Hq' -> wx Hwx.
    unfold loginUser, handle, loginUser_body, bind, when_, User_findOne, ret.
    rewrite HXe, HXp. cbn [JS.truthy].
    apply String.eqb_neq in Hne, Hq'. rewrite Hne, Hq'. cbn [negb orb].
    cbv beta iota zeta. rewrite Hwx, Hfind2. cbv beta iota zeta.
    rewrite Hpass. unfold compare_password, ret.
    cbv beta iota zeta delta [default id].
    by destruct (bcrypt_compare E q (hash_password E p)). }
  split; [|split; [done|]].
  - apply (Hlogin reqL p); try done. by rewrite Hcmp.
  - intros reqO old HOe HOp HOne Hold.
    apply (Hlogin reqO old); try done. by rewrite Hold.
Qed.

(** X11.  A second reset request replaces the link of the first one: after
    two requests for the same user, with different tokens, the first token
    is refused at any time, while the second one is live until fifteen
    minutes after the second request. *)
Theorem newer_reset_link_replaces_the_older_one
    req1 tok1 t0 req2 tok2 t1 w user0 :
  NoDup (map _id (users w)) →
  find_user_by "email" (req_body req1 !! "email") (users w) = Some user0 →
  req_body req2 !! "email" = req_body req1 !! "email" →
  sendEmail E (reset_mail user0 (reset_url req1 tok1)) = None →
  sendEmail E (reset_mail user0 (reset_url req2 tok2)) = None →
  sha256_hex E tok1 ≠ sha256_hex E tok2 →
  (∀ u, u ∈ users w → u ≠ user0 →
     resetPasswordToken u ≠ Some (sha256_hex E tok1)) →
  ∃ w1 w2,
    forgotPassword E req1 tok1 t0 w = (w1, Sent (reset_mail_sent req1 tok1)) ∧
    forgotPassword E req2 tok2 t1 w1 = (w2, Sent (reset_mail_sent req2 tok2)) ∧
    (∀ reqR now, param_token reqR = tok1 →
       resetPassword E reqR now w2 = (w2, Sent invalid_or_expired)) ∧
    (∀ now, (now < t1 + fifteen_minutes)%Z →
       ∃ u, u ∈ users w2 ∧ _id u = _id user0
            ∧ live_token (sha256_hex E tok2) now u).
Proof.
  intros Hnd Hfind Hsame Hmail1 Hmail2 Hdiff Hothers.
  rewrite (forgotPassword_sent _ _ t0 _ _ Hfind Hmail1).
  destruct (find_user_by_Some _ _ _ _ Hfind) as [Hin Hemail].
  set (user1 := pending E user0 tok1 t0).
  assert (find_user_by "email" (req_body req2 !! "email")
            (upsert user1 (users w)) = Some user1) as Hfind1.
  { rewrite Hsame. by apply (find_user_by_upsert _ _ _ user0). }
  eexists _, _. split; [reflexivity|].
  rewrite (forgotPassword_sent req2 tok2 t1 _ user1); [|done..].
  split; [reflexivity|].
  cbn [users add_mail set_users].
  set (user2 := pending E user1 tok2 t1).
  assert (NoDup (map _id (upsert user1 (users w)))) as Hnd1
    by by apply upsert_distinct.
  assert (user1 ∈ upsert user1 (users w)) as Hin1.
  { apply (elem_of_upsert (users w) user0); auto. }
  assert (∀ x, x ∈ upsert user2 (upsert user1 (users w))
               ↔ x = user2 ∨ (x ∈ upsert user1 (users w) ∧ x ≠ user1))
    as Hmem2.
  { intros x. by apply elem_of_upsert. }
  split.
  - intros reqR now Htok. rewrite resetPassword_unfold.
    cbn [users add_mail set_users]. rewrite Htok.
    assert (find (reset_query (sha256_hex E tok1) now)
                 (upsert user2 (upsert user1 (users w))) = None) as ->;
      [|done].
    apply find_reset_None. intros (x & Hx & Hh & _).
    apply Hmem2 in Hx as [-> | [Hx Hxne]].
    + cbn in Hh. congruence.
    + apply (elem_of_upsert (users w) user0 user1 x Hnd Hin eq_refl) in Hx
        as [-> | [Hx Hx0]]; [done|].
      by destruct (Hothers x Hx Hx0).
  - intros now Hnow. exists user2. split; [apply Hmem2; by left|].
    split; [done|]. split; [done|]. by exists (t1 + fifteen_minutes)%Z.
Qed.

(** A write keeps every record but the one it replaces. *)
Lemma upsert_keeps us u0 u' (x : User) :
  NoDup (map _id us) → u0 ∈ us → _id u' = _id u0 → x ∈ us →
  x ∈ upsert u' us ∨ x = u0.
Proof.
  intros Hnd Hin Hid Hx.
  destruct (decide (_id x = _id u0)) as [Heq | Hne].
  - right. by apply (same_id_same_user us).
  - left. apply (elem_of_upsert us u0); [done..|].
    right. split; [done|]. by intros ->.
Qed.

(** X12.  The two password handlers write one user record and nothing
    else: applications, reference data, folders, files and uploads stay as
    they are, the identifiers of the users stay the same, and every record
    other than the one that the handler looked up is still in the store. *)
Theorem password_handlers_write_one_record w :
  NoDup (map _id (users w)) →
  (∀ req resetToken now w' out,
     forgotPassword E req resetToken now w = (w', out) →
     map _id (users w') = map _id (users w) ∧
     nocs w' = nocs w ∧ regcategories w' = regcategories w ∧
     nationalities w' = nationalities w ∧ folders w' = folders w ∧
     disk w' = disk w ∧ cloud w' = cloud w ∧
     (∀ u, u ∈ users w →
        u ∈ users w'
        ∨ find_user_by "email" (req_body req !! "email") (users w) = Some u)) ∧
  (∀ req now w' out,
     resetPassword E req now w = (w', out) →
     map _id (users w') = map _id (users w) ∧
     nocs w' = nocs w ∧ regcategories w' = regcategories w ∧
     nationalities w' = nationalities w ∧ folders w' = folders w ∧
     disk w' = disk w ∧ cloud w' = cloud w ∧ outbox w' = outbox w ∧
     (∀ u, u ∈ users w →
        u ∈ users w'
        ∨ find (reset_query (sha256_hex E (param_token req)) now) (users w)
          = Some u)).
Proof.
  intros Hnd. split.
  - intros req resetToken now w' out.
    unfold forgotPassword, handle, forgotPassword_body, bind, User_findOne,
      try_catch, send, User_save, modify, throw, respond.
    destruct (find_user_by "email" _ (users w)) as [user0|] eqn:Hfind;
      cbv beta iota zeta.
    2: { intros [= <- <-]. repeat split; auto. }
    destruct (find_user_by_Some _ _ _ _ Hfind) as [Hin _].
    set (user1 := with_reset user0 _ _).
    assert (_id user0 ∈ map _id (users w)) as Hid
      by by apply (list_elem_of_fmap_2 _id).
    assert (user1 ∈ upsert user1 (users w)) as Hin1.
    { apply (elem_of_upsert (users w) user0); auto. }
    destruct (sendEmail E _) as [msg|]; cbv beta iota zeta;
      intros [= <- <-]; cbn [users nocs regcategories nationalities folders
                               disk cloud add_mail set_users].
    + repeat split; try done.
      * rewrite upsert_ids; rewrite upsert_ids; done.
      * intros u Hu.
        destruct (upsert_keeps (users w) user0 user1 u) as [Hu1 | ->];
          [done..| |by right].
        destruct (upsert_keeps (upsert user1 (users w)) user1
                    (with_reset user1 None None) u) as [Hu2 | ->];
          [by apply upsert_distinct | done..| by left |].
        right. f_equal. symmetry.
        by apply (same_id_same_user (users w)).
    + repeat split; try done.
      * by rewrite upsert_ids.
      * intros u Hu.
        destruct (upsert_keeps (users w) user0 user1 u) as [Hu1 | ->];
          [done..| by left | by right].
  - intros req now w' out. rewrite resetPassword_unfold.
    destruct (find _ (users w)) as [u0|] eqn:Hfind.
    2: { intros [= <- <-]. repeat split; auto. }
    destruct (find_reset_Some _ _ _ _ Hfind) as [Hin _].
    destruct (validateUser E _) as [msg|]; intros [= <- <-].
    { repeat split; auto. }
    cbn [users nocs regcategories nationalities folders disk cloud outbox
           set_users].
    repeat split; try done.
    + rewrite upsert_ids; [done|].
      by apply (list_elem_of_fmap_2 _id (users w) u0).
    + intros u Hu.
      destruct (upsert_keeps (users w) u0 (stored E (updated req u0)) u)
        as [Hu1 | ->]; [done..| by left | by right].
Qed.

(** A token that is still live later is found by the later query as well. *)
Lemma find_reset_later h now now' us u0 :
  find (reset_query h now) us = Some u0 →
  (now ≤ now')%Z → live_token h now' u0 →
  find (reset_query h now') us = Some u0.
Proof.
  intros Hfind Hle Hlive. induction us as [|x us IH]; [done|].
  cbn [find] in *.
  destruct (reset_query h now x) eqn:Hx.
  - injection Hfind as ->. apply reset_query_live in Hlive. by rewrite Hlive.
  - destruct (reset_query h now' x) eqn:Hx'; [|by apply IH].
    apply reset_query_live in Hx' as (Ht & t & Hexp & Hlt).
    assert (reset_query h now x = true) as Hx''; [|congruence].
    apply reset_query_live. split; [done|]. exists t. split; [done|]. lia.
Qed.

(** X13.  Requests that get no answer.  [loginUser] and [resetPassword]
    have no [catch].  A login with email and password for a user whose
    record has no password ends with the error of [bcrypt.compare] and
    without an answer.  A reset for which the query finds a user, but whose
    record the validation of the save rejects, ends with the validation
    error and without an answer.  Neither changes the state; so the token
    of the failed reset is still there, and a later request with that
    token, before it expires and with a record that the validation accepts,
    is answered 200 for the same user. *)
Theorem requests_left_unanswered w :
  (∀ req user,
     provided (req_body req) "email" → provided (req_body req) "password" →
     find_user_by "email" (req_body req !! "email") (users w) = Some user →
     path_of user "password" = None →
     loginUser E req w = (w, Unhandled "Illegal arguments: string, undefined")) ∧
  (∀ req now u0 msg,
     find (reset_query (sha256_hex E (param_token req)) now) (users w)
     = Some u0 →
     validateUser E (updated req u0) = Some msg →
     resetPassword E req now w = (w, Unhandled msg) ∧
     ∀ req' now',
       param_token req' = param_token req → (now ≤ now')%Z →
       live_token (sha256_hex E (param_token req)) now' u0 →
       validateUser E (updated req' u0) = None →
       ∃ w', resetPassword E req' now' w = (w', Sent (reset_response E u0))).
Proof.
  split.
  - intros req user He Hp Hfind Hnone.
    apply truthy_provided in He, Hp.
    destruct (req_body req !! "password") as [p|] eqn:Hpw; [|done].
    unfold loginUser, handle, loginUser_body, bind, when_, User_findOne, ret.
    rewrite He, Hpw, Hp. cbn [negb orb]. cbv beta iota zeta.
    rewrite Hfind. cbv beta iota zeta. by rewrite Hnone.
  - intros req now u0 msg Hfind Hmsg. split.
    + by rewrite resetPassword_unfold, Hfind, Hmsg.
    + intros req' now' Htok Hle Hlive Hvalid.
      rewrite resetPassword_unfold, Htok.
      rewrite (find_reset_later _ now now' _ u0 Hfind Hle Hlive), Hvalid.
      by eexists.
Qed.

End ResetFlow.

(** ** Submitting an NOC application *)

Section NOCSubmission.

Variable E : Env.

(** The upload loop of [applyNOC] never answers by itself: it ends with the
    URLs of all files, or with the error of the first upload that fails.
    The files before that one are uploaded and written to the disk, each
    under the clock reading of its turn, and one folder is made per file.
    At the end each field holds the URL that the uploader returned in the
    last turn for that field. *)
Lemma noc_files_inv safeName now entries saved w w' out :
  noc_files E safeName now entries saved w = (w', out) →
  users w' = users w ∧ nocs w' = nocs w ∧ outbox w' = outbox w ∧
  regcategories w' = regcategories w ∧ nationalities w' = nationalities w ∧
  ∃ pre,
    all_accepted E safeName now pre ∧
    (cloud w' = cloud w ++ remote_copies safeName now pre)%list ∧
    (disk w' = disk w
               ++ local_copies (Path.join (uploads_dir E) safeName) now pre)%list ∧
    (folders w' = folders w
                  ++ replicate (length pre)
                       (Path.join (uploads_dir E) safeName))%list ∧
    match out with
    | Next d =>
        pre = entries ∧
        (∀ k, k ∉ file_keys entries → d !! k = saved !! k) ∧
        (∀ k, k ∈ file_keys entries → is_Some (d !! k)) ∧
        (∀ i k f, entries !! i = Some (k, f) → last_of_its_name entries i k →
           ∃ url, uploads_to E safeName (now i) (k, f) url ∧ d !! k = Some url)
    | Respond _ => False
    | Throw msg =>
        ∃ kf post,
          entries = (pre ++ kf :: post)%list ∧
          uploadBufferToCloudinary E (buffer (snd kf))
            (stored_name (now (length pre)) (fst kf)) safeName = inr msg
    end.
Proof.
  revert now saved w.
  induction entries as [|[k f] rest IH]; intros now saved w H.
  - cbn in H. injection H as <- <-. repeat split; try done.
    exists []. cbn. rewrite !app_nil_r. repeat split; try done.
    by intros k ?%not_elem_of_nil.
  - cbn [noc_files] in H.
    unfold bind, writeFileSync, mkdirSync, modify, upload, throw in H.
    cbv beta iota zeta in H.
    destruct (uploadBufferToCloudinary E _ _ _) as [url | msg] eqn:Hup;
      cbv beta iota zeta in H.
    + apply IH in H
        as (Hu & Hn & Ho & Hrc & Hna & pre & Hok & Hcloud & Hdisk & Hfold
            & Hout).
      cbn [users nocs outbox regcategories nationalities cloud disk folders
             add_file add_folder add_upload] in *.
      repeat split; try done.
      destruct out as [d | r | msg]; [|done|].
      * destruct Hout as (-> & Hother & Hdom & Hurls).
        exists ((k, f) :: rest). cbn [length replicate].
        rewrite local_copies_cons, remote_copies_cons.
        split; [apply all_accepted_cons; split; [by exists url | done]|].
        split; [by rewrite Hcloud, <- app_assoc|].
        split; [by rewrite Hdisk, <- app_assoc|].
        split; [by rewrite Hfold, <- app_assoc|].
        split; [done|]. cbn [file_keys map fst]. split; [|split].
        -- intros k' [Hne Hk']%not_elem_of_cons.
           by rewrite (Hother k' Hk'), lookup_insert_ne.
        -- intros k' Hk'.
           destruct (decide (k' ∈ file_keys rest)) as [Hin | Hnin];
             [by apply Hdom|].
           apply elem_of_cons in Hk' as [-> | Hk']; [|done].
           rewrite (Hother k Hnin), lookup_insert_eq. by eexists.
        -- intros [|i] k' f' Hi Hlast.
           ++ injection Hi as <- <-. exists url. split; [done|].
              by rewrite (Hother k Hlast), lookup_insert_eq.
           ++ by apply (Hurls i k' f').
      * destruct Hout as (kf & post & -> & Hfail).
        exists ((k, f) :: pre). cbn [length replicate].
        rewrite local_copies_cons, remote_copies_cons.
        split; [apply all_accepted_cons; split; [by exists url | done]|].
        split; [by rewrite Hcloud, <- app_assoc|].
        split; [by rewrite Hdisk, <- app_assoc|].
        split; [by rewrite Hfold, <- app_assoc|].
        by exists kf, post.
    + injection H as <- <-. repeat split; try done.
      exists []. cbn. rewrite !app_nil_r. repeat split; try done.
      by exists (k, f), rest.
Qed.

(** The check of the required attachments answers only with the name of the
    first one that is missing. *)
Lemma require_files_inv required entries w w' out :
  require_files required entries w = (w', out) →
  w' = w ∧
  match out with
  | Next _ => ∀ field, field ∈ required → is_Some (file_of field entries)
  | Respond r =>
      ∃ present field rest,
        required = (present ++ field :: rest)%list ∧
        (∀ x, x ∈ present → is_Some (file_of x entries)) ∧
        file_of field entries = None ∧ r = missing_file field
  | Throw _ => False
  end.
Proof.
  induction required as [|field rest IH].
  - intros [= <- <-]. split; [done|]. by intros ? ?%not_elem_of_nil.
  - cbn [require_files].
    destruct (file_of field entries) as [f|] eqn:Hf.
    + intros H. apply IH in H as [-> Hout]. split; [done|].
      destruct out as [[] | r | msg]; [| |done].
      * intros x [-> | Hx]%elem_of_cons; [by eexists | by apply Hout].
      * destruct Hout as (present & fld & rest' & -> & Hpre & Hnone & ->).
        exists (field :: present), fld, rest'. split; [done|].
        split; [|done].
        intros x [-> | Hx]%elem_of_cons; [by eexists | by apply Hpre].
    + intros [= <- <-]. split; [done|]. exists [], field, rest.
      repeat split; try done. by intros ? ?%not_elem_of_nil.
Qed.

(** The ways in which [applyNOC] ends. *)
Lemma applyNOC_cases req now w :
  ∃ w' r,
    applyNOC E req now w = (w', Sent r) ∧
    users w' = users w ∧ outbox w' = outbox w ∧
    regcategories w' = regcategories w ∧ nationalities w' = nationalities w ∧
    ((status r = 201 ∧
      ∃ user urls,
        req_user req = Some user ∧
        let noc := submitted req user urls (fresh_id (map noc_id (nocs w)))
                     (now (length (fileBufferMap req))) in
        r = noc_created noc ∧ (nocs w' = nocs w ++ [noc])%list ∧
        validateNOC E noc = None ∧
        provided (cleanedFormData req) "dental_council_name" ∧
        provided (cleanedFormData req) "postal_address" ∧
        all_accepted E (noc_folder_of user) now (fileBufferMap req) ∧
        (∀ k, k ∈ file_keys (fileBufferMap req) ↔ is_Some (urls !! k)) ∧
        (∀ i k f, fileBufferMap req !! i = Some (k, f) →
           last_of_its_name (fileBufferMap req) i k →
           ∃ url, uploads_to E (noc_folder_of user) (now i) (k, f) url
                  ∧ urls !! k = Some url) ∧
        (cloud w' = cloud w
           ++ remote_copies (noc_folder_of user) now (fileBufferMap req))%list ∧
        (disk w' = disk w
           ++ local_copies (Path.join (uploads_dir E) (noc_folder_of user))
                           now (fileBufferMap req))%list)
     ∨ (status r = 400 ∧ w' = w ∧ is_Some (req_user req) ∧ noc_rejection req r)
     ∨ (∃ msg, r = failure_response msg ∧ nocs w' = nocs w)).
Proof.
  unfold applyNOC, handle, try_catch, applyNOC_try, bind, current_user, ret,
    throw, respond.
  destruct (req_user req) as [user|] eqn:Huser; cbv beta iota zeta.
  2: { eexists _, _. split; [reflexivity|]. repeat split; try done.
       right. right. by eexists. }
  destruct (require_files _ (fileBufferMap req) w) as [w1 s1] eqn:Hreq.
  apply require_files_inv in Hreq as [-> Hreq].
  destruct s1 as [[] | r | msg]; [| |done].
  2: { eexists _, _. split; [reflexivity|]. repeat split; try done.
       right. left.
       destruct Hreq as (present & field & rest & Hlist & Hpre & Hnone & ->).
       repeat split; try done.
       destruct present as [|x present]; [|destruct present as [|y present]].
       - injection Hlist as <- _. by constructor.
       - injection Hlist as <- <- _. constructor; [|done].
         apply Hpre. by left.
       - cbn in Hlist. injection Hlist as _ _ Hnil.
         by destruct present. }
  assert (is_Some (file_of "tdc_reg_certificate_upload" (fileBufferMap req)))
    as Htdc by (apply Hreq; by left).
  assert (is_Some (file_of "aadhaar_upload" (fileBufferMap req)))
    as Haad by (apply Hreq; right; by left).
  unfold when_, respond, ret.
  destruct (negb (JS.truthy (cleanedFormData req !! "dental_council_name"))
            || negb (JS.truthy (cleanedFormData req !! "postal_address")))
    eqn:Hguard; cbv beta iota zeta.
  { eexists _, _. split; [reflexivity|]. repeat split; try done.
    right. left. repeat split; try done. constructor; try done.
    intros [Hd%truthy_provided Hp%truthy_provided].
    by rewrite Hd, Hp in Hguard. }
  apply orb_false_iff in Hguard as [Hd Hp].
  apply negb_false_iff, truthy_provided in Hd, Hp.
  fold (noc_folder_of user).
  destruct (noc_files E (noc_folder_of user) now (fileBufferMap req) ∅ w)
    as [w2 s2] eqn:Hfiles.
  apply noc_files_inv in Hfiles
    as (Hu & Hn & Ho & Hrc & Hna & pre & Hok & Hcloud & Hdisk & Hfold & Hout).
  destruct s2 as [urls | r | msg]; [|done|].
  2: { eexists _, _. split; [reflexivity|]. repeat split; try done.
       right. right. by eexists. }
  destruct Hout as (-> & Hother & Hdom & Hurls).
  unfold get_world, NOC_save, throw, modify. cbv beta iota zeta.
  rewrite Hn.
  fold (submitted req user urls (fresh_id (map noc_id (nocs w)))
          (now (length (fileBufferMap req)))).
  destruct (validateNOC E _) as [msg|] eqn:Hval; cbv beta iota zeta.
  { eexists _, _. split; [reflexivity|]. repeat split; try done.
    right. right. by eexists. }
  eexists _, _. split; [reflexivity|].
  cbn [users outbox regcategories nationalities nocs cloud disk set_nocs].
  repeat split; try done.
  left. split; [done|]. exists user, urls. cbv zeta.
  rewrite Hn. repeat split; try done.
  - apply Hdom.
  - intros Hsome. destruct (decide (k ∈ file_keys (fileBufferMap req)));
      [done|].
    rewrite Hother in Hsome by done. by destruct Hsome.
Qed.

(** X14.  [applyNOC] always answers, with 201, 400 or 500, and never
    touches the users, the reference data or the outbox.  A 400 is sent
    before anything is uploaded or written, for the first missing attachment
    or for a missing text field.  A 201 comes with exactly one new
    application, built from the form and from the URLs of the attached
    files: every file has been uploaded and written to the disk under the
    clock reading of its turn, and the application holds, under each field
    name, the URL that the uploader returned in the last turn for that
    field.  A 500 stores no application. *)
Theorem noc_submission_outcomes req now w :
  ∃ w' r,
    applyNOC E req now w = (w', Sent r) ∧
    users w' = users w ∧ outbox w' = outbox w ∧
    regcategories w' = regcategories w ∧ nationalities w' = nationalities w ∧
    ((status r = 201 ∧
      ∃ user urls,
        req_user req = Some user ∧
        let noc := submitted req user urls (fresh_id (map noc_id (nocs w)))
                     (now (length (fileBufferMap req))) in
        r = noc_created noc ∧ (nocs w' = nocs w ++ [noc])%list ∧
        validateNOC E noc = None ∧
        provided (cleanedFormData req) "dental_council_name" ∧
        provided (cleanedFormData req) "postal_address" ∧
        all_accepted E (noc_folder_of user) now (fileBufferMap req) ∧
        (∀ k, k ∈ file_keys (fileBufferMap req) ↔ is_Some (urls !! k)) ∧
        (∀ i k f, fileBufferMap req !! i = Some (k, f) →
           last_of_its_name (fileBufferMap req) i k →
           ∃ url, uploads_to E (noc_folder_of user) (now i) (k, f) url
                  ∧ urls !! k = Some url) ∧
        (cloud w' = cloud w
           ++ remote_copies (noc_folder_of user) now (fileBufferMap req))%list ∧
        (disk w' = disk w
           ++ local_copies (Path.join (uploads_dir E) (noc_folder_of user))
                           now (fileBufferMap req))%list)
     ∨ (status r = 400 ∧ w' = w ∧ is_Some (req_user req) ∧ noc_rejection req r)
     ∨ (∃ msg, r = failure_response msg ∧ nocs w' = nocs w)).
Proof. exact (applyNOC_cases req now w). Qed.

#[local] Instance newest_first_total : Total newer_first.
Proof. intros a b. unfold newer_first. lia. Qed.

#[local] Instance newest_first_trans : Transitive newer_first.
Proof. intros a b c. unfold newer_first. lia. Qed.

(** The newest application is the first of a listing. *)
Lemma newest_is_listed_first apps noc :
  StronglySorted newer_first apps → noc ∈ apps →
  (∀ n, n ∈ apps → (createdAt n < createdAt noc)%Z ∨ n = noc) →
  head apps = Some noc.
Proof.
  intros Hsorted Hin Hnew. destruct apps as [|x l]; [by apply not_elem_of_nil in Hin|].
  cbn [head]. f_equal.
  destruct (Hnew x) as [Hlt | Heq]; [by left | | done].
  apply elem_of_cons in Hin as [-> | Hin]; [done|].
  apply StronglySorted_inv in Hsorted as [_ Hall].
  rewrite Forall_forall in Hall. specialize (Hall noc Hin).
  unfold newer_first in Hall. lia.
Qed.

Lemma getNOC_listing req w user :
  req_user req = Some user →
  getNOC req w
  = (w, Sent (listing_response (NOC_find_sorted (_id user) (nocs w)))).
Proof.
  intros Huser.
  unfold getNOC, handle, try_catch, getNOC_try, bind, current_user, get_world.
  by rewrite Huser.
Qed.

(** X15.  A submitted application belongs to the user who sent it.  When no
    attachment is named [user_id], the application of a 201 answer carries
    the identifier of the authenticated user, a new identifier of its own
    and the clock reading after the uploads; from then on the listing of
    that user contains it, in the first place when it is newer than the
    stored ones, and the listing of every other user is what it was. *)
Theorem new_application_is_listed_for_its_owner_only req now w w' r :
  applyNOC E req now w = (w', Sent r) →
  status r = 201 →
  "user_id" ∉ file_keys (fileBufferMap req) →
  ∃ user noc,
    req_user req = Some user ∧ r = noc_created noc ∧
    (nocs w' = nocs w ++ [noc])%list ∧
    owner noc = Some (VId (_id user)) ∧
    createdAt noc = now (length (fileBufferMap req)) ∧
    (noc_id noc ∉ map noc_id (nocs w)) ∧
    (∀ req' user', req_user req' = Some user' → _id user' = _id user →
       ∃ apps,
         getNOC req' w' = (w', Sent (listing_response apps)) ∧ noc ∈ apps ∧
         ((∀ n, n ∈ nocs w →
             (createdAt n < now (length (fileBufferMap req)))%Z) →
          head apps = Some noc)) ∧
    (∀ req' user', req_user req' = Some user' → _id user' ≠ _id user →
       ∃ apps,
         getNOC req' w = (w, Sent (listing_response apps)) ∧
         getNOC req' w' = (w', Sent (listing_response apps))).
Proof.
  intros Hrun Hst Hkey.
  destruct (applyNOC_cases req now w)
    as (w'' & r' & Hrun' & _ & _ & _ & _ & Hcases).
  rewrite Hrun in Hrun'. injection Hrun' as <- <-.
  destruct Hcases as [(_ & user & urls & Hcase) | [(H400 & _) | (msg & -> & _)]];
    [|rewrite Hst in H400; discriminate H400 | discriminate Hst].
  cbv zeta in Hcase.
  destruct Hcase as (Huser & -> & Hnocs & _ & _ & _ & _ & Hdom & _).
  set (noc := submitted req user urls (fresh_id (map noc_id (nocs w)))
                (now (length (fileBufferMap req)))) in *.
  assert (owner noc = Some (VId (_id user))) as Hown.
  { unfold owner, noc, submitted. cbn [noc_paths].
    rewrite lookup_union_r.
    - by rewrite lookup_insert_eq.
    - rewrite lookup_fmap.
      destruct (urls !! "user_id") eqn:Hu; [|done].
      destruct Hkey. apply Hdom. by eexists. }
  exists user, noc. repeat split; try done.
  - apply fresh_id_fresh.
  - intros req' user' Huser' Hid.
    rewrite (getNOC_listing req' w' user' Huser'), Hid, Hnocs.
    eexists. split; [reflexivity|].
    assert (∀ n, n ∈ NOC_find_sorted (_id user) (nocs w ++ [noc])
                 ↔ n ∈ (nocs w ++ [noc])%list ∧ owner n = Some (VId (_id user)))
      as Hmem.
    { intros n. unfold NOC_find_sorted.
      rewrite merge_sort_Permutation, list_elem_of_filter. unfold owner. tauto. }
    assert (noc ∈ NOC_find_sorted (_id user) (nocs w ++ [noc])) as Hin.
    { apply Hmem. split; [|done]. apply elem_of_app. right. by left. }
    split; [done|]. intros Hnewer.
    apply newest_is_listed_first; [|done|].
    + by apply StronglySorted_merge_sort; apply _.
    + intros n [[Hn | Hn%list_elem_of_singleton]%elem_of_app _]%Hmem;
        [left; by apply Hnewer | by right].
  - intros req' user' Huser' Hid.
    rewrite (getNOC_listing req' w user' Huser'),
      (getNOC_listing req' w' user' Huser'), Hnocs.
    eexists. split; [reflexivity|]. do 3 f_equal.
    unfold NOC_find_sorted. rewrite filter_app.
    rewrite (filter_cons_False _ noc).
    + by rewrite filter_nil, app_nil_r.
    + fold (owner noc). rewrite Hown. intros [= Heq]. by destruct Hid.
Qed.

(** The loop on files that the uploader accepts goes on with the rest of
    the files, on the clock after their turns. *)
Lemma noc_files_prefix safeName now pre rest saved w :
  all_accepted E safeName now pre →
  ∃ w1 saved1,
    noc_files E safeName now (pre ++ rest) saved w
    = noc_files E safeName (after (length pre) now) rest saved1 w1 ∧
    users w1 = users w ∧ nocs w1 = nocs w ∧ outbox w1 = outbox w ∧
    (cloud w1 = cloud w ++ remote_copies safeName now pre)%list ∧
    (disk w1 = disk w
               ++ local_copies (Path.join (uploads_dir E) safeName) now pre)%list.
Proof.
  revert now saved w.
  induction pre as [|[k f] pre IH]; intros now saved w Hup.
  - exists w, saved. rewrite !app_nil_r. by repeat split.
  - apply all_accepted_cons in Hup as [[url Hurl] Hup].
    unfold uploads_to, stored_name in Hurl. cbn [fst snd] in Hurl.
    cbn [app noc_files].
    unfold bind, writeFileSync, mkdirSync, modify, upload.
    cbv beta iota zeta. rewrite Hurl. cbv beta iota zeta.
    match goal with
    | |- context [noc_files E safeName (later now) (pre ++ rest) ?s ?w0] =>
        destruct (IH (later now) s w0 Hup)
          as (w1 & saved1 & Hrun & Husers & Hnocs & Hout & Hcloud & Hdisk)
    end.
    exists w1, saved1.
    cbn [users nocs outbox disk cloud add_file add_folder add_upload] in *.
    rewrite local_copies_cons, remote_copies_cons.
    repeat split; try done.
    + by rewrite Hcloud, <- app_assoc.
    + by rewrite Hdisk, <- app_assoc.
Qed.

Lemma require_files_present required entries w :
  (∀ field, field ∈ required → is_Some (file_of field entries)) →
  require_files required entries w = (w, Next tt).
Proof.
  induction required as [|field rest IH]; intros Hall; [done|].
  cbn [require_files].
  destruct (Hall field) as [f ->]; [by left|].
  apply IH. intros x Hx. apply Hall. by right.
Qed.

(** X16.  Nothing is taken back when an upload fails.  When the uploader
    rejects one attachment of a complete submission, the answer is 500 with
    the uploader's message and no application is stored, but the attachments
    before it stay in the remote store and on the disk, each named after the
    clock reading of its own turn; the rejected one and those after it are
    neither uploaded nor written. *)
Theorem failed_noc_upload_keeps_the_earlier_files
    req now w user pre kf post msg :
  req_user req = Some user →
  is_Some (file_of "tdc_reg_certificate_upload" (fileBufferMap req)) →
  is_Some (file_of "aadhaar_upload" (fileBufferMap req)) →
  provided (cleanedFormData req) "dental_council_name" →
  provided (cleanedFormData req) "postal_address" →
  fileBufferMap req = (pre ++ kf :: post)%list →
  all_accepted E (noc_folder_of user) now pre →
  uploadBufferToCloudinary E (buffer (snd kf))
    (stored_name (now (length pre)) (fst kf)) (noc_folder_of user) = inr msg →
  ∃ w',
    applyNOC E req now w = (w', Sent (failure_response msg)) ∧
    users w' = users w ∧ nocs w' = nocs w ∧ outbox w' = outbox w ∧
    (cloud w' = cloud w ++ remote_copies (noc_folder_of user) now pre)%list ∧
    (disk w' = disk w
       ++ local_copies (Path.join (uploads_dir E) (noc_folder_of user)) now
                       pre)%list.
Proof.
  intros Huser Htdc Haad Hd Hp Hfiles Hpre Hfail.
  unfold applyNOC, handle, try_catch, applyNOC_try, bind, current_user, ret,
    throw, respond.
  rewrite Huser. cbv beta iota zeta.
  rewrite require_files_present.
  2: { intros field Hin.
       repeat (apply elem_of_cons in Hin as [-> | Hin]; [done|]).
       by apply not_elem_of_nil in Hin. }
  cbv beta iota zeta.
  apply truthy_provided in Hd, Hp. rewrite Hd, Hp. cbn [negb orb when_].
  unfold ret. cbv beta iota zeta.
  fold (noc_folder_of user). rewrite Hfiles.
  destruct (noc_files_prefix (noc_folder_of user) now pre (kf :: post) ∅ w Hpre)
    as (w1 & saved1 & -> & Husers & Hnocs & Hout & Hcloud & Hdisk).
  destruct kf as [k f]. cbn [noc_files fst snd] in *.
  unfold bind, upload, throw. unfold after. rewrite Nat.add_0_r.
  unfold stored_name in Hfail. rewrite Hfail. cbv beta iota zeta.
  eexists. split; [reflexivity|]. by repeat split.
Qed.

End NOCSubmission.

(** ** The folders of the uploads *)

Section UploadFolders.

Lemma strip_word_only s : word_only (strip s).
Proof.
  unfold word_only, strip. induction s as [|c s IH]; [by constructor|].
  cbn [JS.replace_each]. destruct (JS.is_word c) eqn:Hc; cbn [negb].
  - cbn [list_ascii_of_string]. by constructor.
  - by rewrite append_empty_l.
Qed.

Lemma append_cons c (a b : string) : String c a ++ b = String c (a ++ b).
Proof. reflexivity. Qed.

Lemma strip_app a b : strip (a ++ b) = strip a ++ strip b.
Proof.
  induction a as [|c a IH]; [done|].
  rewrite append_cons. unfold strip in *. cbn [JS.replace_each].
  destruct (JS.is_word c); cbn [negb].
  - by rewrite IH, append_cons.
  - by rewrite !append_empty_l.
Qed.

Lemma append_cons_not_empty (a : string) c b : a ++ String c b ≠ "".
Proof. destruct a; [rewrite append_empty_l | rewrite append_cons]; discriminate. Qed.

Lemma strip_keeps_underscore a b : strip (a ++ String "_" b) ≠ "".
Proof.
  rewrite strip_app. unfold strip at 2. cbn [JS.replace_each].
  change (JS.is_word "_") with true. cbn [negb]. apply append_cons_not_empty.
Qed.

Lemma replace_runs_underscore in_run a b :
  JS.replace_runs_from in_run JS.is_space "_" (a ++ String "_" b)
  = JS.replace_runs_from in_run JS.is_space "_" a
    ++ String "_" (JS.replace_runs_from false JS.is_space "_" b).
Proof.
  revert in_run. induction a as [|c a IH]; intros in_run.
  - rewrite append_empty_l. cbn [JS.replace_runs_from].
    change (JS.is_space "_") with false. cbv beta iota. reflexivity.
  - rewrite append_cons. cbn [JS.replace_runs_from].
    destruct (JS.is_space c).
    + destruct in_run; rewrite IH; [done|].
      change ("_" ++ ?x) with (String "_" x). by rewrite append_cons.
    + by rewrite IH, append_cons.
Qed.

Lemma replace_runs_no_white_space in_run s :
  no_white_space s → JS.replace_runs_from in_run JS.is_space "_" s = s.
Proof.
  unfold no_white_space. revert in_run.
  induction s as [|c s IH]; intros in_run; [done|].
  cbn [list_ascii_of_string]. intros [Hc Hs]%Forall_cons.
  cbn [JS.replace_runs_from]. rewrite Hc. by rewrite IH.
Qed.

Lemma truthy_Some v : JS.truthy v = true → ∃ s, v = Some s ∧ s ≠ "".
Proof.
  destruct v as [s|]; [|done]. cbn [JS.truthy].
  rewrite negb_true_iff, String.eqb_neq. by exists s.
Qed.

(** With a first and a last name, the joined name has an underscore. *)
Lemma fullName_has_underscore f_name m_name l_name :
  JS.truthy f_name = true → JS.truthy l_name = true →
  ∃ a rest, fullName_of f_name m_name l_name = a ++ String "_" rest.
Proof.
  intros (a & -> & Ha)%truthy_Some (b & -> & Hb)%truthy_Some.
  apply String.eqb_neq in Ha, Hb.
  unfold fullName_of. cbn [JS.filter_Boolean]. rewrite Ha.
  destruct m_name as [m|]; [destruct (String.eqb m "") eqn:Hm|]; rewrite Hb.
  - by exists a, b.
  - exists a, (m ++ "_" ++ b). reflexivity.
  - by exists a, b.
Qed.

(** X17.  The folder of the uploads.  In both controllers the folder name
    is made of letters, digits and underscores only, so that it is a single
    path segment below the upload directory.  With a first and a last name
    it is not empty, and the local folder is a proper subfolder.  The two
    controllers give the same name to a user whose joined name has no white
    space. *)
Theorem upload_folders_are_single_segments f_name m_name l_name :
  word_only (register_safeName f_name m_name l_name) ∧
  word_only (noc_safeName f_name m_name l_name) ∧
  (JS.truthy f_name = true → JS.truthy l_name = true →
   register_safeName f_name m_name l_name ≠ "" ∧
   noc_safeName f_name m_name l_name ≠ "" ∧
   ∀ base,
     Path.join base (register_safeName f_name m_name l_name)
     = base ++ "/" ++ register_safeName f_name m_name l_name ∧
     Path.join base (noc_safeName f_name m_name l_name)
     = base ++ "/" ++ noc_safeName f_name m_name l_name) ∧
  (no_white_space (fullName_of f_name m_name l_name) →
   noc_safeName f_name m_name l_name = register_safeName f_name m_name l_name).
Proof.
  assert (register_safeName f_name m_name l_name
          = strip (fullName_of f_name m_name l_name)) as Hreg
    by apply collapse_after_strip.
  assert (noc_safeName f_name m_name l_name
          = strip (JS.replace_runs JS.is_space "_"
                     (fullName_of f_name m_name l_name))) as Hnoc
    by reflexivity.
  split; [|split; [|split]].
  - rewrite Hreg. apply strip_word_only.
  - rewrite Hnoc. apply strip_word_only.
  - intros Hf Hl.
    destruct (fullName_has_underscore f_name m_name l_name Hf Hl)
      as (a & rest & Hfull).
    assert (register_safeName f_name m_name l_name ≠ "") as Hr.
    { rewrite Hreg, Hfull. apply strip_keeps_underscore. }
    assert (noc_safeName f_name m_name l_name ≠ "") as Hn.
    { rewrite Hnoc, Hfull. unfold JS.replace_runs.
      rewrite replace_runs_underscore. apply strip_keeps_underscore. }
    split; [done|]. split; [done|]. intros base. unfold Path.join.
    apply String.eqb_neq in Hr, Hn. by rewrite Hr, Hn.
  - intros Hws. rewrite Hnoc, Hreg. unfold JS.replace_runs.
    by rewrite replace_runs_no_white_space.
Qed.

End UploadFolders.

(** ** The seeder of the nationalities *)

Section SeederFacts.

Import Seeder.

Variable D : Driver.

(** X18.  The seeder closes the connection whatever happens: every run
    ends with the connection closed and with exactly one [Disconnect] after
    everything that the run printed.  The run prints the line of the
    completed seeding exactly when all three driver calls resolve, and the
    line of an error otherwise; when the connection fails the collection is
    not touched, and when the clearing fails nothing is inserted. *)
Theorem seeder_always_disconnects db :
  let db' := seedNationalities D db in
  connected db' = false ∧
  ∃ printed,
    trace db' = (trace db ++ printed ++ [Disconnect])%list ∧
    (Disconnect ∉ printed) ∧
    match connect D with
    | Some msg => printed = [Failed msg] ∧ collection db' = collection db
    | None =>
        match deleteMany D (collection db) with
        | (docs, Some msg) =>
            printed = [Connected; Failed msg] ∧ collection db' = docs
        | (docs, None) =>
            match insertMany D nationalities docs with
            | (docs', Some msg) =>
                printed = [Connected; Cleared; Failed msg]
                ∧ collection db' = docs'
            | (docs', None) =>
                printed = [Connected; Cleared; Seeded] ∧ collection db' = docs'
            end
        end
    end.
Proof.
  cbv zeta.
  unfold seedNationalities, try_catch_finally, and_then, mongoose_connect,
    on_collection, log, mongoose_disconnect.
  rewrite map_id.
  destruct (connect D) as [msg|]; cbn.
  { split; [done|]. exists [Failed msg]. rewrite <- app_assoc.
    repeat split; try done. set_solver. }
  destruct (deleteMany D (collection db)) as [docs [msg|]]; cbn.
  { split; [done|]. exists [Connected; Failed msg]. rewrite <- !app_assoc.
    repeat split; try done. set_solver. }
  destruct (insertMany D nationalities docs) as [docs' [msg|]]; cbn.
  { split; [done|]. exists [Connected; Cleared; Failed msg].
    rewrite <- !app_assoc. repeat split; try done. set_solver. }
  split; [done|]. exists [Connected; Cleared; Seeded].
  rewrite <- !app_assoc. repeat split; try done. set_solver.
Qed.

(** X19.  Seeding replaces the collection.  With a driver whose resolved
    calls do what they are documented to do, a run that prints the line of
    the completed seeding leaves exactly the five nationalities of the
    script, in their order, whatever the collection held before; a second
    such run leaves the same names again. *)
Theorem seeding_replaces_the_collection db :
  well_behaved D →
  Seeded ∈ trace (seedNationalities D db) →
  Seeded ∉ trace db →
  map name (collection (seedNationalities D db)) = nationalities ∧
  length (collection (seedNationalities D db)) = 5 ∧
  (∀ db2,
     Seeded ∉ trace db2 →
     Seeded ∈ trace (seedNationalities D db2) →
     map name (collection (seedNationalities D db2))
     = map name (collection (seedNationalities D db))).
Proof.
  intros [Hdel Hins] Hseeded Hfresh.
  assert (∀ d, Seeded ∉ trace d → Seeded ∈ trace (seedNationalities D d) →
            map name (collection (seedNationalities D d)) = nationalities)
    as Hrun.
  { clear db Hseeded Hfresh. intros db Hfresh Hseeded.
    revert Hseeded.
    unfold seedNationalities, try_catch_finally, and_then, mongoose_connect,
      on_collection, log, mongoose_disconnect.
    rewrite map_id.
    destruct (connect D) as [msg|]; cbn.
    { rewrite <- app_assoc. set_solver. }
    destruct (deleteMany D (collection db)) as [docs [msg|]] eqn:Hd; cbn.
    { rewrite <- !app_assoc. set_solver. }
    apply Hdel in Hd as ->.
    destruct (insertMany D nationalities []) as [docs' [msg|]] eqn:Hi; cbn.
    { rewrite <- !app_assoc. set_solver. }
    intros _. apply Hins in Hi as (new & -> & Hnames). done. }
  split; [by apply Hrun|]. split.
  - rewrite <- (length_map name), (Hrun db Hfresh Hseeded). reflexivity.
  - intros db2 Hfresh2 Hseeded2.
    by rewrite (Hrun db Hfresh Hseeded), (Hrun db2 Hfresh2 Hseeded2).
Qed.

End SeederFacts.

(** ** Sessions *)

Section Sessions.

Variable E : Env.

(** X20.  Logging out clears the cookie of the login.  Whatever the
    request and the store, [logoutUser] answers 200, changes nothing and
    clears one cookie; every cookie that a login has set has the name and
    the options of that cleared cookie, and it carries the token of the
    user in the answer. *)
Theorem logout_clears_the_login_cookie req w w' r c :
  loginUser E req w = (w', Sent r) →
  c ∈ cookies r →
  status r = 200 ∧
  (∃ user, user ∈ users w ∧ cookie_value c = generateToken E (_id user)
           ∧ r = login_response E user) ∧
  ∀ req2 w2, ∃ k,
    logoutUser E req2 w2 = (w2, ([k], Sent logged_out)) ∧ clears k c.
Proof.
  unfold loginUser, handle, loginUser_body, bind, when_, User_findOne, ret,
    respond, respond_with_cookie.
  destruct (negb (JS.truthy (req_body req !! "email"))
            || negb (JS.truthy (req_body req !! "password")));
    cbv beta iota zeta.
  { intros [= <- <-] Hc. by apply not_elem_of_nil in Hc. }
  destruct (find_user_by "email" _ (users w)) as [user|] eqn:Hfind.
  2: { intros [= <- <-] Hc. by apply not_elem_of_nil in Hc. }
  destruct (find_user_by_Some _ _ _ _ Hfind) as [Hin _].
  unfold compare_password, ret, throw.
  destruct (path_of user "password") as [h|]; cbv beta iota zeta;
    [|discriminate].
  destruct (bcrypt_compare E _ h); cbn [negb]; cbv beta iota zeta;
    intros [= <- <-] Hc; cbn [cookies] in Hc.
  2: { by apply not_elem_of_nil in Hc. }
  apply list_elem_of_singleton in Hc as ->.
  split; [done|]. split; [by exists user|].
  intros req2 w2. eexists. split; [reflexivity|]. done.
Qed.

(** X21.  Requests without a user.  When the middleware has left no user
    on the request, the two NOC handlers answer 500 with the message of the
    [TypeError] and change nothing, whatever else the request holds, while
    [getProfile] answers 200 with a body that has no data. *)
Theorem requests_without_a_user req now w :
  req_user req = None →
  applyNOC E req now w = (w, Sent (failure_response no_user_error)) ∧
  getNOC req w = (w, Sent (failure_response no_user_error)) ∧
  getProfile req w = (w, Sent (mkResponse 200 (JObj [("success", JBool true)]) [])).
Proof.
  intros Huser.
  unfold applyNOC, getNOC, getProfile, handle, try_catch, applyNOC_try,
    getNOC_try, bind, current_user, throw, respond.
  by rewrite Huser.
Qed.

End Sessions.

(** ** The further properties on concrete requests *)

Section FurtherWitnesses.

Import Sample Scenario.

(** [k ∉ ks] for a key and a list of keys that can be computed. *)
Ltac not_a_key :=
  match goal with
  | |- _ ∉ ?ks => let v := eval vm_compute in ks in change ks with v
  end;
  repeat (apply not_elem_of_cons; split; [discriminate|]);
  apply not_elem_of_nil.

Lemma driver_ok_well_behaved : Seeder.well_behaved Seeder.driver_ok.
Proof.
  split.
  - by intros docs docs' [= <-].
  - intros names docs docs' [= <-]. eexists. split; [reflexivity|].
    change (Seeder.name <$> imap (fun i n => Seeder.mkDoc (length docs + i) n) names
            = names).
    rewrite fmap_imap.
    rewrite (imap_ext _ (const id)) by done.
    by rewrite imap_const, list_fmap_id.
Qed.

Lemma registration_needs_personal_information_witness :
  registerUser env_ok ravi_without_dob noon world0
  = (world0, Sent (error_response 400
                     "Missing required personal information fields.")).
Proof.
  apply (registration_needs_personal_information env_ok ravi_without_dob noon
           world0 "dob").
  - unfold required_fields. set_solver.
  - intros (s & Hs & _). vm_compute in Hs. discriminate Hs.
Defined.

Lemma registration_rejects_duplicates_witness :
  registerUser env_ok ravi_as_asha noon world0
  = (world0, Sent (error_response 409 "Email already exists")).
Proof.
  apply (registration_rejects_duplicates env_ok ravi_as_asha noon world0).
  - apply missing_personal_info_false. vm_compute. reflexivity.
  - apply bad_year_false. vm_compute. reflexivity.
  - apply bad_year_false. vm_compute. reflexivity.
  - vm_compute. eexists. reflexivity.
  - vm_compute. eexists. reflexivity.
  - vm_compute. eexists. reflexivity.
Defined.

Lemma rejected_registration_keeps_earlier_files_witness :
  ∃ w',
    registerUser env_ok ravi_with_photo noon world0
    = (w', Sent (error_response 400
                   ("Only PDF files allowed. '" ++ "photo.png"
                    ++ "' is not a PDF."))) ∧
    users w' = users world0 ∧ outbox w' = outbox world0 ∧
    folders w' = ["src/uploads/RaviTeja_K"] ∧
    disk w'
    = [("src/uploads/RaviTeja_K", "1700000000000-degree_certificate.pdf",
        "%PDF-1.4");
       ("src/uploads/RaviTeja_K", "1700000000001-aadhaar_card.pdf",
        "%PDF-1.5")] ∧
    cloud w'
    = [("%PDF-1.4", "1700000000000-degree_certificate.pdf", "RaviTeja_K");
       ("%PDF-1.5", "1700000000001-aadhaar_card.pdf", "RaviTeja_K")].
Proof.
  destruct (rejected_registration_keeps_earlier_files env_ok ravi_with_photo
              noon world0 "s3cret-pass"
              [("degree_certificate", mkFile "degree.pdf" "%PDF-1.4");
               ("aadhaar_card", mkFile "aadhaar.PDF" "%PDF-1.5")]
              "photo" (mkFile "photo.png" "PNG") [])
    as (w' & Hrun & Husers & Hout & Hfolders & Hdisk & Hcloud).
  - apply passes_steps_1_6_reflect. vm_compute. reflexivity.
  - vm_compute. reflexivity.
  - vm_compute. lia.
  - reflexivity.
  - repeat constructor.
  - intros [|[|i]] kf Hi; [injection Hi as <-..|discriminate Hi];
      eexists; vm_compute; reflexivity.
  - vm_compute. discriminate.
  - exists w'. split; [exact Hrun|]. split; [exact Husers|].
    split; [exact Hout|]. split; [exact Hfolders|].
    split; [by rewrite Hdisk | by rewrite Hcloud].
Defined.

Lemma failed_registration_upload_leaves_its_local_copy_witness :
  ∃ w',
    registerUser env_upload_fails ravi_large_file noon world0
    = (w', Sent (failure_response "File size too large")) ∧
    users w' = users world0 ∧ outbox w' = outbox world0 ∧
    disk w'
    = [("src/uploads/RaviTeja_K", "1700000000000-degree_certificate.pdf",
        "%PDF-1.4");
       ("src/uploads/RaviTeja_K", "1700000000001-aadhaar_card.pdf",
        "%PDF-1.7")] ∧
    cloud w'
    = [("%PDF-1.4", "1700000000000-degree_certificate.pdf", "RaviTeja_K")].
Proof.
  destruct (failed_registration_upload_leaves_its_local_copy env_upload_fails
              ravi_large_file noon world0 "s3cret-pass"
              [("degree_certificate", mkFile "degree.pdf" "%PDF-1.4")]
              "aadhaar_card" (mkFile "aadhaar.pdf" "%PDF-1.7") []
              "File size too large")
    as (w' & Hrun & Husers & Hout & Hdisk & Hcloud).
  - apply passes_steps_1_6_reflect. vm_compute. reflexivity.
  - vm_compute. reflexivity.
  - vm_compute. lia.
  - reflexivity.
  - repeat constructor.
  - intros [|i] kf Hi; [injection Hi as <-|discriminate Hi].
    eexists. vm_compute. reflexivity.
  - vm_compute. reflexivity.
  - vm_compute. reflexivity.
  - exists w'. split; [exact Hrun|]. split; [exact Husers|].
    split; [exact Hout|]. split; [by rewrite Hdisk | by rewrite Hcloud].
Defined.

Lemma upload_loop_puts_urls_into_the_form_witness :
  ∃ w' d,
    register_files env_ok "RaviTeja_K" "src/uploads/RaviTeja_K" noon
      [("degree_certificate", mkFile "degree.pdf" "%PDF-1.4");
       ("aadhaar_card", mkFile "aadhaar.PDF" "%PDF-1.5")]
      (form ravi_form) world0
    = (w', Next d) ∧
    (∃ url,
       uploads_to env_ok "RaviTeja_K" (noon 1)
         ("aadhaar_card", mkFile "aadhaar.PDF" "%PDF-1.5") url
       ∧ d !! "aadhaar_card" = Some url) ∧
    d !! "email" = form ravi_form !! "email".
Proof.
  assert (match snd (register_files env_ok "RaviTeja_K"
                       "src/uploads/RaviTeja_K" noon
                       [("degree_certificate", mkFile "degree.pdf" "%PDF-1.4");
                        ("aadhaar_card", mkFile "aadhaar.PDF" "%PDF-1.5")]
                       (form ravi_form) world0)
          with Next _ => true | _ => false end = true) as Hnext
    by (vm_compute; reflexivity).
  destruct (register_files env_ok _ _ _ _ _ _) as [w' [d | r | msg]] eqn:Hrun;
    [|discriminate Hnext..].
  pose proof (upload_loop_puts_urls_into_the_form env_ok _ _ _ _ _ _ _ _ Hrun)
    as (_ & _ & Hother & Hurls & _).
  exists w', d. split; [reflexivity|]. split.
  - apply (Hurls 1); [reflexivity|].
    unfold last_of_its_name. cbn. apply not_elem_of_nil.
  - apply Hother. cbn.
    repeat (apply not_elem_of_cons; split; [discriminate|]).
    apply not_elem_of_nil.
Defined.

Lemma handlers_keep_users_unique_witness :
  store_unique world_nocs ∧
  store_unique (fst (registerUser env_ok ravi_request noon world_nocs)).
Proof.
  assert (store_unique world_nocs) as Hunique.
  { split; vm_compute;
      repeat (apply NoDup_cons; split; [set_solver|]); apply NoDup_nil_2. }
  split; [exact Hunique|].
  destruct (handlers_keep_users_unique env_ok world_nocs Hunique)
    as (Hregister & _ & _).
  apply (Hregister ravi_request noon _
           (snd (registerUser env_ok ravi_request noon world_nocs))).
  - apply surjective_pairing.
  - not_a_key.
  - not_a_key.
Defined.

Lemma login_needs_a_matching_hash_witness :
  world0 = world0 ∧
  (login_response env_ok asha = missing_credentials
   ∨ login_response env_ok asha = invalid_credentials
   ∨ ∃ e p user h,
       req_body asha_login !! "email" = Some e
       ∧ req_body asha_login !! "password" = Some p
       ∧ find_user_by "email" (Some e) (users world0) = Some user
       ∧ path_of user "password" = Some h
       ∧ bcrypt_compare env_ok p h = true
       ∧ login_response env_ok asha = login_response env_ok user).
Proof.
  apply (login_needs_a_matching_hash env_ok asha_login world0 world0
           (login_response env_ok asha)).
  vm_compute. reflexivity.
Defined.

Lemma registered_user_can_log_in_witness :
  let run := registerUser env_ok ravi_request noon world0 in
  ∃ user,
    answer run = created_response env_ok user ∧
    loginUser env_ok ravi_login (fst run)
    = (fst run, Sent (login_response env_ok (stored env_ok user))) ∧
    _id (stored env_ok user) = _id user.
Proof.
  intros run.
  apply (registered_user_can_log_in env_ok ravi_request noon world0 (fst run)
           (answer run) ravi_login "ravi@example.org" "s3cret-pass").
  - vm_compute. reflexivity.
  - vm_compute. reflexivity.
  - not_a_key.
  - not_a_key.
  - vm_compute. reflexivity.
  - discriminate.
  - vm_compute. reflexivity.
  - vm_compute. reflexivity.
  - vm_compute. reflexivity.
  - vm_compute. reflexivity.
Defined.

Lemma reset_link_sets_the_login_password_witness :
  ∃ w1 w2,
    forgotPassword env_ok asha_forgot "tok" 1000 world0
    = (w1, Sent (reset_mail_sent asha_forgot "tok")) ∧
    resetPassword env_ok asha_reset 2000 w1
    = (w2, Sent (reset_response env_ok asha)) ∧
    loginUser env_ok asha_new_login w2
    = (w2, Sent (login_response env_ok
                   (stored env_ok
                      (updated asha_reset (pending env_ok asha "tok" 1000))))).
Proof.
  destruct (reset_link_sets_the_login_password env_ok asha_forgot "tok" 1000
              asha_reset 2000 asha_new_login world0 asha "asha@example.org"
              "new password")
    as (w1 & w2 & Hforgot & Hreset & Hlogin & _).
  - vm_compute. apply NoDup_singleton.
  - vm_compute. reflexivity.
  - discriminate.
  - vm_compute. reflexivity.
  - vm_compute. reflexivity.
  - intros u Hu Hne. apply list_elem_of_singleton in Hu. done.
  - reflexivity.
  - vm_compute. reflexivity.
  - vm_compute. reflexivity.
  - discriminate.
  - vm_compute. reflexivity.
  - vm_compute. reflexivity.
  - vm_compute. reflexivity.
  - vm_compute. reflexivity.
  - exists w1, w2. split; [exact Hforgot|]. split; [exact Hreset|].
    exact Hlogin.
Defined.

Lemma newer_reset_link_replaces_the_older_one_witness :
  ∃ w1 w2,
    forgotPassword env_ok asha_forgot "tok" 1000 world0
    = (w1, Sent (reset_mail_sent asha_forgot "tok")) ∧
    forgotPassword env_ok asha_forgot "tok2" 2000 w1
    = (w2, Sent (reset_mail_sent asha_forgot "tok2")) ∧
    resetPassword env_ok asha_reset 3000 w2 = (w2, Sent invalid_or_expired).
Proof.
  destruct (newer_reset_link_replaces_the_older_one env_ok asha_forgot "tok"
              1000 asha_forgot "tok2" 2000 world0 asha)
    as (w1 & w2 & Hfirst & Hsecond & Hold & _).
  - vm_compute. apply NoDup_singleton.
  - vm_compute. reflexivity.
  - reflexivity.
  - vm_compute. reflexivity.
  - vm_compute. reflexivity.
  - vm_compute. discriminate.
  - intros u Hu Hne. apply list_elem_of_singleton in Hu. done.
  - exists w1, w2. split; [exact Hfirst|]. split; [exact Hsecond|].
    apply Hold. reflexivity.
Defined.

Lemma password_handlers_write_one_record_witness :
  map _id (users (fst (resetPassword env_ok asha_reset 2000 world_two)))
  = map _id (users world_two).
Proof.
  destruct (password_handlers_write_one_record env_ok world_two)
    as (_ & Hreset).
  - vm_compute. repeat (apply NoDup_cons; split; [set_solver|]).
    apply NoDup_nil_2.
  - destruct (Hreset asha_reset 2000%Z
                (fst (resetPassword env_ok asha_reset 2000 world_two))
                (snd (resetPassword env_ok asha_reset 2000 world_two)))
      as (Hids & _).
    + apply surjective_pairing.
    + exact Hids.
Defined.

Lemma requests_left_unanswered_witness :
  loginUser env_strict chitra_login world_imported
  = (world_imported, Unhandled "Illegal arguments: string, undefined") ∧
  resetPassword env_strict (with_body [("password", "abc")] "tok") 5000
    world_imported
  = (world_imported, Unhandled too_short) ∧
  ∃ w',
    resetPassword env_strict asha_reset 6000 world_imported
    = (w', Sent (reset_response env_strict asha_pending)).
Proof.
  destruct (requests_left_unanswered env_strict world_imported)
    as (Hlogin & Hreset).
  split.
  - apply (Hlogin chitra_login chitra).
    + apply truthy_provided. vm_compute. reflexivity.
    + apply truthy_provided. vm_compute. reflexivity.
    + vm_compute. reflexivity.
    + vm_compute. reflexivity.
  - destruct (Hreset (with_body [("password", "abc")] "tok") 5000%Z
                asha_pending too_short)
      as (Hrun & Hretry).
    + vm_compute. reflexivity.
    + vm_compute. reflexivity.
    + split; [exact Hrun|]. apply (Hretry asha_reset 6000%Z).
      * reflexivity.
      * lia.
      * split; [reflexivity | by exists 901000%Z].
      * vm_compute. reflexivity.
Defined.

Lemma new_application_is_listed_for_its_owner_only_witness :
  let run := applyNOC env_ok asha_noc noon world_nocs in
  ∃ user noc,
    req_user asha_noc = Some user ∧ answer run = noc_created noc ∧
    (nocs (fst run) = nocs world_nocs ++ [noc])%list ∧
    owner noc = Some (VId (_id user)) ∧ createdAt noc = noon 2.
Proof.
  intros run.
  destruct (new_application_is_listed_for_its_owner_only env_ok asha_noc noon
              world_nocs (fst run) (answer run))
    as (user & noc & Huser & Hr & Hnocs & Hown & Htime & _).
  - vm_compute. reflexivity.
  - vm_compute. reflexivity.
  - not_a_key.
  - exists user, noc. split; [exact Huser|]. split; [exact Hr|].
    split; [exact Hnocs|]. split; [exact Hown | exact Htime].
Defined.

Lemma failed_noc_upload_keeps_the_earlier_files_witness :
  ∃ w',
    applyNOC env_upload_fails asha_noc noon world0
    = (w', Sent (failure_response "File size too large")) ∧
    users w' = users world0 ∧ nocs w' = nocs world0 ∧
    outbox w' = outbox world0 ∧
    cloud w'
    = [("%PDF-1.4", "1700000000000-tdc_reg_certificate_upload.pdf",
        "Asha_Rao")] ∧
    disk w'
    = [("src/uploads/Asha_Rao",
        "1700000000000-tdc_reg_certificate_upload.pdf", "%PDF-1.4")].
Proof.
  destruct (failed_noc_upload_keeps_the_earlier_files env_upload_fails asha_noc
              noon world0 asha
              [("tdc_reg_certificate_upload",
                mkFile "certificate.pdf" "%PDF-1.4")]
              ("aadhaar_upload", mkFile "aadhaar.pdf" "%PDF-1.7") []
              "File size too large")
    as (w' & Hrun & Husers & Hnocs & Hout & Hcloud & Hdisk).
  - reflexivity.
  - vm_compute. eexists. reflexivity.
  - vm_compute. eexists. reflexivity.
  - apply truthy_provided. vm_compute. reflexivity.
  - apply truthy_provided. vm_compute. reflexivity.
  - reflexivity.
  - intros [|i] kf Hi; [injection Hi as <-|discriminate Hi].
    eexists. vm_compute. reflexivity.
  - vm_compute. reflexivity.
  - exists w'. split; [exact Hrun|]. split; [exact Husers|].
    split; [exact Hnocs|]. split; [exact Hout|].
    split; [by rewrite Hcloud | by rewrite Hdisk].
Defined.

Lemma seeding_replaces_the_collection_witness :
  map Seeder.name
      (Seeder.collection (Seeder.seedNationalities Seeder.driver_ok db0))
  = Seeder.nationalities.
Proof.
  destruct (seeding_replaces_the_collection Seeder.driver_ok db0)
    as (Hnames & _).
  - exact driver_ok_well_behaved.
  - vm_compute. set_solver.
  - vm_compute. set_solver.
  - exact Hnames.
Defined.

Lemma logout_clears_the_login_cookie_witness :
  ∃ k,
    logoutUser env_ok anonymous world0 = (world0, ([k], Sent logged_out)) ∧
    clears k (auth_cookie env_ok (generateToken env_ok 1)).
Proof.
  destruct (logout_clears_the_login_cookie env_ok asha_login world0 world0
              (login_response env_ok asha)
              (auth_cookie env_ok (generateToken env_ok 1)))
    as (_ & _ & Hlogout).
  - vm_compute. reflexivity.
  - left.
  - exact (Hlogout anonymous world0).
Defined.

Lemma requests_without_a_user_witness :
  applyNOC env_ok anonymous noon world0
  = (world0, Sent (failure_response no_user_error)) ∧
  getNOC anonymous world0 = (world0, Sent (failure_response no_user_error)).
Proof.
  destruct (requests_without_a_user env_ok anonymous noon world0)
    as (Happly & Hlist & _).
  - reflexivity.
  - split; [exact Happly | exact Hlist].
Defined.

End FurtherWitnesses.
